(** * Sunray mower: pose estimation, line tracking and motion-safety monitors

    A shallow embedding of the control core of the Sunray firmware
    ([StateEstimator.cpp], [LineTracker.cpp], [bumper.cpp] and the monitor
    functions of [robot.cpp]) together with the properties proved about it.

    Conventions of the embedding:
    - a C++ [float]/[double] is a real number ([R]); arithmetic is exact, so
      rounding, infinities and NaN are outside the model;
    - an [unsigned long] is an integer in [Z] reduced modulo [2^32] wherever
      the source computes with it (the word size of the Arduino targets);
    - [millis()] is read once per call of a modelled function ([now]);
    - calls into collaborators whose code is elsewhere (the active operation,
      the motor, the buzzer, the map) are recorded, in order, as [Output]s;
    - console output is a side channel and is left out. *)

From Stdlib Require Import Reals Lra ZArith Lia List Bool.
Import ListNotations.

Open Scope R_scope.

(** ** Arduino and libm primitives *)

Module Arduino.

Definition Rltb (a b : R) : bool := if Rlt_dec a b then true else false.
Definition Rleb (a b : R) : bool := if Rle_dec a b then true else false.
Definition Rgtb (a b : R) : bool := Rltb b a.
Definition Rgeb (a b : R) : bool := Rleb b a.
Definition Reqb (a b : R) : bool := if Req_dec_T a b then true else false.
Definition Rneqb (a b : R) : bool := negb (Reqb a b).

Definition fabs (x : R) : R := Rabs x.
Definition sq (x : R) : R := x * x.

(** [#define min(a,b) ((a)<(b)?(a):(b))] and its companions. *)
Definition min (a b : R) : R := if Rltb a b then a else b.
Definition max (a b : R) : R := if Rgtb a b then a else b.
Definition constrain (x lo hi : R) : R :=
  if Rltb x lo then lo else if Rgtb x hi then hi else x.

(** libm's two-argument arctangent. *)
Definition atan2 (y x : R) : R :=
  if Rltb 0 x then atan (y / x)
  else if Rltb x 0 then
         (if Rleb 0 y then atan (y / x) + PI else atan (y / x) - PI)
  else if Rltb 0 y then PI / 2
  else if Rltb y 0 then - PI / 2
  else 0.

(** [unsigned long] arithmetic wraps modulo [2^32]; a [long] holding the
    difference of two counters reads the same bits as a signed number. *)
Definition wordModulus : Z := 2 ^ 32.
Definition u32 (z : Z) : Z := (z mod wordModulus)%Z.
Definition s32 (z : Z) : Z :=
  let u := u32 z in
  if (u <? 2 ^ 31)%Z then u else (u - wordModulus)%Z.

End Arduino.
Import Arduino.

Declare Scope cmp_scope.
Notation "a <? b" := (Rltb a b) : cmp_scope.
Notation "a <=? b" := (Rleb a b) : cmp_scope.
Notation "a >? b" := (Rgtb a b) : cmp_scope.
Notation "a >=? b" := (Rgeb a b) : cmp_scope.
Delimit Scope cmp_scope with cmp.
Open Scope cmp_scope.

(** ** Enumerations of robot.h, gps.h and map.h *)

Inductive OperationType := OP_IDLE | OP_MOW | OP_CHARGE | OP_ERROR | OP_DOCK.
Inductive Sensor := SENS_NONE | SENS_BUMPER | SENS_STOP_BUTTON.
Inductive SolType := SOL_INVALID | SOL_FLOAT | SOL_FIXED.
Inductive WayType := WAY_PERIMETER | WAY_EXCLUSION | WAY_DOCK | WAY_MOW | WAY_FREE.
Inductive SoundSelect := SND_READY | SND_ERROR | SND_WAIT.

Definition OperationType_eqb (a b : OperationType) : bool :=
  match a, b with
  | OP_IDLE, OP_IDLE | OP_MOW, OP_MOW | OP_CHARGE, OP_CHARGE
  | OP_ERROR, OP_ERROR | OP_DOCK, OP_DOCK => true
  | _, _ => false
  end.

Definition SolType_eqb (a b : SolType) : bool :=
  match a, b with
  | SOL_INVALID, SOL_INVALID | SOL_FLOAT, SOL_FLOAT | SOL_FIXED, SOL_FIXED => true
  | _, _ => false
  end.

Definition WayType_eqb (a b : WayType) : bool :=
  match a, b with
  | WAY_PERIMETER, WAY_PERIMETER | WAY_EXCLUSION, WAY_EXCLUSION
  | WAY_DOCK, WAY_DOCK | WAY_MOW, WAY_MOW | WAY_FREE, WAY_FREE => true
  | _, _ => false
  end.

(** ** Calls into collaborators

    Events delivered to the active operation ([activeOp->on...]), commands to
    the motor, the buzzer and the map, in the order the code issues them. *)

Inductive Output :=
| onGpsFixTimeout
| onDockGpsReboot
| onKidnapped (state : bool)
| onObstacle
| onObstacleRotation
| onWaitCommand
| onTargetReached
| onNoFurtherWaypoints
| changeOperationTypeByOperator (op : OperationType)
| setMowState (switchOn : bool)
| setLinearAngularSpeed (linear angular : R) (useLinearRamp : bool)
| buzzerSound (snd : SoundSelect) (async : bool)
| setObstaclePosition (x y angle dist diameter : R)
| nextPoint (sim : bool) (x y : R)
| decDockPointsIdx
| setWaitTime (waitTime : Z)
| mpu_reset_fifo
| saveState.

(** ** Configuration (config.h)

    The tunables the modelled functions read.  config.h is not part of the
    sources under study, so every macro is a field here and the theorems hold
    for every configuration. *)

Record Config := mkConfig {
  (* motors *)
  MOTOR_MIN_SPEED : R;
  MOTOR_MAX_SPEED : R;
  (* rotate-in-place *)
  TRANSITION_ANGLE : R;
  ROTATION_RAMP : bool;
  ROTATION_RAMP_MIN : R;
  ROTATION_RAMP_MAX : R;
  ANGLEDIFF1 : R;
  ANGLEDIFF2 : R;
  ROTATETOTARGETSPEED1 : R;
  ROTATETOTARGETSPEED2 : R;
  ROTATETOTARGETSPEED3 : R;
  ANGLEPRECISE : R;
  (* stanley gains *)
  MAP_STANLEY_CONTROL : bool;
  STANLEY_CONTROL_K_NORMAL : R;
  STANLEY_CONTROL_P_NORMAL : R;
  STANLEY_CONTROL_K_SLOW : R;
  STANLEY_CONTROL_P_SLOW : R;
  STANLEY_FLOAT_K_NORMAL : R;
  STANLEY_FLOAT_P_NORMAL : R;
  STANLEY_FLOAT_K_SLOW : R;
  STANLEY_FLOAT_P_SLOW : R;
  (* situational speeds *)
  FLOATSPEED : R;
  NEARWAYPOINTSPEED : R;
  SONARSPEED : R;
  OVERLOADSPEED : R;
  KEEPSLOWSPEED : R;
  RETRYSLOWSPEED : R;
  TRACKSLOWSPEED : R;
  DOCK_NO_ROTATION_SPEED : R;
  DOCKPATHSPEED : R;
  DOCKSPEED : R;
  NEARWAYPOINTDISTANCE : R;
  DISTANCE_RAMP : bool;
  DISTANCE_RAMP_MINSPEED : R;
  TRANSITION_SPEED : R;
  TARGET_REACHED_TOLERANCE : R;
  (* gps conditions *)
  DOCK_GPS_REBOOT : bool;
  KIDNAP_DETECT : bool;
  KIDNAP_DETECT_ALLOWED_PATH_TOLERANCE : R;
  KIDNAP_DETECT_DISTANCE_DOCK_UNDOCK : R;
  KIDNAP_DETECT_ALLOWED_PATH_TOLERANCE_DOCK_UNDOCK : R;
  (* docking *)
  DOCK_NO_ROTATION : bool;
  DOCK_NO_ROTATION_DISTANCE : R;
  DOCK_NO_ROTATION_TIMER : Z;
  MOW_START_AT_WAYMOW : bool;
  DEBUG_LINETRACKER : bool;
  (* lift, bumper, sonar *)
  ENABLE_LIFT_DETECTION : bool;        (* #ifdef ENABLE_LIFT_DETECTION *)
  LIFT_OBSTACLE_AVOIDANCE : bool;      (* #ifdef LIFT_OBSTACLE_AVOIDANCE *)
  BUMPER_ENABLE : bool;
  BUMPER_TRIGGER_DELAY : Z;
  BUMPER_MAX_TRIGGER_TIME : Z;         (* seconds *)
  BUMPER_DEADTIME : Z;
  SONAR_TRIGGER_OBSTACLES : bool;
  (* gps obstacle heuristics *)
  GPS_SPEED_DEADTIME : Z;
  NO_GPS_OBSTACLE : bool;
  GPS_SPEED_DETECTION : bool;
  GPS_SPEED_DELAY : Z;
  GPS_MOTION_DETECTION_TIMEOUT : Z;
  GPS_MOTION_DETECTION_DELTA : R;
  GPS_MOTION_DETECTION : bool;
  MOWER_RADIUS_FRONT : R;
  MOWER_RADIUS_BACK : R;
  OBSTACLE_DIAMETER : R;
  ESCAPE_REVERSE_WAY : R;
  (* control cycle *)
  ROBOT_IDLE_CYCLE : Z;
  ROBOT_CONTROL_CYCLE : Z;
  (* numeric value of a WayType enumerator (map.h), for its use as a condition *)
  WAY_value : WayType -> Z
}.

(** ** Collaborators read by the modelled functions *)

(** The fields of [motor] (motor.h) that are read. *)
Record Motor := mkMotor {
  motorLeftTicks : Z;
  motorRightTicks : Z;
  ticksPerCm : R;
  wheelBaseCm : R;
  linearSpeedSet : R;       (* m/s *)
  angularSpeedSet : R;      (* rad/s *)
  motorLeftOverload : bool;
  motorRightOverload : bool;
  motorMowOverload : bool;
  keepslow : bool;
  retryslow : bool;
  switchedOn : bool;
  enableMowMotor : bool
}.

(** The fields of [gps] that are read. *)
Record Gps := mkGps {
  solutionAvail : bool;
  solution : SolType;
  relPosN : R;
  relPosE : R;
  lat : R;
  lon : R;
  groundSpeed : R
}.

Record Point := mkPoint { px : R; py : R }.

(** What [maps] answers during one call: its public fields and the results
    of its query methods. *)
Record Map := mkMap {
  targetPoint : Point;
  lastTargetPoint : Point;
  distanceToTargetPoint : R -> R -> R;
  distanceToLastTargetPoint : R -> R -> R;
  trackSlow : bool;
  trackReverse : bool;
  wayMode : WayType;
  shouldDock : bool;
  shouldGpsReboot : bool;
  isAtGpsRebootPoint : bool;
  isUndocking : bool;
  isDocking : bool;
  getDockingPos : R * R * R;             (* dockX, dockY, dockDelta *)
  isAtDockPath : bool;
  isGoingToDockPath : bool;
  isTargetingLastDockPoint : bool;
  isBetweenLastAndNextToLastDockPoint : bool;
  nextPointIsStraight : bool;
  nextPointResult : bool;                (* what maps.nextPoint returns *)
  useGPSfixForDeltaEstimation : bool;
  useGPSfloatForDeltaEstimation : bool;
  useGPSfixForPosEstimation : bool;
  useGPSfloatForPosEstimation : bool;
  useIMU : bool
}.

(** Sensor drivers and the buzzer, as read during one call. *)
Record Drivers := mkDrivers {
  liftTriggered : bool;          (* liftDriver.triggered() *)
  sonarObstacle : bool;          (* sonar.obstacle() *)
  sonarNearObstacle : bool;      (* sonar.nearObstacle() *)
  buzzerIsPlaying : bool;        (* buzzer.isPlaying() *)
  imuFound : bool;               (* imuDriver.imuFound *)
  getLeftBumper : bool;          (* bumperDriver.getLeftBumper() *)
  getRightBumper : bool          (* bumperDriver.getRightBumper() *)
}.

(** helper.h and Arduino's [map]: declared, but defined outside the sources
    under study.  The model is parametric in them. *)
Class Helper := mkHelper {
  scalePI : R -> R;
  distancePI : R -> R -> R;
  scalePIangles : R -> R -> R;
  fusionPI : R -> R -> R -> R;
  pointsAngle : R -> R -> R -> R -> R;
  distance : R -> R -> R -> R -> R;
  distanceLineInfinite : R -> R -> R -> R -> R -> R -> R;
  distanceLine : R -> R -> R -> R -> R -> R -> R;
  relativeLL : R -> R -> R -> R -> R * R;     (* lat1 lon1 lat2 lon2 -> (n, e) *)
  map : R -> R -> R -> R -> R -> R
}.

(** ** Global variables

    The firmware keeps its state in file-level globals.  They are modelled as
    one store, indexed by the variable's name and typed by the variable's C
    type: [float] variables, integer variables and [bool] variables. *)

Inductive RVar :=
(* StateEstimator.cpp *)
| stateX | stateY | stateDelta | stateHeading | stateDeltaGPS | stateDeltaIMU
| stateGroundSpeed | lastPosN | lastPosE | lastPosDelta | stateDeltaLast
| stateDeltaSpeed | stateDeltaSpeedLP | stateDeltaSpeedIMU | stateDeltaSpeedWheels
| diffIMUWheelYawSpeed | diffIMUWheelYawSpeedLP | lateralError
(* LineTracker.cpp *)
| stanleyTrackingNormalK | stanleyTrackingNormalP | stanleyTrackingSlowK
| stanleyTrackingSlowP | targetDist | lastTargetDist | setSpeed | CurrSpeed | CurrRot
| linear | angular | x_old | y_old | x_new | y_new | trackerDiffDelta | targetDelta
| distToPath
| stanley_k | stanley_p                    (* statics k, p of stanleyTracker *)
(* robot.cpp *)
| lastGPSMotionX | lastGPSMotionY | absolutePosSourceLon | absolutePosSourceLat
(* Stats.cpp *)
| statMowDistanceTraveled.

Inductive ZVar :=
(* StateEstimator.cpp *)
| stateLeftTicks | stateRightTicks | timeLastState | solutionTime
| lastSolutionTime | solutionTimeDelta
(* LineTracker.cpp *)
| reachedPointBeforeDockTime
| chosenIndex | chosenIndexl               (* statics of linearSpeedState *)
(* robot.cpp *)
| robot_control_cycle | gpsObstacleNotAllowedTime | deltaTime | lastFixTime
| fixTimeout | nextGPSMotionCheckTime | linearMotionStartTime
| angularMotionStartTime | overallMotionTimeout
| detectObstacle_lastBumperTime | noGPSSpeedTime   (* statics of detectObstacle *)
(* bumper.cpp *)
| leftTrigTime | rightTrigTime | rightOnTimer | leftOnTimer | lastBumperTime
(* Stats.cpp *)
| statGPSJumps | statMowBumperCounter | statMowSonarCounter | statMowLiftCounter
| statMowGPSMotionTimeoutCounter | statMowDiffIMUWheelYawSpeedCounter.

Inductive BVar :=
(* StateEstimator.cpp *)
| gpsJump | resetLastPos
(* LineTracker.cpp *)
| mow | trackslow_allowed | straight | shouldRotate | shouldRotatel
| angleToTargetFits | angleToTargetPrecise | targetReached | stateKidnapped
| dockTimer | unDockTimer | oneTrigger
| wasStraight                              (* static of distanceRamp *)
(* robot.cpp *)
| stateChargerConnected | gpsObstacleNotAllowed | absolutePosSource
(* bumper.cpp *)
| inputLeftPressed | inputRightPressed | outputLeftPressed | outputRightPressed
| bumperLeft | bumperRight.

Scheme Equality for RVar.
Scheme Equality for ZVar.
Scheme Equality for BVar.

Record Globals := mkGlobals {
  fR : RVar -> R;
  fZ : ZVar -> Z;
  fB : BVar -> bool;
  stateOp : OperationType;       (* operation-mode *)
  stateSensor : Sensor;          (* last triggered sensor *)
  target : Point;
  lastTarget : Point
}.

Definition setR (x : RVar) (v : R) (s : Globals) : Globals :=
  {| fR := fun y => if RVar_beq x y then v else fR s y;
     fZ := fZ s; fB := fB s; stateOp := stateOp s; stateSensor := stateSensor s;
     target := target s; lastTarget := lastTarget s |}.

Definition setZ (x : ZVar) (v : Z) (s : Globals) : Globals :=
  {| fR := fR s;
     fZ := fun y => if ZVar_beq x y then v else fZ s y;
     fB := fB s; stateOp := stateOp s; stateSensor := stateSensor s;
     target := target s; lastTarget := lastTarget s |}.

Definition setB (x : BVar) (v : bool) (s : Globals) : Globals :=
  {| fR := fR s; fZ := fZ s;
     fB := fun y => if BVar_beq x y then v else fB s y;
     stateOp := stateOp s; stateSensor := stateSensor s;
     target := target s; lastTarget := lastTarget s |}.

Definition set_stateOp (v : OperationType) (s : Globals) : Globals :=
  {| fR := fR s; fZ := fZ s; fB := fB s; stateOp := v;
     stateSensor := stateSensor s; target := target s; lastTarget := lastTarget s |}.

Definition set_stateSensor (v : Sensor) (s : Globals) : Globals :=
  {| fR := fR s; fZ := fZ s; fB := fB s; stateOp := stateOp s;
     stateSensor := v; target := target s; lastTarget := lastTarget s |}.

Definition set_target (v : Point) (s : Globals) : Globals :=
  {| fR := fR s; fZ := fZ s; fB := fB s; stateOp := stateOp s;
     stateSensor := stateSensor s; target := v; lastTarget := lastTarget s |}.

Definition set_lastTarget (v : Point) (s : Globals) : Globals :=
  {| fR := fR s; fZ := fZ s; fB := fB s; stateOp := stateOp s;
     stateSensor := stateSensor s; target := target s; lastTarget := v |}.

(** [x++] on an [unsigned long] counter. *)
Definition incZ (x : ZVar) (s : Globals) : Globals :=
  setZ x (u32 (fZ s x + 1)) s.

(** ** robot.cpp: motion bookkeeping, predicates on the commanded motion,
       triggers and the operation switch *)

Section RobotBasics.

Variable cfg : Config.

Definition resetStateEstimation (s : Globals) : Globals :=
  let s := setR stateDeltaSpeedIMU 0 s in
  let s := setR stateDeltaSpeed 0 s in
  let s := setR stateDeltaSpeedLP 0 s in
  let s := setR stateDeltaSpeedWheels 0 s in
  let s := setR diffIMUWheelYawSpeed 0 s in
  let s := setR diffIMUWheelYawSpeedLP 0 s in
  s.

(* reset linear motion measurement *)
Definition resetLinearMotionMeasurement (now : Z) (s : Globals) : Globals :=
  setZ linearMotionStartTime now s.

(* reset angular motion measurement *)
Definition resetAngularMotionMeasurement (now : Z) (s : Globals) : Globals :=
  setZ angularMotionStartTime now s.

(* reset overall motion timeout *)
Definition resetOverallMotionTimeout (now : Z) (s : Globals) : Globals :=
  setZ overallMotionTimeout (u32 (now + 10000)) s.

Definition updateGPSMotionCheckTime (now : Z) (s : Globals) : Globals :=
  setZ nextGPSMotionCheckTime
       (u32 (now + GPS_MOTION_DETECTION_TIMEOUT cfg * 1000)) s.

Definition resetMotion (now : Z) (s : Globals) : Globals :=
  let s := resetLinearMotionMeasurement now s in
  let s := resetAngularMotionMeasurement now s in
  let s := resetOverallMotionTimeout now s in
  let s := resetStateEstimation s in
  s.

(* should robot move forward or backward? *)
Definition robotShouldMove (motor : Motor) : bool :=
  fabs (linearSpeedSet motor) >=? MOTOR_MIN_SPEED cfg.

(* should robot rotate? only applies when robot is nearly still *)
Definition robotShouldRotate (motor : Motor) : bool :=
  if (fabs (linearSpeedSet motor) <? MOTOR_MIN_SPEED cfg)
     && (fabs (angularSpeedSet motor) / PI * 180 >? 4)
  then true else false.

Definition triggerWaitCommand (waitTime : Z) : list Output :=
  [setWaitTime waitTime; onWaitCommand].

(* drive reverse if robot cannot move forward *)
Definition triggerObstacle (now : Z) (s : Globals) : Globals * list Output :=
  (resetMotion now s, [onObstacle]).

(* detect lift: returns true, if lift detected, otherwise false *)
Definition detectLift (drv : Drivers) : bool :=
  if ENABLE_LIFT_DETECTION cfg then
    if liftTriggered drv then true else false
  else false.

(* set new robot operation *)
Definition setOperation (op : OperationType) (allowRepeat : bool) (s : Globals)
  : Globals * list Output :=
  if OperationType_eqb (stateOp s) op && negb allowRepeat then (s, [])
  else
    let s := set_stateOp op s in
    let s :=
      if OperationType_eqb (stateOp s) OP_IDLE
         || OperationType_eqb (stateOp s) OP_CHARGE
         || fB s stateChargerConnected
      then setZ robot_control_cycle (ROBOT_IDLE_CYCLE cfg) s
      else setZ robot_control_cycle (ROBOT_CONTROL_CYCLE cfg) s in
    (s, [mpu_reset_fifo; changeOperationTypeByOperator (stateOp s); saveState]).

End RobotBasics.

(** ** bumper.cpp *)

Module Bumper.
Section Bumper.

Variable cfg : Config.

Definition run (now : Z) (drv : Drivers) (s : Globals) : Globals * list Output :=
  (* read raw bumper input states *)
  let s := setB inputLeftPressed (getLeftBumper drv) s in
  let s := setB inputRightPressed (getRightBumper drv) s in
  if BUMPER_ENABLE cfg then
    (* debounce and delay logic for left bumper *)
    let s :=
      if fB s inputLeftPressed then
        let s :=
          if negb (fB s bumperLeft) then
            (* on rising edge: store trigger time and reset timer *)
            let s := setZ leftTrigTime now s in
            setZ leftOnTimer 0 s
          else s in
        let s := setB bumperLeft true s in
        let s := setZ leftOnTimer
                   (u32 (fZ s leftOnTimer + u32 (now - fZ s lastBumperTime))) s in
        if (now >=? u32 (fZ s leftTrigTime + BUMPER_TRIGGER_DELAY cfg))%Z
        then setB outputLeftPressed true s
        else s
      else
        let s := setB bumperLeft false s in
        setB outputLeftPressed false s in
    (* debounce and delay logic for right bumper *)
    let s :=
      if fB s inputRightPressed then
        let s :=
          if negb (fB s bumperRight) then
            let s := setZ rightTrigTime now s in
            setZ rightOnTimer 0 s
          else s in
        let s := setB bumperRight true s in
        let s := setZ rightOnTimer
                   (u32 (fZ s rightOnTimer + u32 (now - fZ s lastBumperTime))) s in
        if (now >=? u32 (fZ s rightTrigTime + BUMPER_TRIGGER_DELAY cfg))%Z
        then setB outputRightPressed true s
        else s
      else
        let s := setB bumperRight false s in
        setB outputRightPressed false s in
    (* stuck detection: if either bumper is held too long, trigger error *)
    let '(s, out) :=
      if fB s bumperRight || fB s bumperLeft then
        if (Z.max (fZ s leftOnTimer) (fZ s rightOnTimer)
            >? u32 (Z.max (fZ s leftTrigTime) (fZ s rightTrigTime)
                    + BUMPER_MAX_TRIGGER_TIME cfg * 1000))%Z
        then
          if negb (OperationType_eqb (stateOp s) OP_ERROR) then
            let s := set_stateSensor SENS_BUMPER s in
            let '(s, out) := setOperation cfg OP_ERROR false s in
            let s := setZ leftTrigTime 0 s in
            let s := setZ rightTrigTime 0 s in
            let s := setZ leftOnTimer 0 s in
            let s := setZ rightOnTimer 0 s in
            (s, out)
          else (s, [])
        else (s, [])
      else (s, []) in
    let s := setZ lastBumperTime now s in
    (s, out)
  else (s, []).

Definition obstacle (s : Globals) : bool :=
  if BUMPER_ENABLE cfg
  then fB s outputLeftPressed || fB s outputRightPressed
  else false.

Definition obstacleLeft (s : Globals) : bool :=
  if BUMPER_ENABLE cfg then fB s outputLeftPressed else false.

Definition obstacleRight (s : Globals) : bool :=
  if BUMPER_ENABLE cfg then fB s outputRightPressed else false.

End Bumper.
End Bumper.


(** ** StateEstimator.cpp *)

Section StateEstimator.

Context {helper : Helper}.
Variable cfg : Config.

Definition set_solutionAvail (v : bool) (g : Gps) : Gps :=
  {| solutionAvail := v; solution := solution g; relPosN := relPosN g;
     relPosE := relPosE g; lat := lat g; lon := lon g;
     groundSpeed := groundSpeed g |}.

(** The body of [if (gps.solutionAvail && (gps.solution == SOL_FIXED ||
    gps.solution == SOL_FLOAT))] in [computeRobotState], after
    [gps.solutionAvail = false]: jump detection, heading-from-displacement
    fusion and the position switch. *)
Definition gpsSolution (now : Z) (motor : Motor) (gps : Gps) (maps : Map)
    (posN posE : R) (s : Globals) : Globals :=
  let s := setZ lastSolutionTime (fZ s solutionTime) s in
  let s := setZ solutionTime now s in
  let s := setZ solutionTimeDelta
             (u32 (fZ s solutionTime - fZ s lastSolutionTime)) s in
  let s := setR stateGroundSpeed (groundSpeed gps) s in
  let distGPS := sqrt (sq (posN - fR s lastPosN) + sq (posE - fR s lastPosE)) in
  let s :=
    if (distGPS >? 0.3) || fB s resetLastPos then
      let s :=
        if (distGPS >? 0.3) && (fZ s solutionTimeDelta <? 350)%Z then
          let s := setB gpsJump true s in
          incZ statGPSJumps s
        else s in
      let s := setB resetLastPos false s in
      let s := setR lastPosN posN s in
      let s := setR lastPosE posE s in
      setR lastPosDelta (fR s stateDelta) s
    else if distGPS >? 0.1 then
      (* if GPS moves *)
      let diffLastPosDelta := distancePI (fR s stateDelta) (fR s lastPosDelta) in
      let s :=
        if fabs diffLastPosDelta / PI * 180 <? 10 then
          (* robot sensors indicate it is not turning *)
          if (fabs (linearSpeedSet motor) >? 0)
             && (fabs (angularSpeedSet motor) / PI * 180 <? 45) then
            let s := setR stateDeltaGPS
                       (scalePI (atan2 (posN - fR s lastPosN)
                                       (posE - fR s lastPosE))) s in
            let s :=
              (* consider if driving reverse *)
              if linearSpeedSet motor <? 0
              then setR stateDeltaGPS (scalePI (fR s stateDeltaGPS + PI)) s
              else s in
            let diffDelta := distancePI (fR s stateDelta) (fR s stateDeltaGPS) in
            if (SolType_eqb (solution gps) SOL_FIXED
                && useGPSfixForDeltaEstimation maps)
               || (SolType_eqb (solution gps) SOL_FLOAT
                   && useGPSfloatForDeltaEstimation maps) then
              if fabs (diffDelta / PI * 180) >? 45 then
                let s := setR stateDelta (fR s stateDeltaGPS) s in
                setR stateDeltaIMU 0 s
              else
                (* delta fusion (complementary filter) *)
                let s := setR stateDeltaGPS
                           (scalePIangles (fR s stateDeltaGPS) (fR s stateDelta)) s in
                setR stateDelta
                     (scalePI (fusionPI 0.9 (fR s stateDelta) (fR s stateDeltaGPS))) s
            else s
          else s
        else s in
      let s := setR lastPosN posN s in
      let s := setR lastPosE posE s in
      setR lastPosDelta (fR s stateDelta) s
    else s in
  if SolType_eqb (solution gps) SOL_FIXED then
    (* fix *)
    let s := setZ lastFixTime now s in
    if useGPSfixForPosEstimation maps then
      let s := setR stateX posE s in
      setR stateY posN s
    else s
  else
    (* float *)
    if useGPSfloatForPosEstimation maps then
      let s := setR stateX posE s in
      setR stateY posN s
    else s.

(** A new GPS solution is taken up on this call. *)
Definition gpsSolutionAccepted (gps : Gps) : bool :=
  solutionAvail gps
  && (SolType_eqb (solution gps) SOL_FIXED || SolType_eqb (solution gps) SOL_FLOAT).

(** The GPS position [(posN, posE)] the estimator works with. *)
Definition gpsPosition (gps : Gps) (s : Globals) : R * R :=
  if fB s absolutePosSource then
    relativeLL (fR s absolutePosSourceLat) (fR s absolutePosSourceLon)
               (lat gps) (lon gps)
  else (relPosN gps, relPosE gps).

(** The first part of [computeRobotState]: wheel ticks, the reset of the
    position baseline at low commanded speed, and the GPS solution. *)
Definition computeRobotState_gps (now : Z) (motor : Motor) (gps : Gps) (maps : Map)
    (s : Globals) : Globals * Gps :=
  let s := setZ stateLeftTicks (motorLeftTicks motor) s in
  let s := setZ stateRightTicks (motorRightTicks motor) s in
  let '(posN, posE) := gpsPosition gps s in
  let s :=
    if fabs (linearSpeedSet motor) <? MOTOR_MIN_SPEED cfg / 2
    then setB resetLastPos true s
    else s in
  if gpsSolutionAccepted gps
  then (gpsSolution now motor gps maps posN posE s, set_solutionAvail false gps)
  else (s, gps).

(* compute robot state (x,y,delta) *)
Definition computeRobotState (now : Z) (motor : Motor) (gps : Gps) (maps : Map)
    (drv : Drivers) (s : Globals) : Globals * Gps :=
  let leftDelta := s32 (motorLeftTicks motor - fZ s stateLeftTicks) in
  let rightDelta := s32 (motorRightTicks motor - fZ s stateRightTicks) in
  let distLeft := IZR leftDelta / ticksPerCm motor in
  let distRight := IZR rightDelta / ticksPerCm motor in
  let distOdometry := (distLeft + distRight) / 2 in
  let deltaOdometry := (- (distLeft - distRight)) / wheelBaseCm motor in
  let deltaTime := IZR (u32 (now - fZ s timeLastState)) / 1000 in
  let lp1 := 1 - 1 * deltaTime in
  let lp2 := 1 - 2 * deltaTime in
  let lp3 := 1 - 3 * deltaTime in
  let '(s, gps) := computeRobotState_gps now motor gps maps s in
  (* odometry *)
  let s := setR stateX
             (fR s stateX + distOdometry / 100 * cos (fR s stateDelta)) s in
  let s := setR stateY
             (fR s stateY + distOdometry / 100 * sin (fR s stateDelta)) s in
  let s :=
    if OperationType_eqb (stateOp s) OP_MOW
    then setR statMowDistanceTraveled
              (fR s statMowDistanceTraveled + distOdometry / 100) s
    else s in
  let s :=
    if imuFound drv && useIMU maps
    then (* IMU available and should be used by planner *)
         setR stateDelta (scalePI (fR s stateDelta + fR s stateDeltaIMU)) s
    else (* odometry *)
         setR stateDelta (scalePI (fR s stateDelta + deltaOdometry)) s in
  let s := setR stateHeading ((fR s stateDelta - PI / 2) * 180 / PI) s in
  let s :=
    if imuFound drv
    then setR stateDeltaSpeedIMU
              (lp2 * fR s stateDeltaSpeedIMU
               + (1 - lp2) * fR s stateDeltaIMU / deltaTime) s
    else s in
  let s := setR stateDeltaSpeedWheels
             (lp2 * fR s stateDeltaSpeedWheels
              + (1 - lp2) * deltaOdometry / deltaTime) s in
  let s := setR stateDeltaIMU 0 s in
  (* compute yaw rotation speed (delta speed) *)
  let s := setR stateDeltaSpeed
             ((fR s stateDelta - fR s stateDeltaLast) / deltaTime) s in
  let s := setR stateDeltaSpeedLP
             (lp3 * fR s stateDeltaSpeedLP
              + (1 - lp3) * fabs (fR s stateDeltaSpeed)) s in
  let s := setR stateDeltaLast (fR s stateDelta) s in
  let s :=
    if imuFound drv then
      (* difference between IMU yaw rotation speed and wheels yaw rotation speed *)
      let s := setR diffIMUWheelYawSpeed
                 (fR s stateDeltaSpeedIMU - fR s stateDeltaSpeedWheels) s in
      setR diffIMUWheelYawSpeedLP
           (lp1 * fR s diffIMUWheelYawSpeedLP
            + (1 - lp1) * fabs (fR s diffIMUWheelYawSpeed)) s
    else s in
  let s := setZ timeLastState now s in
  (s, gps).

End StateEstimator.


(** ** LineTracker.cpp *)

Section LineTracker.

Context {helper : Helper}.
Variable cfg : Config.

Definition AngleToTargetFits (s : Globals) : bool * Globals :=
  (* allow rotations only near last or next waypoint or if too far away from path *)
  let s :=
    if (fR s targetDist <? 0.3) || (fR s lastTargetDist <? 0.3)
       || (fabs (fR s distToPath) >? 1.0)
    then setB angleToTargetFits
              (fabs (fR s trackerDiffDelta) / PI * 180 <=? TRANSITION_ANGLE cfg) s
    else
      (* while tracking the mowing line do allow rotations if angle to target
         increases (e.g. due to gps jumps) *)
      setB angleToTargetFits (fabs (fR s trackerDiffDelta) / PI * 180 <? 45) s in
  let s :=
    if negb (fB s angleToTargetFits) || negb (fB s angleToTargetPrecise)
    then setB angleToTargetFits false s
    else s in
  let s :=
    if fB s dockTimer || fB s unDockTimer
    then setB angleToTargetFits true s
    else s in
  (fB s angleToTargetFits, s).

Definition rotateToTarget (s : Globals) : Globals :=
  (* angular control (if angle to far away, rotate to next waypoint) *)
  let s :=
    if negb (fB s angleToTargetFits) then setB angleToTargetPrecise false s else s in
  let s := setR linear 0 s in
  let s :=
    if ROTATION_RAMP cfg then
      let s := setR angular
                 (fabs (fR s trackerDiffDelta) + ROTATION_RAMP_MIN cfg / 180 * PI) s in
      setR angular
           (constrain (fR s angular) (ROTATION_RAMP_MIN cfg / 180 * PI)
                      (ROTATION_RAMP_MAX cfg / 180 * PI)) s
    else
      let s :=
        if fabs (fR s trackerDiffDelta) / PI * 180 >=? ANGLEDIFF1 cfg
        then setR angular (ROTATETOTARGETSPEED1 cfg / 180 * PI) s else s in
      let s :=
        if fabs (fR s trackerDiffDelta) / PI * 180 <? ANGLEDIFF1 cfg
        then setR angular (ROTATETOTARGETSPEED2 cfg / 180 * PI) s else s in
      let s :=
        if fabs (fR s trackerDiffDelta) / PI * 180 <=? ANGLEDIFF2 cfg
        then setR angular (ROTATETOTARGETSPEED3 cfg / 180 * PI) s else s in
      s in
  let s :=
    (* set rotation direction *)
    if fR s trackerDiffDelta <? 0 then setR angular (fR s angular * -1) s else s in
  let s :=
    if fabs (fR s trackerDiffDelta) / PI * 180 <? ANGLEPRECISE cfg then
      let s := setR angular 0 s in
      let s := resetStateEstimation s in
      if Reqb (fR s CurrRot) 0 then setB angleToTargetPrecise true s else s
    else s in
  (* reset angular if current speed is over given value (still decelerating) *)
  let s := if fabs (fR s CurrSpeed) >? 0.0 then setR angular 0 s else s in
  s.

Definition stanleyTracker (gps : Gps) (maps : Map) (s : Globals) : Globals :=
  let s :=
    if MAP_STANLEY_CONTROL cfg then
      (* mapping of stanley control parameters in relation to the speed setpoint *)
      let s :=
        (* do not use aggressive stanley in a float situation *)
        if SolType_eqb (solution gps) SOL_FLOAT
           || SolType_eqb (solution gps) SOL_INVALID then
          let s := setR stanleyTrackingNormalK (STANLEY_FLOAT_K_NORMAL cfg) s in
          let s := setR stanleyTrackingNormalP (STANLEY_FLOAT_P_NORMAL cfg) s in
          let s := setR stanleyTrackingSlowK (STANLEY_FLOAT_K_SLOW cfg) s in
          setR stanleyTrackingSlowP (STANLEY_FLOAT_P_SLOW cfg) s
        else s in
      let s := setR stanley_k
                 (map (fabs (fR s CurrSpeed) * 1000) (MOTOR_MIN_SPEED cfg * 1000)
                      (MOTOR_MAX_SPEED cfg * 1000) (fR s stanleyTrackingSlowK * 1000)
                      (fR s stanleyTrackingNormalK * 1000)) s in
      let s := setR stanley_p
                 (map (fabs (fR s CurrSpeed) * 1000) (MOTOR_MIN_SPEED cfg * 1000)
                      (MOTOR_MAX_SPEED cfg * 1000) (fR s stanleyTrackingSlowP * 1000)
                      (fR s stanleyTrackingNormalP * 1000)) s in
      let s := setR stanley_k (fR s stanley_k / 1000) s in
      let s := setR stanley_p (fR s stanley_p / 1000) s in
      (* limitation for value if out of range *)
      let s := setR stanley_k
                 (max (fR s stanleyTrackingSlowK)
                      (min (fR s stanleyTrackingNormalK) (fR s stanley_k))) s in
      setR stanley_p
           (max (fR s stanleyTrackingSlowP)
                (min (fR s stanleyTrackingNormalP) (fR s stanley_p))) s
    else
      let s := setR stanley_k (fR s stanleyTrackingNormalK) s in
      let s := setR stanley_p (fR s stanleyTrackingNormalP) s in
      if trackSlow maps && fB s trackslow_allowed then
        let s := setR stanley_k (fR s stanleyTrackingSlowK) s in
        setR stanley_p (fR s stanleyTrackingSlowP) s
      else s in
  (* use actual speed to correct for path errors *)
  let s := setR angular
             (fR s stanley_p * fR s trackerDiffDelta
              + atan2 (fR s stanley_k * fR s lateralError)
                      (0.001 + fabs (fR s CurrSpeed))) s in
  (* restrict steering angle for stanley *)
  setR angular (max (- PI / 6) (min (PI / 6) (fR s angular))) s.

(** [linearSpeed[aLen]] of [linearSpeedState]. *)
Definition linearSpeed : list R :=
  [ FLOATSPEED cfg; NEARWAYPOINTSPEED cfg; SONARSPEED cfg; OVERLOADSPEED cfg;
    KEEPSLOWSPEED cfg; RETRYSLOWSPEED cfg; TRACKSLOWSPEED cfg;
    DOCK_NO_ROTATION_SPEED cfg; DOCKPATHSPEED cfg; DOCKSPEED cfg ].

(** [linearBool[aLen]] of [linearSpeedState], as filled on this call: which
    states are true at run time, near-waypoint speed being disabled when the
    distance ramp is used. *)
Definition linearBool (gps : Gps) (motor : Motor) (maps : Map) (drv : Drivers)
    (s : Globals) : list bool :=
  [ SolType_eqb (solution gps) SOL_FLOAT;
    if DISTANCE_RAMP cfg then false
    else (fR s targetDist <? NEARWAYPOINTDISTANCE cfg)
         || (fR s lastTargetDist <? NEARWAYPOINTDISTANCE cfg);
    sonarNearObstacle drv;
    motorLeftOverload motor || motorRightOverload motor || motorMowOverload motor;
    keepslow motor;
    retryslow motor;
    trackSlow maps && fB s trackslow_allowed;
    fB s dockTimer || fB s unDockTimer;
    isAtDockPath maps;
    isGoingToDockPath maps ].

(** The loop [for (speedIndex = 0; speedIndex < aLen; speedIndex++)]: choose
    the lowest speed of the true states. *)
Fixpoint chooseLowest (speedIndex : Z) (bools : list bool) (speeds : list R)
    (s : Globals) : Globals :=
  match bools, speeds with
  | b :: bools, v :: speeds =>
      let s :=
        if b then
          if v <? fR s linear then
            let s := setR linear v s in
            setZ chosenIndex speedIndex s
          else s
        else s in
      chooseLowest (speedIndex + 1) bools speeds s
  | _, _ => s
  end.

(** [linearSpeedState] up to the end of the loop: the speed-cap stage. *)
Definition linearSpeedCap (gps : Gps) (motor : Motor) (maps : Map) (drv : Drivers)
    (s : Globals) : Globals :=
  let s := setB trackslow_allowed true s in
  (* always compare speeds against desired setSpeed *)
  let s := setR linear (fR s setSpeed) s in
  chooseLowest 0 (linearBool gps motor maps drv s) linearSpeed s.

Definition distanceRamp (linear : R) (s : Globals) : R * Globals :=
  let maxSpeed := linear * 1000 in
  let minSpeed := DISTANCE_RAMP_MINSPEED cfg * 1000 in
  let maxDist := (linear * NEARWAYPOINTDISTANCE cfg / fR s setSpeed) * 1000 in
  let minDist := 0 in
  let '(maxDist, actDist, minSpeed, s) :=
    if fR s targetDist <=? fR s lastTargetDist then
      (* approaching *)
      (maxDist + maxSpeed,
       fR s targetDist,
       (if fB s straight then TRANSITION_SPEED cfg * 1000 else minSpeed),
       setB wasStraight (fB s straight) s)
    else
      (maxDist,
       fR s lastTargetDist,
       (if fB s wasStraight then TRANSITION_SPEED cfg * 1000 else minSpeed),
       s) in
  let actDist := actDist * 1000 in
  let actDist :=
    (* points are not far away from each other *)
    if fR s targetDist + fR s lastTargetDist <? maxDist then actDist * 2
    else actDist in
  let rampSpeed := map actDist minDist maxDist minSpeed maxSpeed in
  let rampSpeed := constrain rampSpeed minSpeed maxSpeed in
  (rampSpeed / 1000, s).

Definition linearSpeedState (gps : Gps) (motor : Motor) (maps : Map) (drv : Drivers)
    (s : Globals) : Globals :=
  let s := linearSpeedCap gps motor maps drv s in
  (* consider the distance ramp with the chosen speed if we are approaching
     or leaving a waypoint *)
  let s :=
    if DISTANCE_RAMP cfg then
      if (fR s targetDist <? 2 * NEARWAYPOINTDISTANCE cfg)
         || (fR s lastTargetDist <? 2 * NEARWAYPOINTDISTANCE cfg) then
        let '(v, s) := distanceRamp (fR s linear) s in
        setR linear v s
      else s
    else s in
  let s := setZ chosenIndexl (fZ s chosenIndex) s in
  (* reverse line tracking needs negative speed *)
  if trackReverse maps then setR linear (fR s linear * -1) s else s.

(** The path tolerance [gpsConditions] compares [distToPath] with. *)
Definition allowedPathTolerance (maps : Map) (s : Globals) : R :=
  let allowedPathTolerance := KIDNAP_DETECT_ALLOWED_PATH_TOLERANCE cfg in
  if isUndocking maps || isDocking maps then
    let '(dockX, dockY, dockDelta) := getDockingPos maps in
    let dist := distance dockX dockY (fR s stateX) (fR s stateY) in
    (* check if current distance to docking station is below
       KIDNAP_DETECT_DISTANCE_DOCK_UNDOCK *)
    if dist <? KIDNAP_DETECT_DISTANCE_DOCK_UNDOCK cfg
    then KIDNAP_DETECT_ALLOWED_PATH_TOLERANCE_DOCK_UNDOCK cfg
    else allowedPathTolerance
  else allowedPathTolerance.

Definition gpsConditions (now : Z) (maps : Map) (s : Globals)
    : Globals * list Output :=
  (* check some pre-conditions that can make linear+angular speed zero *)
  let out1 :=
    if negb (fZ s fixTimeout =? 0)%Z then
      if IZR now >? IZR (fZ s lastFixTime) + IZR (fZ s fixTimeout) * 1000.0
      then [onGpsFixTimeout] else []
    else [] in
  let out2 :=
    if DOCK_GPS_REBOOT cfg then
      if shouldGpsReboot maps && isAtGpsRebootPoint maps
      then [onDockGpsReboot] else []
    else [] in
  (* gps-jump/false fix check *)
  let '(s, out3) :=
    if KIDNAP_DETECT cfg then
      if fabs (fR s distToPath) >? allowedPathTolerance maps s then
        if negb (fB s stateKidnapped) then
          let s := setB stateKidnapped true s in
          (s, [onKidnapped (fB s stateKidnapped)])
        else (s, [])
      else
        if fB s stateKidnapped then
          let s := setB stateKidnapped false s in
          (s, [onKidnapped (fB s stateKidnapped)])
        else (s, [])
    else (s, []) in
  (s, out1 ++ out2 ++ out3).

Definition noDockRotation (now : Z) (maps : Map) (drv : Drivers) (s : Globals)
    : Globals * list Output :=
  if DOCK_NO_ROTATION cfg then
    if negb (WayType_eqb (wayMode maps) WAY_DOCK) then (s, [])
    else if isTargetingLastDockPoint maps && negb (isUndocking maps) then
      let s :=
        if negb (fB s dockTimer) then
          (* start a timer when going to last dockpoint *)
          let s := setZ reachedPointBeforeDockTime now s in
          setB dockTimer true s
        else s in
      if fB s dockTimer then
        let '(s, out1) :=
          if fR s lastTargetDist >? DOCK_NO_ROTATION_DISTANCE cfg then
            let s := setR angular 0 s in
            let s := setR linear (DOCK_NO_ROTATION_SPEED cfg) s in
            let s := setB targetReached false s in
            (s, if negb (buzzerIsPlaying drv) then [buzzerSound SND_ERROR true] else [])
          else (s, []) in
        let '(s, out2) :=
          (* check the time until mower has to reach the charger and trigger
             obstacle if not reached *)
          if (now >? u32 (fZ s reachedPointBeforeDockTime
                          + DOCK_NO_ROTATION_TIMER cfg))%Z then
            let s := setB dockTimer false s in
            triggerObstacle now s
          else (s, []) in
        (s, out1 ++ out2)
      else (s, [])
    else (setB dockTimer false s, [])
  else (s, []).

Definition noUnDockRotation (now : Z) (maps : Map) (drv : Drivers) (s : Globals)
    : Globals * list Output :=
  if DOCK_NO_ROTATION cfg then
    if negb (WayType_eqb (wayMode maps) WAY_DOCK) then (s, [])
    else if isBetweenLastAndNextToLastDockPoint maps && isUndocking maps then
      let s :=
        if negb (fB s unDockTimer) then
          let s := setZ reachedPointBeforeDockTime now s in
          setB unDockTimer true s
        else s in
      if fB s unDockTimer then
        let s := setR angular 0 s in
        let s := setR linear (- DOCK_NO_ROTATION_SPEED cfg) s in
        let out1 :=
          if negb (buzzerIsPlaying drv) then [buzzerSound SND_ERROR true] else [] in
        let '(s, out2) :=
          if (now >? u32 (fZ s reachedPointBeforeDockTime
                          + DOCK_NO_ROTATION_TIMER cfg))%Z then
            let s := setB unDockTimer false s in
            (s, decDockPointsIdx :: triggerWaitCommand 15000)
          else (s, []) in
        (s, out1 ++ out2)
      else (s, [])
    else (setB unDockTimer false s, [])
  else (s, []).

(** A [WayType] enumerator used as a condition is true when it is not zero. *)
Definition wayTruth (w : WayType) : bool := negb (WAY_value cfg w =? 0)%Z.

Definition checkMowAllowed (maps : Map) (s : Globals) : Globals :=
  let s := setB mow false s in
  let s :=
    if MOW_START_AT_WAYMOW cfg && negb (fB s oneTrigger) then
      if WayType_eqb (wayMode maps) WAY_MOW then
        (* do not activate mow until there is a first waymow *)
        let s := setB mow true s in
        setB oneTrigger true s
      else s
    else
      if WayType_eqb (wayMode maps) WAY_MOW || wayTruth WAY_EXCLUSION
         || wayTruth WAY_PERIMETER
      then setB mow true s
      else s in
  if OperationType_eqb (stateOp s) OP_DOCK || shouldDock maps then
    let s := setB mow false s in
    setB oneTrigger false s
  else s.

(** The first block of [trackLine]: the targets, the current motor setpoints
    and the tracking errors of this tick. *)
Definition trackLine_errors (motor : Motor) (maps : Map) (s : Globals) : Globals :=
  let s := set_target (targetPoint maps) s in
  let s := set_lastTarget (lastTargetPoint maps) s in
  let s := setR CurrSpeed (linearSpeedSet motor) s in
  let s := setR CurrRot (angularSpeedSet motor) s in
  let s := setR linear 0 s in
  let s := setR angular 0 s in
  let s := setR targetDelta
             (pointsAngle (fR s stateX) (fR s stateY)
                          (px (target s)) (py (target s))) s in
  let s :=
    if trackReverse maps
    then setR targetDelta (scalePI (fR s targetDelta + PI)) s else s in
  let s := setR targetDelta (scalePIangles (fR s targetDelta) (fR s stateDelta)) s in
  let s := setR trackerDiffDelta (distancePI (fR s stateDelta) (fR s targetDelta)) s in
  let s := setR lateralError
             (distanceLineInfinite (fR s stateX) (fR s stateY)
                (px (lastTarget s)) (py (lastTarget s))
                (px (target s)) (py (target s))) s in
  let s := setR distToPath
             (distanceLine (fR s stateX) (fR s stateY)
                (px (lastTarget s)) (py (lastTarget s))
                (px (target s)) (py (target s))) s in
  let s := setR targetDist (distanceToTargetPoint maps (fR s stateX) (fR s stateY)) s in
  let s := setR lastTargetDist
             (distanceToLastTargetPoint maps (fR s stateX) (fR s stateY)) s in
  setB targetReached (fR s targetDist <? TARGET_REACHED_TOLERANCE cfg) s.

(** The second block of [trackLine]: [if (!AngleToTargetFits())
    rotateToTarget(); else { linearSpeedState(); stanleyTracker(); }]. *)
Definition trackLine_steer (gps : Gps) (motor : Motor) (maps : Map) (drv : Drivers)
    (s : Globals) : Globals :=
  let '(fits, s) := AngleToTargetFits s in
  if negb fits then rotateToTarget s
  else
    let s := linearSpeedState gps motor maps drv s in
    stanleyTracker gps maps s.

(** [trackLine] up to [if (runControl)]: the tracking errors, the choice of
    sub-controller, and the conditions that may override its result. *)
Definition trackLine_control (now : Z) (motor : Motor) (gps : Gps) (maps : Map)
    (drv : Drivers) (s : Globals) : Globals * list Output :=
  let s := trackLine_errors motor maps s in
  let s := trackLine_steer gps motor maps drv s in
  let '(s, out1) := gpsConditions now maps s in
  let '(s, out2) := noDockRotation now maps drv s in
  let '(s, out3) := noUnDockRotation now maps drv s in
  let s := checkMowAllowed maps s in
  (s, out1 ++ out2 ++ out3).

(* control robot velocity (linear,angular) to track line to next waypoint (target) *)
Definition trackLine (runControl : bool) (now : Z) (motor : Motor) (gps : Gps)
    (maps : Map) (drv : Drivers) (s : Globals) : Globals * list Output :=
  let '(s, out1) := trackLine_control now motor gps maps drv s in
  let '(s, out2) :=
    if runControl then
      let s := setB shouldRotate (robotShouldRotate cfg motor) s in
      let s :=
        if DEBUG_LINETRACKER cfg then
          (* output target point change *)
          let s := setR x_new (px (target s)) s in
          let s := setR y_new (py (target s)) s in
          let s :=
            if Rneqb (fR s x_old) (fR s x_new) || Rneqb (fR s y_old) (fR s y_new) then
              let s := setR x_old (fR s x_new) s in
              setR y_old (fR s y_new) s
            else s in
          (* output rotate state change *)
          if negb (Bool.eqb (fB s shouldRotate) (fB s shouldRotatel))
          then setB shouldRotatel (fB s shouldRotate) s
          else s
        else s in
      let s :=
        (* in any case, turn off mower motor if lifted *)
        if detectLift cfg drv then
          let s := setB mow false s in
          let s := setR linear 0 s in
          setR angular 0 s
        else s in
      let outMow :=
        if negb (Bool.eqb (fB s mow) (switchedOn motor)) && enableMowMotor motor
        then [setMowState (fB s mow)] else [] in
      (s, outMow ++ [setLinearAngularSpeed (fR s linear) (fR s angular) true])
    else (s, []) in
  let '(s, out3) :=
    if fB s targetReached then
      let s := setB straight (nextPointIsStraight maps) s in
      (s, [onTargetReached; nextPoint false (fR s stateX) (fR s stateY)]
          ++ (if negb (nextPointResult maps) then [onNoFurtherWaypoints] else []))
    else (s, []) in
  (s, out1 ++ out2 ++ out3).

End LineTracker.


(** ** robot.cpp: obstacle detection *)

Section Monitors.

Variable cfg : Config.

(* detect obstacle (bumper, sonar, ToF)
   returns true, if obstacle detected, otherwise false *)
Definition detectObstacle (now : Z) (motor : Motor) (maps : Map) (drv : Drivers)
    (s : Globals) : bool * Globals * list Output :=
  (* obstacle detection due to deflection of mower during linetracking *)
  let deflection (s : Globals) : bool * Globals * list Output :=
    if imuFound drv
       && (fR s targetDist >? NEARWAYPOINTDISTANCE cfg / 2)
       && (fR s lastTargetDist >? NEARWAYPOINTDISTANCE cfg / 2)
       && (now >? u32 (fZ s linearMotionStartTime + BUMPER_DEADTIME cfg))%Z then
      if negb (robotShouldRotate cfg motor)
         && (fabs (fR s diffIMUWheelYawSpeedLP) >? 12.0 / 180.0 * PI) then
        let s := incZ statMowDiffIMUWheelYawSpeedCounter s in
        let out := [setObstaclePosition (fR s stateX) (fR s stateY) 0
                      (MOWER_RADIUS_BACK cfg) (OBSTACLE_DIAMETER cfg)] in
        let '(s, out') := triggerObstacle now s in
        (true, s, out ++ out')
      else if negb (robotShouldRotate cfg motor)
              && (fabs (fR s stateDeltaSpeedIMU) >? 12.0 / 180.0 * PI)
              && (fabs (fR s stateDeltaSpeedWheels)
                  <? fabs (fR s stateDeltaSpeedIMU / 3)) then
        let s := incZ statMowDiffIMUWheelYawSpeedCounter s in
        let out := [setObstaclePosition (fR s stateX) (fR s stateY) 0
                      (MOWER_RADIUS_FRONT cfg) (OBSTACLE_DIAMETER cfg)] in
        let '(s, out') := triggerObstacle now s in
        (true, s, out ++ out')
      else (false, s, [])
    else (false, s, []) in
  (* check if GPS motion (obstacle detection) *)
  let gpsMotion (s : Globals) : bool * Globals * list Output :=
    if (now >? fZ s nextGPSMotionCheckTime)%Z
       || (now >? fZ s overallMotionTimeout)%Z then
      let s := updateGPSMotionCheckTime cfg now s in
      let s := resetOverallMotionTimeout now s in
      let dX := fR s lastGPSMotionX - fR s stateX in
      let dY := fR s lastGPSMotionY - fR s stateY in
      let delta := sqrt (sq dX + sq dY) in
      if (delta <? GPS_MOTION_DETECTION_DELTA cfg)
         && (NO_GPS_OBSTACLE cfg && fB s gpsObstacleNotAllowed) then
        (false, s, [])
      else if (delta <? GPS_MOTION_DETECTION_DELTA cfg)
              && GPS_MOTION_DETECTION cfg then
        let s := incZ statMowGPSMotionTimeoutCounter s in
        let out := [setObstaclePosition (fR s stateX) (fR s stateY) 0
                      (MOWER_RADIUS_FRONT cfg) (OBSTACLE_DIAMETER cfg)] in
        let '(s, out') := triggerObstacle now s in
        (true, s, out ++ out')
      else
        let s := setR lastGPSMotionX (fR s stateX) s in
        let s := setR lastGPSMotionY (fR s stateY) s in
        deflection s
    else deflection s in
  (* check GPS stateGroundSpeed difference to linearSpeedSet *)
  let gpsSpeed (s : Globals) : bool * Globals * list Output :=
    if (now >? u32 (fZ s linearMotionStartTime + GPS_SPEED_DEADTIME cfg))%Z
       && (fR s stateGroundSpeed <? fabs (linearSpeedSet motor / 4)) then
      let s := setZ noGPSSpeedTime (u32 (fZ s noGPSSpeedTime + fZ s deltaTime)) s in
      if NO_GPS_OBSTACLE cfg && fB s gpsObstacleNotAllowed then (false, s, [])
      else if (GPS_SPEED_DETECTION cfg && negb (isAtDockPath maps))
              && (fZ s noGPSSpeedTime >? GPS_SPEED_DELAY cfg)%Z then
        let s := incZ statMowGPSMotionTimeoutCounter s in
        let s := setZ noGPSSpeedTime 0 s in
        let out := [setObstaclePosition (fR s stateX) (fR s stateY) 0
                      (MOWER_RADIUS_FRONT cfg) (OBSTACLE_DIAMETER cfg)] in
        let '(s, out') := triggerObstacle now s in
        (true, s, out ++ out')
      else gpsMotion s
    else gpsMotion s in
  if negb (robotShouldMove cfg motor) then (false, s, [])
  else
    let s :=
      if (now >? fZ s gpsObstacleNotAllowedTime)%Z
      then setB gpsObstacleNotAllowed false s else s in
    (* lift *)
    if ENABLE_LIFT_DETECTION cfg && LIFT_OBSTACLE_AVOIDANCE cfg
       && (now >? u32 (fZ s linearMotionStartTime + BUMPER_DEADTIME cfg))%Z
       && liftTriggered drv then
      let s := incZ statMowLiftCounter s in
      let '(s, out) := triggerObstacle now s in
      (true, s, out)
    (* bumper *)
    else if (now >? u32 (fZ s detectObstacle_lastBumperTime + BUMPER_DEADTIME cfg))%Z
            && Bumper.obstacle cfg s then
      let s := setZ detectObstacle_lastBumperTime now s in
      let s := incZ statMowBumperCounter s in
      let out1 :=
        if Bumper.obstacleLeft cfg s
        then [setObstaclePosition (fR s stateX) (fR s stateY) 35.0
                (MOWER_RADIUS_FRONT cfg) (OBSTACLE_DIAMETER cfg)]
        else [setObstaclePosition (fR s stateX) (fR s stateY) (-35.0)
                (MOWER_RADIUS_FRONT cfg) (OBSTACLE_DIAMETER cfg)] in
      let out2 := [setObstaclePosition (fR s stateX) (fR s stateY) 0
                     (ESCAPE_REVERSE_WAY cfg) (OBSTACLE_DIAMETER cfg)] in
      let '(s, out3) := triggerObstacle now s in
      (true, s, out1 ++ out2 ++ out3)
    (* sonar *)
    else if (sonarObstacle drv && negb (WayType_eqb (wayMode maps) WAY_DOCK))
            && SONAR_TRIGGER_OBSTACLES cfg then
      let s := incZ statMowSonarCounter s in
      let out := [setObstaclePosition (fR s stateX) (fR s stateY) 0
                    (MOWER_RADIUS_FRONT cfg) (OBSTACLE_DIAMETER cfg)] in
      let '(s, out') := triggerObstacle now s in
      (true, s, out ++ out')
    else gpsSpeed s.

(** An obstacle event raised by a monitor. *)
Definition isObstacleEvent (o : Output) : bool :=
  match o with
  | onObstacle | onObstacleRotation => true
  | _ => false
  end.

End Monitors.


(** ** Start-up values of the globals *)

Section Startup.

Variable cfg : Config.

(** The initialisers of the modelled globals; a static without initialiser
    starts at zero. *)
Definition initGlobals : Globals :=
  {| fR := fun x =>
             match x with
             | stanleyTrackingNormalK => STANLEY_CONTROL_K_NORMAL cfg
             | stanleyTrackingNormalP => STANLEY_CONTROL_P_NORMAL cfg
             | stanleyTrackingSlowK => STANLEY_CONTROL_K_SLOW cfg
             | stanleyTrackingSlowP => STANLEY_CONTROL_P_SLOW cfg
             | setSpeed => 0.1
             | _ => 0
             end;
     fZ := fun x =>
             match x with
             | robot_control_cycle => ROBOT_IDLE_CYCLE cfg
             | _ => 0%Z
             end;
     fB := fun x =>
             match x with
             | resetLastPos => true
             | angleToTargetPrecise => true
             | _ => false
             end;
     stateOp := OP_IDLE;
     stateSensor := SENS_NONE;
     target := mkPoint 0 0;
     lastTarget := mkPoint 0 0 |}.

End Startup.

(** ** An implementation of the helpers, and a configuration

    Used where a property has to be exhibited on concrete inputs. *)

Module SpecHelper.

(** Modelled from the spec: helper.cpp is not among the sources.  Section 4.1
    has [wrapAngle(a) -> (-pi, pi]], which canonicalizes any angle: the
    multiple of [2 pi] to remove is the ceiling of [(a - pi) / (2 pi)]. *)
Definition wrapAngle (a : R) : R :=
  a - 2 * PI * IZR (1 - up ((PI - a) / (2 * PI))).

(** Modelled from the spec: [angleDifference(a, b) -> (-pi, pi]], the shortest
    signed rotation from [b] to [a]. *)
Definition angleDifference (a b : R) : R := wrapAngle (a - b).

(** Modelled from the spec: [unwrapTo(reference, angle)] adjusts [angle] by
    [2 pi] increments so that it is within [pi] of [reference]. *)
Definition unwrapTo (reference angle : R) : R :=
  reference + wrapAngle (angle - reference).

(** Modelled from the spec: [blendAngles(weight, a, b)], weighted circular
    interpolation: unwrap [b] toward [a], then interpolate linearly. *)
Definition blendAngles (weight a b : R) : R :=
  weight * a + (1 - weight) * unwrapTo a b.

(** Modelled from the spec: [bearing(from, to) -> angle]. *)
Definition bearing (x1 y1 x2 y2 : R) : R := atan2 (y2 - y1) (x2 - x1).

(** Modelled from the spec: the Euclidean distance of two points of the
    local plane. *)
Definition pointDistance (x1 y1 x2 y2 : R) : R :=
  sqrt (sq (x1 - x2) + sq (y1 - y2)).

(** Modelled from the spec: [pointToInfiniteLineDistance(p, lineA, lineB)],
    the signed distance to the unbounded line; the sign tells the side. *)
Definition pointToInfiniteLineDistance (px py x1 y1 x2 y2 : R) : R :=
  ((y2 - y1) * px - (x2 - x1) * py + (x2 * y1 - y2 * x1))
  / sqrt (sq (y2 - y1) + sq (x2 - x1)).

(** Modelled from the spec: [pointToSegmentDistance(p, lineA, lineB)], which
    differs from the unbounded variant beyond the ends of the segment: there
    it is the distance to the nearer end. *)
Definition pointToSegmentDistance (px py x1 y1 x2 y2 : R) : R :=
  let len2 := sq (x2 - x1) + sq (y2 - y1) in
  let t := ((px - x1) * (x2 - x1) + (py - y1) * (y2 - y1)) / len2 in
  if t <? 0 then pointDistance px py x1 y1
  else if t >? 1 then pointDistance px py x2 y2
  else pointToInfiniteLineDistance px py x1 y1 x2 y2.

(** Modelled from the spec: the local-plane conversion of section 4.1, north
    and east offsets (m) of [(lat2, lon2)] from [(lat1, lon1)] in degrees. *)
Definition localPlane (lat1 lon1 lat2 lon2 : R) : R * R :=
  ((lat2 - lat1) / 180 * PI * 6371000,
   (lon2 - lon1) / 180 * PI * 6371000 * cos (lat1 / 180 * PI)).

(** Modelled from the spec: the distance-proportional interpolation the ramp
    and the gain table use (Arduino's [map], over the reals). *)
Definition interpolate (x in_min in_max out_min out_max : R) : R :=
  (x - in_min) * (out_max - out_min) / (in_max - in_min) + out_min.

Definition specHelper : Helper :=
  {| scalePI := wrapAngle;
     distancePI := fun x w => angleDifference w x;
     scalePIangles := fun setAngle currAngle => unwrapTo currAngle setAngle;
     fusionPI := blendAngles;
     pointsAngle := bearing;
     distance := pointDistance;
     distanceLineInfinite := pointToInfiniteLineDistance;
     distanceLine := pointToSegmentDistance;
     relativeLL := localPlane;
     map := interpolate |}.

End SpecHelper.

(** A configuration in the range of the firmware's example config, built with
    or without lift detection. *)
Definition sampleConfigFor (liftDetection : bool) : Config :=
  {| MOTOR_MIN_SPEED := 0.05; MOTOR_MAX_SPEED := 0.6;
     TRANSITION_ANGLE := 20; ROTATION_RAMP := false;
     ROTATION_RAMP_MIN := 5; ROTATION_RAMP_MAX := 50;
     ANGLEDIFF1 := 30; ANGLEDIFF2 := 15;
     ROTATETOTARGETSPEED1 := 65; ROTATETOTARGETSPEED2 := 40;
     ROTATETOTARGETSPEED3 := 20; ANGLEPRECISE := 5;
     MAP_STANLEY_CONTROL := false;
     STANLEY_CONTROL_K_NORMAL := 1; STANLEY_CONTROL_P_NORMAL := 2;
     STANLEY_CONTROL_K_SLOW := 0.1; STANLEY_CONTROL_P_SLOW := 1;
     STANLEY_FLOAT_K_NORMAL := 0.5; STANLEY_FLOAT_P_NORMAL := 1;
     STANLEY_FLOAT_K_SLOW := 0.1; STANLEY_FLOAT_P_SLOW := 1;
     FLOATSPEED := 0.25; NEARWAYPOINTSPEED := 0.1; SONARSPEED := 0.15;
     OVERLOADSPEED := 0.2; KEEPSLOWSPEED := 0.22; RETRYSLOWSPEED := 0.18;
     TRACKSLOWSPEED := 0.12; DOCK_NO_ROTATION_SPEED := 0.08;
     DOCKPATHSPEED := 0.3; DOCKSPEED := 0.28;
     NEARWAYPOINTDISTANCE := 0.3; DISTANCE_RAMP := true;
     DISTANCE_RAMP_MINSPEED := 0.05; TRANSITION_SPEED := 0.15;
     TARGET_REACHED_TOLERANCE := 0.1;
     DOCK_GPS_REBOOT := false; KIDNAP_DETECT := true;
     KIDNAP_DETECT_ALLOWED_PATH_TOLERANCE := 1;
     KIDNAP_DETECT_DISTANCE_DOCK_UNDOCK := 2;
     KIDNAP_DETECT_ALLOWED_PATH_TOLERANCE_DOCK_UNDOCK := 0.2;
     DOCK_NO_ROTATION := true; DOCK_NO_ROTATION_DISTANCE := 0.1;
     DOCK_NO_ROTATION_TIMER := 12000; MOW_START_AT_WAYMOW := false;
     DEBUG_LINETRACKER := false;
     ENABLE_LIFT_DETECTION := liftDetection; LIFT_OBSTACLE_AVOIDANCE := false;
     BUMPER_ENABLE := true; BUMPER_TRIGGER_DELAY := 0;
     BUMPER_MAX_TRIGGER_TIME := 30; BUMPER_DEADTIME := 1000;
     SONAR_TRIGGER_OBSTACLES := false;
     GPS_SPEED_DEADTIME := 3000; NO_GPS_OBSTACLE := false;
     GPS_SPEED_DETECTION := true; GPS_SPEED_DELAY := 4000;
     GPS_MOTION_DETECTION_TIMEOUT := 5; GPS_MOTION_DETECTION_DELTA := 0.05;
     GPS_MOTION_DETECTION := true;
     MOWER_RADIUS_FRONT := 0.35; MOWER_RADIUS_BACK := 0.2;
     OBSTACLE_DIAMETER := 1.2; ESCAPE_REVERSE_WAY := 0.5;
     ROBOT_IDLE_CYCLE := 100; ROBOT_CONTROL_CYCLE := 20;
     WAY_value := fun w =>
       match w with
       | WAY_PERIMETER => 0 | WAY_EXCLUSION => 1 | WAY_DOCK => 2
       | WAY_MOW => 3 | WAY_FREE => 4
       end%Z |}.

Definition sampleConfig : Config := sampleConfigFor true.


(** ** Sample inputs *)

(** A motor with the given commanded speeds; mow motor enabled and running. *)
Definition sampleMotor (linearSet angularSet : R) : Motor :=
  {| motorLeftTicks := 0; motorRightTicks := 0; ticksPerCm := 8; wheelBaseCm := 36;
     linearSpeedSet := linearSet; angularSpeedSet := angularSet;
     motorLeftOverload := false; motorRightOverload := false;
     motorMowOverload := false; keepslow := false; retryslow := false;
     switchedOn := true; enableMowMotor := true |}.

(** A GPS solution at the given relative position. *)
Definition sampleGps (avail : bool) (sol : SolType) (n e : R) : Gps :=
  {| solutionAvail := avail; solution := sol; relPosN := n; relPosE := e;
     lat := 0; lon := 0; groundSpeed := 0.3 |}.

(** A mowing map: previous waypoint at the origin, target 5 m east of it. *)
Definition sampleMap : Map :=
  {| targetPoint := mkPoint 5 0; lastTargetPoint := mkPoint 0 0;
     distanceToTargetPoint := fun x y => SpecHelper.pointDistance x y 5 0;
     distanceToLastTargetPoint := fun x y => SpecHelper.pointDistance x y 0 0;
     trackSlow := false; trackReverse := false; wayMode := WAY_MOW;
     shouldDock := false; shouldGpsReboot := false; isAtGpsRebootPoint := false;
     isUndocking := false; isDocking := false; getDockingPos := (0, 0, 0);
     isAtDockPath := false; isGoingToDockPath := false;
     isTargetingLastDockPoint := false;
     isBetweenLastAndNextToLastDockPoint := false;
     nextPointIsStraight := false; nextPointResult := true;
     useGPSfixForDeltaEstimation := true; useGPSfloatForDeltaEstimation := true;
     useGPSfixForPosEstimation := true; useGPSfloatForPosEstimation := true;
     useIMU := true |}.

(** Drivers with the given lift sensor and bumper readings. *)
Definition sampleDrivers (lift bumperL bumperR : bool) : Drivers :=
  {| liftTriggered := lift; sonarObstacle := false; sonarNearObstacle := false;
     buzzerIsPlaying := false; imuFound := true;
     getLeftBumper := bumperL; getRightBumper := bumperR |}.

(** ** Statements about the speed caps *)

(** [v] is the minimum of the setpoint and the values of the caps whose
    condition is true. *)
Definition isLowestOf (v setpoint : R) (caps : list (bool * R)) : Prop :=
  v <= setpoint
  /\ (forall c, In c caps -> fst c = true -> v <= snd c)
  /\ (v = setpoint \/ exists c, In c caps /\ fst c = true /\ v = snd c).

Section SpeedCaps.

Variable cfg : Config.

(** The situational caps, each with its condition on this tick, when the
    near-waypoint cap counts whenever the robot is near a waypoint. *)
Definition capsNearWaypointAlways (gps : Gps) (motor : Motor) (maps : Map)
    (drv : Drivers) (s : Globals) : list (bool * R) :=
  [ (SolType_eqb (solution gps) SOL_FLOAT, FLOATSPEED cfg);
    ((fR s targetDist <? NEARWAYPOINTDISTANCE cfg)
     || (fR s lastTargetDist <? NEARWAYPOINTDISTANCE cfg), NEARWAYPOINTSPEED cfg);
    (sonarNearObstacle drv, SONARSPEED cfg);
    (motorLeftOverload motor || motorRightOverload motor || motorMowOverload motor,
     OVERLOADSPEED cfg);
    (keepslow motor, KEEPSLOWSPEED cfg);
    (retryslow motor, RETRYSLOWSPEED cfg);
    (trackSlow maps, TRACKSLOWSPEED cfg);
    (fB s dockTimer || fB s unDockTimer, DOCK_NO_ROTATION_SPEED cfg);
    (isAtDockPath maps, DOCKPATHSPEED cfg);
    (isGoingToDockPath maps, DOCKSPEED cfg) ].

(** The same caps, the near-waypoint cap counting only when the distance
    ramp is not configured. *)
Definition capsNearWaypointWithoutRamp (gps : Gps) (motor : Motor) (maps : Map)
    (drv : Drivers) (s : Globals) : list (bool * R) :=
  [ (SolType_eqb (solution gps) SOL_FLOAT, FLOATSPEED cfg);
    (negb (DISTANCE_RAMP cfg)
     && ((fR s targetDist <? NEARWAYPOINTDISTANCE cfg)
         || (fR s lastTargetDist <? NEARWAYPOINTDISTANCE cfg)), NEARWAYPOINTSPEED cfg);
    (sonarNearObstacle drv, SONARSPEED cfg);
    (motorLeftOverload motor || motorRightOverload motor || motorMowOverload motor,
     OVERLOADSPEED cfg);
    (keepslow motor, KEEPSLOWSPEED cfg);
    (retryslow motor, RETRYSLOWSPEED cfg);
    (trackSlow maps, TRACKSLOWSPEED cfg);
    (fB s dockTimer || fB s unDockTimer, DOCK_NO_ROTATION_SPEED cfg);
    (isAtDockPath maps, DOCKPATHSPEED cfg);
    (isGoingToDockPath maps, DOCKSPEED cfg) ].

End SpeedCaps.

(** The robot 0.1 m before its target at a setpoint of 0.3 m/s. *)
Definition nearTargetGlobals : Globals :=
  setR targetDist 0.1
    (setR lastTargetDist 4.9 (setR setSpeed 0.3 (initGlobals sampleConfig))).

(** ** Statements about kidnap detection *)

Definition isKidnapEvent (o : Output) : bool :=
  match o with
  | onKidnapped _ => true
  | _ => false
  end.

(** A robot that has left its path by 1.5 m and is not yet marked kidnapped. *)
Definition offPathGlobals : Globals :=
  setR distToPath 1.5 (initGlobals sampleConfig).

(** ** Statements about the commands of a tick *)

Definition isVelocityCommand (o : Output) : bool :=
  match o with
  | setLinearAngularSpeed _ _ _ => true
  | _ => false
  end.

Definition isMowCommand (o : Output) : bool :=
  match o with
  | setMowState _ => true
  | _ => false
  end.

Definition isMotorCommand (o : Output) : bool :=
  isVelocityCommand o || isMowCommand o.

Section TickStatements.

Context {helper : Helper}.
Variable cfg : Config.


(** On a control tick ([trackLine(true)]) the motor is sent the velocity
    (0, 0) and mowing is off: the mow flag is false, and what is sent to the
    mow motor on the tick is [setMowState(false)], once, when the mow motor is
    switched on ([motor.switchedOn]) and may be commanded
    ([motor.enableMowMotor]), and nothing otherwise; so a running mow motor
    is switched off and no command switches it on. *)
Definition robotStoppedThisTick (now : Z) (motor : Motor) (gps : Gps) (maps : Map)
    (drv : Drivers) (s : Globals) : Prop :=
  let s' := fst (trackLine cfg true now motor gps maps drv s) in
  let out := snd (trackLine cfg true now motor gps maps drv s) in
  filter isVelocityCommand out = [setLinearAngularSpeed 0 0 true]
  /\ fB s' mow = false
  /\ filter isMowCommand out
     = (if switchedOn motor && enableMowMotor motor
        then [setMowState false] else []).

(** The gains [(p, k)] of the Stanley law on a tick that starts in [s],
    written out on the inputs of the tick (to be compared with what
    [stanleyTracker] computes through the globals).  Without
    MAP_STANLEY_CONTROL they are the "slow" presets on a slow track
    ([maps.trackSlow]) and the "normal" presets otherwise.  With it, the
    presets are first replaced by the STANLEY_FLOAT ones on a FLOAT or INVALID
    solution, and the gains are interpolated by the commanded speed between
    the slow and the normal preset and limited to that range. *)
Definition stanleyGains (gps : Gps) (motor : Motor) (maps : Map) (s : Globals)
    : R * R :=
  if MAP_STANLEY_CONTROL cfg then
    let float := SolType_eqb (solution gps) SOL_FLOAT
                 || SolType_eqb (solution gps) SOL_INVALID in
    let normalK := if float then STANLEY_FLOAT_K_NORMAL cfg
                   else fR s stanleyTrackingNormalK in
    let normalP := if float then STANLEY_FLOAT_P_NORMAL cfg
                   else fR s stanleyTrackingNormalP in
    let slowK := if float then STANLEY_FLOAT_K_SLOW cfg
                 else fR s stanleyTrackingSlowK in
    let slowP := if float then STANLEY_FLOAT_P_SLOW cfg
                 else fR s stanleyTrackingSlowP in
    let speed := fabs (linearSpeedSet motor) * 1000 in
    let lo := MOTOR_MIN_SPEED cfg * 1000 in
    let hi := MOTOR_MAX_SPEED cfg * 1000 in
    (max slowP (min normalP (map speed lo hi (slowP * 1000) (normalP * 1000) / 1000)),
     max slowK (min normalK (map speed lo hi (slowK * 1000) (normalK * 1000) / 1000)))
  else if trackSlow maps
  then (fR s stanleyTrackingSlowP, fR s stanleyTrackingSlowK)
  else (fR s stanleyTrackingNormalP, fR s stanleyTrackingNormalK).

(** The angular velocity of the sub-controller is replaced by 0 before it
    reaches the motor: the robot is lifted ([detectLift]); or, with
    DOCK_NO_ROTATION on a docking way, the robot approaches the last dock
    point with the previous waypoint farther behind than
    DOCK_NO_ROTATION_DISTANCE ([noDockRotation]) or leaves it while undocking
    ([noUnDockRotation]). *)
Definition angularOverridden (motor : Motor) (maps : Map) (drv : Drivers)
    (s : Globals) : bool :=
  detectLift cfg drv
  || (DOCK_NO_ROTATION cfg && WayType_eqb (wayMode maps) WAY_DOCK
      && ((isTargetingLastDockPoint maps && negb (isUndocking maps)
           && (fR (trackLine_errors cfg motor maps s) lastTargetDist
               >? DOCK_NO_ROTATION_DISTANCE cfg))
          || (isBetweenLastAndNextToLastDockPoint maps && isUndocking maps))).

End TickStatements.

(** A mow motor that is enabled but not yet switched on. *)
Definition idleMowMotor : Motor :=
  {| motorLeftTicks := 0; motorRightTicks := 0; ticksPerCm := 8; wheelBaseCm := 36;
     linearSpeedSet := 0; angularSpeedSet := 0;
     motorLeftOverload := false; motorRightOverload := false;
     motorMowOverload := false; keepslow := false; retryslow := false;
     switchedOn := false; enableMowMotor := true |}.

(** A robot 2 m along the segment of [sampleMap], heading north: a quarter
    turn away from the target. *)
Definition turnedAwayGlobals : Globals :=
  setR stateDelta (PI / 2) (setR stateX 2 (initGlobals sampleConfig)).

(** A mow motor that is switched on while [enableMowMotor] is off. *)
Definition lockedMowMotor : Motor :=
  {| motorLeftTicks := 0; motorRightTicks := 0; ticksPerCm := 8; wheelBaseCm := 36;
     linearSpeedSet := 0; angularSpeedSet := 0;
     motorLeftOverload := false; motorRightOverload := false;
     motorMowOverload := false; keepslow := false; retryslow := false;
     switchedOn := true; enableMowMotor := false |}.

(** The map while undocking: leaving the dock between the last and the
    next-to-last dock point, on the segment of [sampleMap]. *)
Definition undockingMap : Map :=
  {| targetPoint := mkPoint 5 0; lastTargetPoint := mkPoint 0 0;
     distanceToTargetPoint := fun x y => SpecHelper.pointDistance x y 5 0;
     distanceToLastTargetPoint := fun x y => SpecHelper.pointDistance x y 0 0;
     trackSlow := false; trackReverse := false; wayMode := WAY_DOCK;
     shouldDock := false; shouldGpsReboot := false; isAtGpsRebootPoint := false;
     isUndocking := true; isDocking := false; getDockingPos := (0, 0, 0);
     isAtDockPath := true; isGoingToDockPath := false;
     isTargetingLastDockPoint := false;
     isBetweenLastAndNextToLastDockPoint := true;
     nextPointIsStraight := false; nextPointResult := true;
     useGPSfixForDeltaEstimation := true; useGPSfloatForDeltaEstimation := true;
     useGPSfixForPosEstimation := true; useGPSfloatForPosEstimation := true;
     useIMU := true |}.

(** A robot 2 m along the segment of [sampleMap], on the line, its heading
    22.5 degrees off the direction of the target. *)
Definition offHeadingGlobals : Globals :=
  setR stateDelta (PI / 8) (setR stateX 2 (initGlobals sampleConfig)).

(** ** Statements about the GPS solution of a tick *)

Section EstimatorStatements.

Context {helper : Helper}.
Variable cfg : Config.

(** The displacement of the GPS position since the last accepted position. *)
Definition gpsDisplacement (gps : Gps) (s : Globals) : R :=
  sqrt (sq (fst (gpsPosition gps s) - fR s lastPosN)
        + sq (snd (gpsPosition gps s) - fR s lastPosE)).

(** The heading derived from the GPS displacement vector, reversed when
    driving in reverse. *)
Definition gpsHeading (motor : Motor) (gps : Gps) (s : Globals) : R :=
  let h := scalePI (atan2 (fst (gpsPosition gps s) - fR s lastPosN)
                          (snd (gpsPosition gps s) - fR s lastPosE)) in
  if linearSpeedSet motor <? 0 then scalePI (h + PI) else h.

(** The configuration permits the solution quality for heading estimation. *)
Definition deltaEstimationPermitted (gps : Gps) (maps : Map) : bool :=
  (SolType_eqb (solution gps) SOL_FIXED && useGPSfixForDeltaEstimation maps)
  || (SolType_eqb (solution gps) SOL_FLOAT && useGPSfloatForDeltaEstimation maps).

(** On a tick with an accepted solution whose displacement is between 0.1 m
    and 0.3 m, with the robot not turning, a nonzero linear speed and an
    angular rate under 45 deg/s commanded, and the solution quality permitted:
    the heading after the GPS part of [computeRobotState] is the GPS heading
    when the disagreement exceeds 45 degrees, and the 0.9/0.1 blend
    otherwise. *)
Definition headingFusedWithGps (now : Z) (motor : Motor) (gps : Gps) (maps : Map)
    (s : Globals) : Prop :=
  gpsSolutionAccepted gps = true ->
  0.1 < gpsDisplacement gps s <= 0.3 ->
  fabs (distancePI (fR s stateDelta) (fR s lastPosDelta)) / PI * 180 < 10 ->
  fabs (linearSpeedSet motor) > 0 ->
  fabs (angularSpeedSet motor) / PI * 180 < 45 ->
  deltaEstimationPermitted gps maps = true ->
  let g := fst (computeRobotState_gps cfg now motor gps maps s) in
  let diffDelta := distancePI (fR s stateDelta) (gpsHeading motor gps s) in
  (fabs (diffDelta / PI * 180) > 45 ->
   fR g stateDelta = gpsHeading motor gps s)
  /\ (fabs (diffDelta / PI * 180) <= 45 ->
      fR g stateDelta
      = scalePI (fusionPI 0.9 (fR s stateDelta)
                          (scalePIangles (gpsHeading motor gps s) (fR s stateDelta)))).

End EstimatorStatements.

(** A robot that has taken a position baseline at the origin and drives on. *)
Definition drivingGlobals : Globals :=
  setB resetLastPos false (initGlobals sampleConfig).

(** ** Statements about the bumper *)

(** Successive calls of [Bumper::run], as the main loop makes them: each with
    the time of the call and the readings of the drivers. *)
Fixpoint bumperRuns (cfg : Config) (calls : list (Z * Drivers)) (s : Globals)
    : Globals * list Output :=
  match calls with
  | [] => (s, [])
  | (now, drv) :: calls =>
      let '(s, out) := Bumper.run cfg now drv s in
      let '(s, out') := bumperRuns cfg calls s in
      (s, out ++ out')
  end.

(** [n] calls, [period] ms apart from [from] on, all with the left bumper
    pressed. *)
Fixpoint leftPressedEvery (period : Z) (n : nat) (from : Z) : list (Z * Drivers) :=
  match n with
  | O => []
  | S n => (from, sampleDrivers false true false)
           :: leftPressedEvery period n (from + period)
  end.

(** The robot mowing, the bumper released at its last call at time [t]. *)
Definition mowingAt (t : Z) : Globals :=
  setZ lastBumperTime t (set_stateOp OP_MOW (initGlobals sampleConfig)).

Definition isErrorTransition (o : Output) : bool :=
  match o with
  | changeOperationTypeByOperator OP_ERROR => true
  | _ => false
  end.


(** * Further functions of robot.cpp and Stats.cpp *)

(** ** Further globals

    The globals of Stats.cpp and robot.cpp that only the functions below
    use, kept in a store of their own, built like [Globals]. *)

Inductive ZVar2 :=
(* Stats.cpp *)
| statIdleDuration | statChargeDuration | statMowDurationMotorRecovery
| statMowDurationInvalid | statMowDuration | statMowDurationFloat
| statMowDurationFix | statMowFloatToFixRecoveries | statMowInvalidRecoveries
| statImuRecoveries | statMowObstacles | statEscapeLawnCounter
| statMowGPSNoSpeedCounter | statMowRotationTimeoutCounter
| statMowImuNoRotationSpeedCounter | statMowToFCounter | nextStatTime
(* robot.cpp *)
| stateInMotionLastTime | timeLast.

Inductive RVar2 :=
(* Stats.cpp *)
| statTempMin | statTempMax | statMowMaxDgpsAge.

Inductive BVar2 :=
(* robot.cpp *)
| stateInMotionLP.

Scheme Equality for ZVar2.
Scheme Equality for RVar2.
Scheme Equality for BVar2.

Record Globals2 := mkGlobals2 {
  gZ : ZVar2 -> Z;
  gR : RVar2 -> R;
  gB : BVar2 -> bool;
  lastSolution : SolType
}.

Definition setZ2 (x : ZVar2) (v : Z) (t : Globals2) : Globals2 :=
  {| gZ := fun y => if ZVar2_beq x y then v else gZ t y;
     gR := gR t; gB := gB t; lastSolution := lastSolution t |}.

Definition setR2 (x : RVar2) (v : R) (t : Globals2) : Globals2 :=
  {| gZ := gZ t;
     gR := fun y => if RVar2_beq x y then v else gR t y;
     gB := gB t; lastSolution := lastSolution t |}.

Definition setB2 (x : BVar2) (v : bool) (t : Globals2) : Globals2 :=
  {| gZ := gZ t; gR := gR t;
     gB := fun y => if BVar2_beq x y then v else gB t y;
     lastSolution := lastSolution t |}.

Definition set_lastSolution (v : SolType) (t : Globals2) : Globals2 :=
  {| gZ := gZ t; gR := gR t; gB := gB t; lastSolution := v |}.

(** [x++] on an [unsigned long] counter. *)
Definition incZ2 (x : ZVar2) (t : Globals2) : Globals2 :=
  setZ2 x (u32 (gZ t x + 1)) t.

(** The initialisers of these globals. *)
Definition initGlobals2 : Globals2 :=
  {| gZ := fun _ => 0%Z;
     gR := fun x =>
             match x with
             | statTempMin => 9999
             | statTempMax => -9999
             | statMowMaxDgpsAge => 0
             end;
     gB := fun _ => false;
     lastSolution := SOL_INVALID |}.

(** ** Stats.cpp *)

Module Stats.

(** [timePassed(now, &last, interval)]: the result and the new [*last]. *)
Definition timePassed (now last interval : Z) : bool * Z :=
  if (u32 (now - last) >=? interval)%Z then (true, now) else (false, last).

(** [calcStats], at [millis() = now].  Of the collaborators it reads
    [motor.motorRecoveryState], [gps.solution] and [gps.dgpsAge]. *)
Definition calcStats (now : Z) (motorRecoveryState : bool) (gps : Gps)
    (dgpsAge : Z) (s : Globals) (t : Globals2) : Globals2 :=
  let '(passed, last) := timePassed now (gZ t nextStatTime) 1000 in
  if negb passed then t   (* only once a second *)
  else
    let t := setZ2 nextStatTime last t in
    match stateOp s with
    | OP_IDLE => incZ2 statIdleDuration t
    | OP_MOW =>
        let t := incZ2 statMowDuration t in
        let t :=
          if motorRecoveryState then incZ2 statMowDurationMotorRecovery t else t in
        let t :=
          if SolType_eqb (solution gps) SOL_FIXED then incZ2 statMowDurationFix t
          else if SolType_eqb (solution gps) SOL_FLOAT
          then incZ2 statMowDurationFloat t
          else if SolType_eqb (solution gps) SOL_INVALID
          then incZ2 statMowDurationInvalid t
          else t in
        let t :=
          if negb (SolType_eqb (solution gps) (lastSolution t)) then
            let t :=
              if SolType_eqb (lastSolution t) SOL_FLOAT
                 && SolType_eqb (solution gps) SOL_FIXED
              then incZ2 statMowFloatToFixRecoveries t else t in
            let t :=
              if SolType_eqb (lastSolution t) SOL_INVALID
              then incZ2 statMowInvalidRecoveries t else t in
            set_lastSolution (solution gps) t
          else t in
        setR2 statMowMaxDgpsAge
              (max (gR t statMowMaxDgpsAge) (IZR (u32 (now - dgpsAge)) / 1000)) t
    | OP_CHARGE => incZ2 statChargeDuration t
    | _ => t   (* the other operations are not counted *)
    end.

Definition resetStats (s : Globals) (t : Globals2) : Globals * Globals2 :=
  let t := setZ2 statIdleDuration 0 t in
  let t := setZ2 statChargeDuration 0 t in
  let t := setZ2 statMowDurationMotorRecovery 0 t in
  let t := setZ2 statMowDurationInvalid 0 t in
  let t := setZ2 statMowDuration 0 t in
  let t := setZ2 statMowDurationFloat 0 t in
  let t := setZ2 statMowDurationFix 0 t in
  let t := setZ2 statMowFloatToFixRecoveries 0 t in
  let t := setZ2 statMowInvalidRecoveries 0 t in
  let t := setZ2 statImuRecoveries 0 t in
  let t := setZ2 statMowObstacles 0 t in
  let t := setZ2 statEscapeLawnCounter 0 t in
  let s := setZ statMowBumperCounter 0 s in
  let s := setZ statMowSonarCounter 0 s in
  let s := setZ statMowLiftCounter 0 s in
  let s := setZ statMowGPSMotionTimeoutCounter 0 s in
  let t := setZ2 statMowGPSNoSpeedCounter 0 t in
  let t := setZ2 statMowRotationTimeoutCounter 0 t in
  let t := setZ2 statMowImuNoRotationSpeedCounter 0 t in
  let s := setZ statMowDiffIMUWheelYawSpeedCounter 0 s in
  let s := setZ statGPSJumps 0 s in
  let t := setZ2 statMowToFCounter 0 t in
  let t := setR2 statTempMin 9999 t in
  let t := setR2 statTempMax (-9999) t in
  let t := setR2 statMowMaxDgpsAge 0 t in
  let s := setR statMowDistanceTraveled 0 s in
  let t := set_lastSolution SOL_INVALID t in
  (s, t).

(** One call of [calcStats] as the main loop makes it: the time of the call,
    the operation the robot is in, and what the motor and the GPS report. *)
Record Tick := mkTick {
  tickTime : Z;
  tickOp : OperationType;
  tickRecovery : bool;
  tickSolution : SolType;
  tickDgpsAge : Z
}.

(** Successive calls of [calcStats]. *)
Fixpoint calcStatsRuns (ticks : list Tick) (s : Globals) (t : Globals2) : Globals2 :=
  match ticks with
  | [] => t
  | k :: ticks =>
      let gps := {| solutionAvail := false; solution := tickSolution k;
                    relPosN := 0; relPosE := 0; lat := 0; lon := 0;
                    groundSpeed := 0 |} in
      calcStatsRuns ticks s
        (calcStats (tickTime k) (tickRecovery k) gps (tickDgpsAge k)
           (set_stateOp (tickOp k) s) t)
  end.

(** The seconds of mowing are split by GPS quality: the three quality
    counters add up to [statMowDuration] (as [unsigned long]s). *)
Definition mowDurationSplit (t : Globals2) : Prop :=
  u32 (gZ t statMowDurationFix + gZ t statMowDurationFloat
       + gZ t statMowDurationInvalid)
  = u32 (gZ t statMowDuration).

End Stats.

(** ** robot.cpp: the commanded motion, waiting, malfunctions and stuck rotation *)

(** The tunables of config.h these functions read. *)
Record MonitorConfig := mkMonitorConfig {
  GPS_JUMP_WAIT : bool;
  ENABLE_ODOMETRY_ERROR_DETECTION : bool;
  ENABLE_OVERLOAD_DETECTION : bool;
  MOW_OVERLOAD_ERROR_TIME : Z;
  ENABLE_FAULT_OBSTACLE_AVOIDANCE : bool;
  OBSTACLE_DETECTION_ROTATION : bool;
  ROTATION_TIMEOUT : Z;
  ROTATION_TIME : Z;
  FREEWHEEL_IS_AT_BACKSIDE : bool;
  OVERLOAD_ROTATION : bool;
  OVERLOAD_ROTATION_DEADTIME : Z
}.

(** What [motor] reports about itself, as read during one call. *)
Record MotorStatus := mkMotorStatus {
  waitMowMotor : bool;             (* motor.waitMowMotor() *)
  odometryError : bool;
  motorOverloadDuration : Z;       (* accumulated duration (ms) *)
  motorError : bool
}.

(** Events for the active operation besides those of [Output]. *)
Inductive OpEvent :=
| onOdometryError
| onMotorOverload
| onMotorError
| onMotorMowStart
| onGpsJump.

Section RobotMotion.

Variable cfg : Config.
Variable mcfg : MonitorConfig.

(* should robot move forward? *)
Definition robotShouldMoveForward (motor : Motor) : bool :=
  linearSpeedSet motor >=? MOTOR_MIN_SPEED cfg / 2.0.

(* should robot move backward? *)
Definition robotShouldMoveBackward (motor : Motor) : bool :=
  linearSpeedSet motor <=? - MOTOR_MIN_SPEED cfg / 2.0.

(* should robot rotate left? only applies when robot is nearly still *)
Definition robotShouldRotateLeft (motor : Motor) : bool :=
  if (fabs (linearSpeedSet motor) <? MOTOR_MIN_SPEED cfg * 2)
     && (angularSpeedSet motor / PI * 180.0 <? -4.0)
  then true else false.

(* should robot rotate right? only applies when robot is nearly still *)
Definition robotShouldRotateRight (motor : Motor) : bool :=
  if (fabs (linearSpeedSet motor) <? MOTOR_MIN_SPEED cfg * 2)
     && (angularSpeedSet motor / PI * 180.0 >? 4.0)
  then true else false.

(* should robot be in motion? NOTE: function ignores very short motion pauses
   (with motion low-pass filtering) *)
Definition robotShouldBeInMotion (now : Z) (motor : Motor) (t : Globals2)
    : bool * Globals2 :=
  let t :=
    if robotShouldMove cfg motor || robotShouldRotate cfg motor then
      let t := setZ2 stateInMotionLastTime now t in
      setB2 stateInMotionLP true t
    else t in
  let t :=
    if (now >? u32 (gZ t stateInMotionLastTime + 2000))%Z
    then setB2 stateInMotionLP false t
    else t in
  (gB t stateInMotionLP, t).

Definition triggerMotorMowWait (now : Z) (s : Globals) : Globals * list OpEvent :=
  (resetMotion now s, [onMotorMowStart]).

(* trigger gps jump action *)
Definition triggerGpsJump (now : Z) (s : Globals) : Globals * list OpEvent :=
  (resetMotion now s, [onGpsJump]).

(* should robot wait? *)
Definition robotShouldWait (now : Z) (status : MotorStatus) (s : Globals)
    : bool * Globals * list OpEvent :=
  if waitMowMotor status then
    let '(s, out) := triggerMotorMowWait now s in
    (true, s, out)
  else if GPS_JUMP_WAIT mcfg && fB s gpsJump then
    let s := setB gpsJump false s in
    let '(s, out) := triggerGpsJump now s in
    (true, s, out)
  else (false, s, []).

(* detect sensor malfunction *)
Definition detectSensorMalfunction (status : MotorStatus) : list OpEvent :=
  if ENABLE_ODOMETRY_ERROR_DETECTION mcfg && odometryError status
  then [onOdometryError]
  else if ENABLE_OVERLOAD_DETECTION mcfg
          && (motorOverloadDuration status >? MOW_OVERLOAD_ERROR_TIME mcfg)%Z
  then
    (* one motor is taking too much current over a long time and we should
       stop mowing *)
    [onMotorOverload]
  else if ENABLE_FAULT_OBSTACLE_AVOIDANCE mcfg && motorError status
  then
    (* there is a motor error and we should try an obstacle avoidance *)
    [onMotorError]
  else [].

(* stuck rotate avoidance (drive forward if robot cannot rotate) *)
Definition triggerObstacleRotation (now : Z) (motor : Motor) (s : Globals)
    : Globals * list Output :=
  let out1 :=
    if robotShouldRotateLeft motor
    then [setObstaclePosition (fR s stateX) (fR s stateY) (-135.0)
            (MOWER_RADIUS_BACK cfg) (OBSTACLE_DIAMETER cfg)]
    else [] in
  let out2 :=
    if robotShouldRotateRight motor
    then [setObstaclePosition (fR s stateX) (fR s stateY) 135.0
            (MOWER_RADIUS_BACK cfg) (OBSTACLE_DIAMETER cfg)]
    else [] in
  let s := resetMotion now s in
  (s, out1 ++ out2 ++ [onObstacleRotation]).

(* stuck rotate detection (e.g. robot cannot due to an obstacle outside of
   robot rotation point)
   returns true, if stuck detected, otherwise false *)
Definition detectObstacleRotation (now : Z) (motor : Motor) (drv : Drivers)
    (s : Globals) (t : Globals2) : bool * Globals * Globals2 * list Output :=
  (* the reaction to a stuck rotation where the freewheel decides *)
  let react (s : Globals) : Globals * list Output :=
    if FREEWHEEL_IS_AT_BACKSIDE mcfg then triggerObstacleRotation now motor s
    else
      let out := [setObstaclePosition (fR s stateX) (fR s stateY) 0
                    (MOWER_RADIUS_FRONT cfg) (OBSTACLE_DIAMETER cfg)] in
      let '(s, out') := triggerObstacle now s in
      (s, out ++ out') in
  let imu (s : Globals) (t : Globals2) : bool * Globals * Globals2 * list Output :=
    if imuFound drv
       && (now >? u32 (fZ s angularMotionStartTime + ROTATION_TIME mcfg))%Z then
      (* less than 3 degree/s yaw speed, e.g. due to obstacle *)
      if fabs (fR s stateDeltaSpeedLP) <? 3.0 / 180.0 * PI then
        let t := incZ2 statMowImuNoRotationSpeedCounter t in
        let '(s, out) := triggerObstacleRotation now motor s in
        (true, s, t, out)
      (* yaw speed difference between wheels and IMU more than 8 degree/s *)
      else if fR s diffIMUWheelYawSpeedLP >? 10.0 / 180.0 * PI then
        let s := incZ statMowDiffIMUWheelYawSpeedCounter s in
        let '(s, out) := triggerObstacleRotation now motor s in
        (true, s, t, out)
      else (false, s, t, [])
    else (false, s, t, []) in
  if negb (OBSTACLE_DETECTION_ROTATION mcfg) || negb (robotShouldRotate cfg motor)
  then (false, s, t, [])
  (* too long rotation time (timeout), e.g. due to obstacle *)
  else if (now >? u32 (fZ s angularMotionStartTime + ROTATION_TIMEOUT mcfg))%Z then
    let t := incZ2 statMowRotationTimeoutCounter t in
    let '(s, out) := react s in
    (true, s, t, out)
  else if OVERLOAD_ROTATION mcfg
          && ((motorLeftOverload motor || motorRightOverload motor)
              && (now >? u32 (fZ s angularMotionStartTime
                              + OVERLOAD_ROTATION_DEADTIME mcfg))%Z) then
    let t := incZ2 statMowRotationTimeoutCounter t in
    let '(s, out) := react s in
    (true, s, t, out)
  else imu s t.

(** The block [// global deltaTime] of [run]. *)
Definition run_deltaTime (now : Z) (s : Globals) (t : Globals2)
    : Globals * Globals2 :=
  let s := setZ deltaTime (u32 (gZ t timeLast - now)) s in
  let t := setZ2 timeLast now t in
  (s, t).

(** The motion bookkeeping of the control cycle of [run], between [readIMU]
    and [motor.run]. *)
Definition run_motionBookkeeping (now : Z) (motor : Motor) (s : Globals)
    (t : Globals2) : Globals * Globals2 :=
  let s :=
    if negb (robotShouldMove cfg motor) then
      let s := resetLinearMotionMeasurement now s in
      updateGPSMotionCheckTime cfg now s
    else s in
  let s :=
    if negb (robotShouldRotate cfg motor)
    then resetAngularMotionMeasurement now s
    else s in
  let '(inMotion, t) := robotShouldBeInMotion now motor t in
  let s :=
    if negb inMotion then
      let s := resetOverallMotionTimeout now s in
      let s := setR lastGPSMotionX 0 s in
      setR lastGPSMotionY 0 s
    else s in
  (s, t).

End RobotMotion.

(** [detectObstacle] gets as far as comparing the GPS ground speed with the
    commanded speed and finds it too low, with GPS speed detection in force:
    the robot should move; neither the lift, nor the bumper, nor the sonar
    raises an obstacle; the dead time after the start of the linear motion
    is over; GPS obstacles are not being ignored; and the robot is not on
    the dock path. *)
Definition gpsSpeedTooLow (cfg : Config) (now : Z) (motor : Motor) (maps : Map)
    (drv : Drivers) (s : Globals) : bool :=
  robotShouldMove cfg motor
  && negb (ENABLE_LIFT_DETECTION cfg && LIFT_OBSTACLE_AVOIDANCE cfg
           && (now >? u32 (fZ s linearMotionStartTime + BUMPER_DEADTIME cfg))%Z
           && liftTriggered drv)
  && negb ((now >? u32 (fZ s detectObstacle_lastBumperTime + BUMPER_DEADTIME cfg))%Z
           && Bumper.obstacle cfg s)
  && negb ((sonarObstacle drv && negb (WayType_eqb (wayMode maps) WAY_DOCK))
           && SONAR_TRIGGER_OBSTACLES cfg)
  && ((now >? u32 (fZ s linearMotionStartTime + GPS_SPEED_DEADTIME cfg))%Z
      && (fR s stateGroundSpeed <? fabs (linearSpeedSet motor / 4)))
  && negb (NO_GPS_OBSTACLE cfg
           && (fB s gpsObstacleNotAllowed
               && negb (now >? fZ s gpsObstacleNotAllowedTime)%Z))
  && (GPS_SPEED_DETECTION cfg && negb (isAtDockPath maps)).

(** The drivers with another reading of the sonar. *)
Definition set_sonarObstacle (v : bool) (drv : Drivers) : Drivers :=
  {| liftTriggered := liftTriggered drv; sonarObstacle := v;
     sonarNearObstacle := sonarNearObstacle drv;
     buzzerIsPlaying := buzzerIsPlaying drv; imuFound := imuFound drv;
     getLeftBumper := getLeftBumper drv; getRightBumper := getRightBumper drv |}.

(** The map with another way mode. *)
Definition set_wayMode (w : WayType) (maps : Map) : Map :=
  {| targetPoint := targetPoint maps; lastTargetPoint := lastTargetPoint maps;
     distanceToTargetPoint := distanceToTargetPoint maps;
     distanceToLastTargetPoint := distanceToLastTargetPoint maps;
     trackSlow := trackSlow maps; trackReverse := trackReverse maps;
     wayMode := w;
     shouldDock := shouldDock maps; shouldGpsReboot := shouldGpsReboot maps;
     isAtGpsRebootPoint := isAtGpsRebootPoint maps;
     isUndocking := isUndocking maps; isDocking := isDocking maps;
     getDockingPos := getDockingPos maps; isAtDockPath := isAtDockPath maps;
     isGoingToDockPath := isGoingToDockPath maps;
     isTargetingLastDockPoint := isTargetingLastDockPoint maps;
     isBetweenLastAndNextToLastDockPoint :=
       isBetweenLastAndNextToLastDockPoint maps;
     nextPointIsStraight := nextPointIsStraight maps;
     nextPointResult := nextPointResult maps;
     useGPSfixForDeltaEstimation := useGPSfixForDeltaEstimation maps;
     useGPSfloatForDeltaEstimation := useGPSfloatForDeltaEstimation maps;
     useGPSfixForPosEstimation := useGPSfixForPosEstimation maps;
     useGPSfloatForPosEstimation := useGPSfloatForPosEstimation maps;
     useIMU := useIMU maps |}.

(** The map with or without the IMU in use by the planner. *)
Definition set_useIMU (v : bool) (maps : Map) : Map :=
  {| targetPoint := targetPoint maps; lastTargetPoint := lastTargetPoint maps;
     distanceToTargetPoint := distanceToTargetPoint maps;
     distanceToLastTargetPoint := distanceToLastTargetPoint maps;
     trackSlow := trackSlow maps; trackReverse := trackReverse maps;
     wayMode := wayMode maps;
     shouldDock := shouldDock maps; shouldGpsReboot := shouldGpsReboot maps;
     isAtGpsRebootPoint := isAtGpsRebootPoint maps;
     isUndocking := isUndocking maps; isDocking := isDocking maps;
     getDockingPos := getDockingPos maps; isAtDockPath := isAtDockPath maps;
     isGoingToDockPath := isGoingToDockPath maps;
     isTargetingLastDockPoint := isTargetingLastDockPoint maps;
     isBetweenLastAndNextToLastDockPoint :=
       isBetweenLastAndNextToLastDockPoint maps;
     nextPointIsStraight := nextPointIsStraight maps;
     nextPointResult := nextPointResult maps;
     useGPSfixForDeltaEstimation := useGPSfixForDeltaEstimation maps;
     useGPSfloatForDeltaEstimation := useGPSfloatForDeltaEstimation maps;
     useGPSfixForPosEstimation := useGPSfixForPosEstimation maps;
     useGPSfloatForPosEstimation := useGPSfloatForPosEstimation maps;
     useIMU := v |}.

(** The robot a quarter turn to the left of its target, about to rotate in
    place. *)
Definition rotatingGlobals : Globals :=
  setR trackerDiffDelta (- (PI / 2)) (initGlobals sampleConfig).

(** What [trackLine] issues when it takes the target as reached. *)
Definition isTargetEvent (o : Output) : bool :=
  match o with
  | onTargetReached | onNoFurtherWaypoints | nextPoint _ _ _ => true
  | _ => false
  end.

(** The map on the way to the last dock point. *)
Definition dockingMap : Map :=
  {| targetPoint := mkPoint 5 0; lastTargetPoint := mkPoint 0 0;
     distanceToTargetPoint := fun x y => SpecHelper.pointDistance x y 5 0;
     distanceToLastTargetPoint := fun x y => SpecHelper.pointDistance x y 0 0;
     trackSlow := false; trackReverse := false; wayMode := WAY_DOCK;
     shouldDock := true; shouldGpsReboot := false; isAtGpsRebootPoint := false;
     isUndocking := false; isDocking := true; getDockingPos := (5, 0, 0);
     isAtDockPath := true; isGoingToDockPath := false;
     isTargetingLastDockPoint := true;
     isBetweenLastAndNextToLastDockPoint := true;
     nextPointIsStraight := false; nextPointResult := true;
     useGPSfixForDeltaEstimation := true; useGPSfloatForDeltaEstimation := true;
     useGPSfixForPosEstimation := true; useGPSfloatForPosEstimation := true;
     useIMU := true |}.

(** A configuration of these tunables in the range of the firmware's example
    config, and a motor without faults that is or is not spinning up the mow
    motor. *)
Definition sampleMonitorConfig : MonitorConfig :=
  {| GPS_JUMP_WAIT := true; ENABLE_ODOMETRY_ERROR_DETECTION := true;
     ENABLE_OVERLOAD_DETECTION := true; MOW_OVERLOAD_ERROR_TIME := 20000;
     ENABLE_FAULT_OBSTACLE_AVOIDANCE := true;
     OBSTACLE_DETECTION_ROTATION := true; ROTATION_TIMEOUT := 15000;
     ROTATION_TIME := 2000; FREEWHEEL_IS_AT_BACKSIDE := true;
     OVERLOAD_ROTATION := true; OVERLOAD_ROTATION_DEADTIME := 1000 |}.

Definition sampleMotorStatus (spinningUp : bool) : MotorStatus :=
  {| waitMowMotor := spinningUp; odometryError := false;
     motorOverloadDuration := 0; motorError := false |}.
(** * Properties *)

(** ** Comparisons on reals and the store *)

Lemma Rltb_true_iff (a b : R) : (a <? b) = true <-> a < b.
Proof. unfold Rltb; destruct (Rlt_dec a b); split; intros; auto; discriminate. Qed.

Lemma Rltb_false_iff (a b : R) : (a <? b) = false <-> b <= a.
Proof.
  unfold Rltb; destruct (Rlt_dec a b); split; intros; auto; try discriminate; lra.
Qed.

Lemma Rleb_true_iff (a b : R) : (a <=? b) = true <-> a <= b.
Proof. unfold Rleb; destruct (Rle_dec a b); split; intros; auto; discriminate. Qed.

Lemma Rleb_false_iff (a b : R) : (a <=? b) = false <-> b < a.
Proof.
  unfold Rleb; destruct (Rle_dec a b); split; intros; auto; try discriminate; lra.
Qed.

Lemma Rgtb_true_iff (a b : R) : (a >? b) = true <-> a > b.
Proof. unfold Rgtb; rewrite Rltb_true_iff; lra. Qed.

Lemma Rgtb_false_iff (a b : R) : (a >? b) = false <-> a <= b.
Proof. unfold Rgtb; apply Rltb_false_iff. Qed.

Lemma Rgeb_true_iff (a b : R) : (a >=? b) = true <-> a >= b.
Proof. unfold Rgeb; rewrite Rleb_true_iff; lra. Qed.

Lemma Rgeb_false_iff (a b : R) : (a >=? b) = false <-> a < b.
Proof. unfold Rgeb; apply Rleb_false_iff. Qed.

Lemma Reqb_true_iff (a b : R) : Reqb a b = true <-> a = b.
Proof. unfold Reqb; destruct (Req_dec_T a b); split; intros; auto; discriminate. Qed.

(** Reading the store after the assignments of a modelled function. *)
Ltac store :=
  cbn [fR fZ fB stateOp stateSensor target lastTarget
       setR setZ setB set_stateOp set_stateSensor set_target set_lastTarget incZ
       RVar_beq ZVar_beq BVar_beq fst snd negb orb andb] in *.

(** ** Obstacle detection needs a commanded motion (robot.cpp) *)

(** C9. On a tick where the magnitude of the commanded linear speed is below
    MOTOR_MIN_SPEED, so that [robotShouldMove()] is false, [detectObstacle]
    returns false at once: the globals are left as they were and nothing is
    sent to the active operation or the map, whatever the lift sensor, the
    bumper, the sonar, the GPS speed and motion checks and the yaw-rate
    comparison would have found. *)
Theorem detectObstacle_requires_motion :
  forall (cfg : Config) (now : Z) (motor : Motor) (maps : Map) (drv : Drivers)
         (s : Globals),
    fabs (linearSpeedSet motor) < MOTOR_MIN_SPEED cfg ->
    robotShouldMove cfg motor = false
    /\ detectObstacle cfg now motor maps drv s = (false, s, []).
Proof.
  intros cfg now motor maps drv s Hslow.
  assert (Hmove : robotShouldMove cfg motor = false).
  { unfold robotShouldMove. apply Rgeb_false_iff. exact Hslow. }
  split; [exact Hmove|].
  unfold detectObstacle. rewrite Hmove. reflexivity.
Qed.

Lemma detectObstacle_requires_motion_witness :
  fabs (linearSpeedSet (sampleMotor 0 0)) < MOTOR_MIN_SPEED sampleConfig
  /\ detectObstacle sampleConfig 5000 (sampleMotor 0 0) sampleMap
       (sampleDrivers true true true) (initGlobals sampleConfig)
     = (false, initGlobals sampleConfig, []).
Proof.
  assert (H : fabs (linearSpeedSet (sampleMotor 0 0)) < MOTOR_MIN_SPEED sampleConfig).
  { cbn. unfold fabs. rewrite Rabs_R0. lra. }
  split; [exact H|].
  exact (proj2 (detectObstacle_requires_motion sampleConfig 5000 _ _ _ _ H)).
Defined.

(** Case analysis on the conditions of a modelled function, innermost first. *)
Ltac split_if :=
  match goal with
  | |- context [if ?c then _ else _] =>
      lazymatch c with
      | context [if _ then _ else _] => fail
      | _ => destruct c eqn:?
      end
  end.

Ltac split_ifs := repeat (split_if; store).

(** Turn the recorded outcomes of comparisons into (in)equalities. *)
Ltac rprop :=
  repeat match goal with
  | H : (_ <? _) = true |- _ => apply Rltb_true_iff in H
  | H : (_ <? _) = false |- _ => apply Rltb_false_iff in H
  | H : (_ <=? _) = true |- _ => apply Rleb_true_iff in H
  | H : (_ <=? _) = false |- _ => apply Rleb_false_iff in H
  | H : (_ >? _) = true |- _ => apply Rgtb_true_iff in H
  | H : (_ >? _) = false |- _ => apply Rgtb_false_iff in H
  | H : (_ >=? _) = true |- _ => apply Rgeb_true_iff in H
  | H : (_ >=? _) = false |- _ => apply Rgeb_false_iff in H
  | H : Reqb _ _ = true |- _ => apply Reqb_true_iff in H
  end.

(** ** Rotate-in-place (LineTracker.cpp) *)

Lemma rotateToTarget_linear (cfg : Config) (s : Globals) :
  fR (rotateToTarget cfg s) linear = 0.
Proof.
  unfold rotateToTarget, resetStateEstimation. store. split_ifs; reflexivity.
Qed.

Lemma rotateToTarget_CurrSpeed (cfg : Config) (s : Globals) :
  fabs (fR s CurrSpeed) > 0 -> fR (rotateToTarget cfg s) angular = 0.
Proof.
  intros Hmoving.
  unfold rotateToTarget, resetStateEstimation. store.
  split_ifs; try reflexivity; rprop; lra.
Qed.

(** C10. In [rotateToTarget], when the speed currently set on the motor
    ([CurrSpeed], read from [motor.linearSpeedSet] at the start of the tick)
    is not zero, the angular velocity is reset to 0 at the end, whatever the
    angle tiers chose; the linear velocity is 0 as always in this
    sub-controller.  So no rotation is commanded while still translating. *)
Theorem rotateToTarget_waits_for_standstill :
  forall (cfg : Config) (s : Globals),
    fabs (fR s CurrSpeed) > 0 ->
    fR (rotateToTarget cfg s) linear = 0
    /\ fR (rotateToTarget cfg s) angular = 0.
Proof.
  intros cfg s Hmoving. split.
  - apply rotateToTarget_linear.
  - apply rotateToTarget_CurrSpeed; exact Hmoving.
Qed.

Lemma rotateToTarget_waits_for_standstill_witness :
  fabs (fR (setR trackerDiffDelta (50 / 180 * PI)
              (setR CurrSpeed 0.2 (initGlobals sampleConfig))) CurrSpeed) > 0
  /\ fR (rotateToTarget sampleConfig
           (setR trackerDiffDelta (50 / 180 * PI)
              (setR CurrSpeed 0.2 (initGlobals sampleConfig)))) linear = 0
  /\ fR (rotateToTarget sampleConfig
           (setR trackerDiffDelta (50 / 180 * PI)
              (setR CurrSpeed 0.2 (initGlobals sampleConfig)))) angular = 0.
Proof.
  assert (H : fabs (fR (setR trackerDiffDelta (50 / 180 * PI)
                          (setR CurrSpeed 0.2 (initGlobals sampleConfig)))
                       CurrSpeed) > 0).
  { store. unfold fabs. rewrite Rabs_pos_eq; lra. }
  split; [exact H|].
  exact (rotateToTarget_waits_for_standstill sampleConfig _ H).
Defined.

(** ** Arithmetic of the Stanley law (LineTracker.cpp) *)

Lemma max_min_bounds (lo hi x : R) :
  lo <= hi -> lo <= max lo (min hi x) <= hi.
Proof.
  intros Hle. unfold max, min.
  destruct (hi <? x) eqn:E1; destruct (lo >? _) eqn:E2; rprop; lra.
Qed.

Lemma atan2_positive_x (y x : R) : 0 < x -> atan2 y x = atan (y / x).
Proof.
  intros Hx. unfold atan2.
  apply Rltb_true_iff in Hx. rewrite Hx. reflexivity.
Qed.

Lemma stanley_denominator_positive (v : R) : 0 < 0.001 + fabs v.
Proof. unfold fabs. pose proof (Rabs_pos v). lra. Qed.

(** ** Speed caps (LineTracker.cpp) *)

Lemma chooseLowest_isLowestOf (bools : list bool) :
  forall (speeds : list R) (speedIndex : Z) (s : Globals),
    isLowestOf (fR (chooseLowest speedIndex bools speeds s) linear)
               (fR s linear) (combine bools speeds).
Proof.
  induction bools as [|b bools IH]; intros speeds speedIndex s.
  - cbn. split; [lra|]. split; [intros c []|left; reflexivity].
  - destruct speeds as [|v speeds].
    + cbn. split; [lra|]. split; [intros c []|left; reflexivity].
    + cbn [chooseLowest combine].
      match goal with
      | |- isLowestOf (fR (chooseLowest _ _ _ ?s1) _) _ _ =>
          specialize (IH speeds (speedIndex + 1)%Z s1);
          remember s1 as s1' eqn:Es1
      end.
      destruct IH as (Hle & Hall & Hex).
      assert (Hs1 : fR s1' linear
                    = if b && (v <? fR s linear) then v else fR s linear).
      { subst s1'. destruct b; cbn [andb]; [|reflexivity].
        destruct (v <? fR s linear); store; reflexivity. }
      assert (Hs1le : fR s1' linear <= fR s linear
                      /\ (b = true -> fR s1' linear <= v)).
      { rewrite Hs1. destruct b; cbn [andb]; [|split; [lra|discriminate]].
        destruct (v <? fR s linear) eqn:E; rprop; split; intros; lra. }
      split; [lra|]. split.
      * intros c [Hc|Hc] Hact.
        -- subst c. cbn in *. destruct Hs1le as [_ Hv]. specialize (Hv Hact). lra.
        -- apply Hall; assumption.
      * destruct Hex as [Heq|(c & Hin & Hact & Heq)].
        -- rewrite Heq, Hs1. destruct b; cbn [andb]; [|left; reflexivity].
           destruct (v <? fR s linear) eqn:E; [|left; reflexivity].
           right. exists (true, v). cbn. auto.
        -- right. exists c. cbn. auto.
Qed.

Lemma linearSpeedCap_caps (cfg : Config) (gps : Gps) (motor : Motor) (maps : Map)
    (drv : Drivers) (s : Globals) :
  combine (linearBool cfg gps motor maps drv (setR linear (fR s setSpeed)
                                               (setB trackslow_allowed true s)))
          (linearSpeed cfg)
  = capsNearWaypointWithoutRamp cfg gps motor maps drv s.
Proof.
  unfold linearBool, linearSpeed, capsNearWaypointWithoutRamp. store. cbn [combine].
  rewrite andb_true_r. destruct (DISTANCE_RAMP cfg); reflexivity.
Qed.

(** C4, as amended. On every call of [linearSpeedState], the linear speed at
    the end of the speed-cap loop (before the distance ramp and before the
    sign flip for reverse tracking) is the minimum of the setpoint [setSpeed]
    and the values of the caps whose conditions are true: float GPS, sonar,
    motor overload, keep-slow, retry-slow, track-slow, dock no-rotation, dock
    path, going to dock, and the near-waypoint cap only when the distance
    ramp (DISTANCE_RAMP) is not configured.  With several caps true at once,
    the lowest value among them and the setpoint is chosen. *)
Theorem linearSpeedCap_lowest :
  forall (cfg : Config) (gps : Gps) (motor : Motor) (maps : Map) (drv : Drivers)
         (s : Globals),
    isLowestOf (fR (linearSpeedCap cfg gps motor maps drv s) linear)
               (fR s setSpeed)
               (capsNearWaypointWithoutRamp cfg gps motor maps drv s).
Proof.
  intros cfg gps motor maps drv s.
  unfold linearSpeedCap.
  rewrite <- linearSpeedCap_caps.
  pose proof (chooseLowest_isLowestOf
                (linearBool cfg gps motor maps drv
                   (setR linear (fR s setSpeed) (setB trackslow_allowed true s)))
                (linearSpeed cfg) 0%Z
                (setR linear (fR s setSpeed) (setB trackslow_allowed true s))) as H.
  store. exact H.
Qed.

(** C4, as stated, fails when the distance ramp is configured: 0.1 m before
    the target, with setpoint 0.3 m/s and NEARWAYPOINTSPEED 0.1 m/s, the
    near-waypoint condition holds but the speed-cap stage keeps 0.3 m/s. *)
Lemma linearSpeedCap_ignores_near_waypoint_with_ramp :
  ~ isLowestOf
      (fR (linearSpeedCap sampleConfig (sampleGps true SOL_FIXED 0 0)
             (sampleMotor 0.3 0) sampleMap (sampleDrivers false false false)
             nearTargetGlobals) linear)
      (fR nearTargetGlobals setSpeed)
      (capsNearWaypointAlways sampleConfig (sampleGps true SOL_FIXED 0 0)
         (sampleMotor 0.3 0) sampleMap (sampleDrivers false false false)
         nearTargetGlobals).
Proof.
  intros (_ & Hall & _).
  specialize (Hall (true, 0.1)).
  assert (Hv : fR (linearSpeedCap sampleConfig (sampleGps true SOL_FIXED 0 0)
                     (sampleMotor 0.3 0) sampleMap (sampleDrivers false false false)
                     nearTargetGlobals) linear = 0.3).
  { reflexivity. }
  rewrite Hv in Hall. cbn [fst snd] in Hall.
  assert (Hnear : (fR nearTargetGlobals targetDist
                   <? NEARWAYPOINTDISTANCE sampleConfig) = true).
  { apply Rltb_true_iff. cbn. lra. }
  assert (H : 0.3 <= 0.1); [|lra].
  apply Hall; [|reflexivity].
  unfold capsNearWaypointAlways. right. left.
  rewrite Hnear. reflexivity.
Qed.

(** ** Kidnap detection (LineTracker.cpp) *)

Lemma allowedPathTolerance_cases (helper : Helper) (cfg : Config) (maps : Map)
    (s : Globals) :
  allowedPathTolerance cfg maps s
  = if (isUndocking maps || isDocking maps)
       && (distance (fst (fst (getDockingPos maps))) (snd (fst (getDockingPos maps)))
                    (fR s stateX) (fR s stateY)
           <? KIDNAP_DETECT_DISTANCE_DOCK_UNDOCK cfg)
    then KIDNAP_DETECT_ALLOWED_PATH_TOLERANCE_DOCK_UNDOCK cfg
    else KIDNAP_DETECT_ALLOWED_PATH_TOLERANCE cfg.
Proof.
  unfold allowedPathTolerance.
  destruct (getDockingPos maps) as [[dockX dockY] dockDelta]. cbn [fst snd].
  destruct (isUndocking maps || isDocking maps); reflexivity.
Qed.

(** C7. With KIDNAP_DETECT configured, [gpsConditions] keeps [stateKidnapped]
    equal to "|distToPath| exceeds the allowed tolerance" and tells the
    active operation only about changes: [onKidnapped(true)] is sent exactly
    when the distance exceeds the tolerance and the state was false,
    [onKidnapped(false)] exactly when it does not exceed it and the state was
    true, at most one of them per call, and none when the state does not
    change.  The tolerance is the dock/undock value when the map is docking
    or undocking and the robot is within KIDNAP_DETECT_DISTANCE_DOCK_UNDOCK
    of the docking position, and the normal value otherwise. *)
Theorem gpsConditions_kidnap_edge_triggered :
  forall (helper : Helper) (cfg : Config) (now : Z) (maps : Map) (s : Globals),
    KIDNAP_DETECT cfg = true ->
    let tolerance := allowedPathTolerance cfg maps s in
    let offPath := fabs (fR s distToPath) >? tolerance in
    let s' := fst (gpsConditions cfg now maps s) in
    let out := snd (gpsConditions cfg now maps s) in
    fB s' stateKidnapped = offPath
    /\ filter isKidnapEvent out
       = (if Bool.eqb offPath (fB s stateKidnapped) then []
          else [onKidnapped offPath])
    /\ (In (onKidnapped true) out
        <-> fabs (fR s distToPath) > tolerance /\ fB s stateKidnapped = false)
    /\ (In (onKidnapped false) out
        <-> fabs (fR s distToPath) <= tolerance /\ fB s stateKidnapped = true)
    /\ (fB s' stateKidnapped = fB s stateKidnapped ->
        forall state, ~ In (onKidnapped state) out)
    /\ tolerance
       = (if (isUndocking maps || isDocking maps)
             && (distance (fst (fst (getDockingPos maps)))
                          (snd (fst (getDockingPos maps)))
                          (fR s stateX) (fR s stateY)
                 <? KIDNAP_DETECT_DISTANCE_DOCK_UNDOCK cfg)
          then KIDNAP_DETECT_ALLOWED_PATH_TOLERANCE_DOCK_UNDOCK cfg
          else KIDNAP_DETECT_ALLOWED_PATH_TOLERANCE cfg).
Proof.
  intros helper cfg now maps s Hcfg tolerance offPath s' out.
  assert (Htol : tolerance
       = (if (isUndocking maps || isDocking maps)
             && (distance (fst (fst (getDockingPos maps)))
                          (snd (fst (getDockingPos maps)))
                          (fR s stateX) (fR s stateY)
                 <? KIDNAP_DETECT_DISTANCE_DOCK_UNDOCK cfg)
          then KIDNAP_DETECT_ALLOWED_PATH_TOLERANCE_DOCK_UNDOCK cfg
          else KIDNAP_DETECT_ALLOWED_PATH_TOLERANCE cfg)).
  { apply allowedPathTolerance_cases. }
  assert (Hoff : offPath = true <-> fabs (fR s distToPath) > tolerance).
  { apply Rgtb_true_iff. }
  assert (Hon : offPath = false <-> fabs (fR s distToPath) <= tolerance).
  { apply Rgtb_false_iff. }
  subst s' out. unfold gpsConditions. rewrite Hcfg.
  fold tolerance. fold offPath.
  clearbody offPath tolerance.
  set (out1 := if negb (fZ s fixTimeout =? 0)%Z then _ else _).
  set (out2 := if DOCK_GPS_REBOOT cfg then _ else _).
  assert (H1 : forall state, ~ In (onKidnapped state) (out1 ++ out2)).
  { intros state Hin. apply in_app_or in Hin. subst out1 out2.
    destruct Hin as [Hin|Hin];
      repeat match type of Hin with
             | In _ (if ?c then _ else _) => destruct c
             end; cbn in Hin; intuition discriminate. }
  assert (F1 : filter isKidnapEvent (out1 ++ out2) = []).
  { subst out1 out2. rewrite filter_app.
    repeat match goal with
           | |- context [if ?c then _ else _] => destruct c
           end; reflexivity. }
  clearbody out1 out2.
  assert (Hin : forall state l,
             In (onKidnapped state) (out1 ++ out2 ++ l) <-> In (onKidnapped state) l).
  { intros state l. rewrite app_assoc. split; intros Hin.
    - apply in_app_or in Hin. destruct Hin as [Hin|Hin]; [|exact Hin].
      exfalso. exact (H1 state Hin).
    - apply in_or_app. right. exact Hin. }
  assert (Hfil : forall l, filter isKidnapEvent (out1 ++ out2 ++ l)
                           = filter isKidnapEvent l).
  { intros l. rewrite app_assoc, filter_app, F1. reflexivity. }
  destruct offPath eqn:Eoff; destruct (fB s stateKidnapped) eqn:Ekid;
    cbn [negb fst snd Bool.eqb]; store; rewrite ?Ekid, ?Hfil;
    (split; [reflexivity|]); (split; [reflexivity|]);
    (split; [rewrite Hin; cbn; intuition (try discriminate; try congruence); lra|]);
    (split; [rewrite Hin; cbn; intuition (try discriminate; try congruence); lra|]);
    (split; [|exact Htol]).
  all: try (intros Hsame; discriminate Hsame).
  all: intros _ state; rewrite Hin; cbn; tauto.
Qed.

Lemma gpsConditions_kidnap_edge_triggered_witness :
  KIDNAP_DETECT sampleConfig = true
  /\ In (onKidnapped true)
        (snd (@gpsConditions SpecHelper.specHelper sampleConfig 5000 sampleMap
                offPathGlobals)).
Proof.
  split; [reflexivity|].
  pose proof (gpsConditions_kidnap_edge_triggered SpecHelper.specHelper
                sampleConfig 5000 sampleMap offPathGlobals eq_refl) as H.
  cbv zeta in H. destruct H as (_ & _ & Htrue & _).
  apply Htrue. split; [|reflexivity].
  cbn. unfold fabs. rewrite Rabs_pos_eq; lra.
Defined.

(** ** What the blocks of [trackLine] leave unchanged *)

Ltac frame := store; split_ifs; repeat split; store; try reflexivity.

Lemma AngleToTargetFits_frame (cfg : Config) (s : Globals) :
  fR (snd (AngleToTargetFits cfg s)) = fR s
  /\ fZ (snd (AngleToTargetFits cfg s)) = fZ s
  /\ stateOp (snd (AngleToTargetFits cfg s)) = stateOp s
  /\ fB (snd (AngleToTargetFits cfg s)) dockTimer = fB s dockTimer
  /\ fB (snd (AngleToTargetFits cfg s)) unDockTimer = fB s unDockTimer
  /\ fB (snd (AngleToTargetFits cfg s)) angleToTargetFits
     = fst (AngleToTargetFits cfg s).
Proof. unfold AngleToTargetFits. frame; auto. Qed.

Lemma rotateToTarget_frame (cfg : Config) (s : Globals) :
  stateOp (rotateToTarget cfg s) = stateOp s
  /\ fZ (rotateToTarget cfg s) = fZ s
  /\ fB (rotateToTarget cfg s) dockTimer = fB s dockTimer
  /\ fB (rotateToTarget cfg s) unDockTimer = fB s unDockTimer.
Proof. unfold rotateToTarget, resetStateEstimation. frame; auto. Qed.

Lemma chooseLowest_frame (bools : list bool) :
  forall (speeds : list R) (speedIndex : Z) (s : Globals),
    stateOp (chooseLowest speedIndex bools speeds s) = stateOp s
    /\ fB (chooseLowest speedIndex bools speeds s) = fB s.
Proof.
  induction bools as [|b bools IH]; intros speeds speedIndex s; [auto|].
  destruct speeds as [|v speeds]; [auto|].
  cbn [chooseLowest].
  match goal with
  | |- context [chooseLowest _ _ _ ?s1] =>
      destruct (IH speeds (speedIndex + 1)%Z s1) as [Hop Hb]
  end.
  rewrite Hop, Hb. frame; auto.
Qed.

Lemma linearSpeedState_frame (helper : Helper) (cfg : Config) (gps : Gps)
    (motor : Motor) (maps : Map) (drv : Drivers) (s : Globals) :
  stateOp (linearSpeedState cfg gps motor maps drv s) = stateOp s
  /\ fB (linearSpeedState cfg gps motor maps drv s) dockTimer = fB s dockTimer
  /\ fB (linearSpeedState cfg gps motor maps drv s) unDockTimer = fB s unDockTimer.
Proof.
  unfold linearSpeedState, linearSpeedCap, distanceRamp.
  match goal with
  | |- context [chooseLowest ?i ?b ?v ?s1] =>
      destruct (chooseLowest_frame b v i s1) as [Hop Hb];
      remember (chooseLowest i b v s1) as s2 eqn:Es2
  end.
  clear Es2. store.
  frame; store; rewrite ?Hb, ?Hop; auto.
Qed.

Lemma stanleyTracker_frame (helper : Helper) (cfg : Config) (gps : Gps) (maps : Map)
    (s : Globals) :
  stateOp (stanleyTracker cfg gps maps s) = stateOp s
  /\ fB (stanleyTracker cfg gps maps s) = fB s.
Proof. unfold stanleyTracker. frame; auto. Qed.

Lemma trackLine_errors_frame (helper : Helper) (cfg : Config) (motor : Motor)
    (maps : Map) (s : Globals) :
  stateOp (trackLine_errors cfg motor maps s) = stateOp s
  /\ fB (trackLine_errors cfg motor maps s) dockTimer = fB s dockTimer
  /\ fB (trackLine_errors cfg motor maps s) unDockTimer = fB s unDockTimer.
Proof. unfold trackLine_errors. frame; auto. Qed.

Lemma trackLine_steer_frame (helper : Helper) (cfg : Config) (gps : Gps)
    (motor : Motor) (maps : Map) (drv : Drivers) (s : Globals) :
  stateOp (trackLine_steer cfg gps motor maps drv s) = stateOp s
  /\ fB (trackLine_steer cfg gps motor maps drv s) dockTimer = fB s dockTimer
  /\ fB (trackLine_steer cfg gps motor maps drv s) unDockTimer = fB s unDockTimer.
Proof.
  unfold trackLine_steer.
  destruct (AngleToTargetFits_frame cfg s) as (_ & _ & Hop & Hd & Hu & _).
  destruct (AngleToTargetFits cfg s) as [fits s1]. cbn [fst snd] in *.
  destruct fits; cbn [negb].
  - destruct (linearSpeedState_frame helper cfg gps motor maps drv s1)
      as (Hop2 & Hd2 & Hu2).
    destruct (stanleyTracker_frame helper cfg gps maps
                (linearSpeedState cfg gps motor maps drv s1)) as (Hop3 & Hb3).
    rewrite Hop3, Hb3. repeat split; congruence.
  - destruct (rotateToTarget_frame cfg s1) as (Hop2 & _ & Hd2 & Hu2).
    repeat split; congruence.
Qed.

Lemma gpsConditions_frame (helper : Helper) (cfg : Config) (now : Z) (maps : Map)
    (s : Globals) :
  fR (fst (gpsConditions cfg now maps s)) = fR s
  /\ stateOp (fst (gpsConditions cfg now maps s)) = stateOp s
  /\ fB (fst (gpsConditions cfg now maps s)) dockTimer = fB s dockTimer
  /\ fB (fst (gpsConditions cfg now maps s)) unDockTimer = fB s unDockTimer.
Proof. unfold gpsConditions. frame; auto. Qed.

Lemma noDockRotation_stateOp (cfg : Config) (now : Z) (maps : Map) (drv : Drivers)
    (s : Globals) :
  stateOp (fst (noDockRotation cfg now maps drv s)) = stateOp s.
Proof.
  unfold noDockRotation, triggerObstacle, resetMotion, resetStateEstimation,
    resetLinearMotionMeasurement, resetAngularMotionMeasurement,
    resetOverallMotionTimeout.
  frame.
Qed.

Lemma noUnDockRotation_stateOp (cfg : Config) (now : Z) (maps : Map) (drv : Drivers)
    (s : Globals) :
  stateOp (fst (noUnDockRotation cfg now maps drv s)) = stateOp s.
Proof. unfold noUnDockRotation. frame. Qed.

Lemma checkMowAllowed_frame (cfg : Config) (maps : Map) (s : Globals) :
  fR (checkMowAllowed cfg maps s) = fR s
  /\ stateOp (checkMowAllowed cfg maps s) = stateOp s.
Proof. unfold checkMowAllowed. frame; auto. Qed.

(** ** The commands of a control tick *)

Lemma gpsConditions_no_motor_command (helper : Helper) (cfg : Config) (now : Z)
    (maps : Map) (s : Globals) :
  filter isMotorCommand (snd (gpsConditions cfg now maps s)) = [].
Proof. unfold gpsConditions. frame. Qed.

Lemma noDockRotation_no_motor_command (cfg : Config) (now : Z) (maps : Map)
    (drv : Drivers) (s : Globals) :
  filter isMotorCommand (snd (noDockRotation cfg now maps drv s)) = [].
Proof. unfold noDockRotation, triggerObstacle. frame. Qed.

Lemma noUnDockRotation_no_motor_command (cfg : Config) (now : Z) (maps : Map)
    (drv : Drivers) (s : Globals) :
  filter isMotorCommand (snd (noUnDockRotation cfg now maps drv s)) = [].
Proof. unfold noUnDockRotation, triggerWaitCommand. frame. Qed.

Lemma trackLine_control_no_motor_command (helper : Helper) (cfg : Config) (now : Z)
    (motor : Motor) (gps : Gps) (maps : Map) (drv : Drivers) (s : Globals) :
  filter isMotorCommand (snd (trackLine_control cfg now motor gps maps drv s)) = [].
Proof.
  unfold trackLine_control.
  set (s1 := trackLine_steer cfg gps motor maps drv _).
  pose proof (gpsConditions_no_motor_command helper cfg now maps s1) as H1.
  destruct (gpsConditions cfg now maps s1) as [s2 out1].
  pose proof (noDockRotation_no_motor_command cfg now maps drv s2) as H2.
  destruct (noDockRotation cfg now maps drv s2) as [s3 out2].
  pose proof (noUnDockRotation_no_motor_command cfg now maps drv s3) as H3.
  destruct (noUnDockRotation cfg now maps drv s3) as [s4 out3].
  cbn [fst snd] in *. rewrite !filter_app, H1, H2, H3. reflexivity.
Qed.

Lemma filter_motor_nil (l : list Output) :
  filter isMotorCommand l = [] ->
  filter isVelocityCommand l = [] /\ filter isMowCommand l = []
  /\ forall switchOn, ~ In (setMowState switchOn) l.
Proof.
  intros H. induction l as [|o l IH]; [cbn; auto|].
  cbn in H. destruct (isMotorCommand o) eqn:E; [discriminate|].
  unfold isMotorCommand in E. apply orb_false_iff in E. destruct E as [Ev Em].
  destruct (IH H) as (Hv & Hm & Hin).
  cbn. rewrite Ev, Em. repeat split; auto.
  intros switchOn [Heq|Hl]; [subst o; discriminate|exact (Hin switchOn Hl)].
Qed.

(** What [trackLine(true)] sends to the motor, in terms of the state [sc]
    reached before [if (runControl)]. *)
Lemma trackLine_motor_commands (helper : Helper) (cfg : Config) (now : Z)
    (motor : Motor) (gps : Gps) (maps : Map) (drv : Drivers) (s : Globals) :
  let sc := fst (trackLine_control cfg now motor gps maps drv s) in
  let s' := fst (trackLine cfg true now motor gps maps drv s) in
  let out := snd (trackLine cfg true now motor gps maps drv s) in
  let lifted := detectLift cfg drv in
  fR s' linear = (if lifted then 0 else fR sc linear)
  /\ fR s' angular = (if lifted then 0 else fR sc angular)
  /\ fB s' mow = (if lifted then false else fB sc mow)
  /\ filter isVelocityCommand out
     = [setLinearAngularSpeed (fR s' linear) (fR s' angular) true]
  /\ (forall switchOn, In (setMowState switchOn) out ->
      switchOn = fB s' mow /\ switchOn <> switchedOn motor).
Proof.
  intros sc s' out lifted. subst sc s' out lifted.
  unfold trackLine.
  pose proof (trackLine_control_no_motor_command helper cfg now motor gps maps drv s)
    as Hnone.
  apply filter_motor_nil in Hnone. destruct Hnone as (Hv & Hm & Hin).
  destruct (trackLine_control cfg now motor gps maps drv s) as [sc out1].
  cbn [fst snd] in *.
  destruct (detectLift cfg drv); store; split_ifs;
    (split; [reflexivity|]); (split; [reflexivity|]); (split; [reflexivity|]);
    (split; [rewrite ?filter_app, ?Hv; reflexivity|]);
    intros switchOn Hin'; repeat (apply in_app_or in Hin'; destruct Hin' as [Hin'|Hin']);
    try (exfalso; exact (Hin switchOn Hin'));
    cbn in Hin'; repeat (destruct Hin' as [Hin'|Hin']); try discriminate;
    try contradiction;
    try (injection Hin' as <-; split; [reflexivity|]);
    repeat match goal with
           | H : (_ && _) = true |- _ => apply andb_prop in H; destruct H
           | H : negb _ = true |- _ => apply negb_true_iff in H
           | H : Bool.eqb _ _ = false |- _ => apply eqb_false_iff in H
           end; auto.
Qed.

Lemma trackLine_control_stateOp (helper : Helper) (cfg : Config) (now : Z)
    (motor : Motor) (gps : Gps) (maps : Map) (drv : Drivers) (s : Globals) :
  stateOp (fst (trackLine_control cfg now motor gps maps drv s)) = stateOp s.
Proof.
  unfold trackLine_control.
  destruct (trackLine_errors_frame helper cfg motor maps s) as (He & _).
  set (s0 := trackLine_errors cfg motor maps s) in *.
  destruct (trackLine_steer_frame helper cfg gps motor maps drv s0) as (Hs & _).
  set (s1 := trackLine_steer cfg gps motor maps drv s0) in *.
  destruct (gpsConditions_frame helper cfg now maps s1) as (_ & Hg & _).
  destruct (gpsConditions cfg now maps s1) as [s2 out1].
  pose proof (noDockRotation_stateOp cfg now maps drv s2) as Hd.
  destruct (noDockRotation cfg now maps drv s2) as [s3 out2].
  pose proof (noUnDockRotation_stateOp cfg now maps drv s3) as Hu.
  destruct (noUnDockRotation cfg now maps drv s3) as [s4 out3].
  destruct (checkMowAllowed_frame cfg maps s4) as (_ & Hc).
  cbn [fst snd] in *. congruence.
Qed.

(** The mow flag that [checkMowAllowed] leaves at the end of the control part
    of a tick, for a configuration without MOW_START_AT_WAYMOW. *)
Lemma trackLine_control_mow (helper : Helper) (cfg : Config) (now : Z)
    (motor : Motor) (gps : Gps) (maps : Map) (drv : Drivers) (s : Globals) :
  MOW_START_AT_WAYMOW cfg = false ->
  fB (fst (trackLine_control cfg now motor gps maps drv s)) mow
  = (WayType_eqb (wayMode maps) WAY_MOW || wayTruth cfg WAY_EXCLUSION
     || wayTruth cfg WAY_PERIMETER)
    && negb (OperationType_eqb (stateOp s) OP_DOCK || shouldDock maps).
Proof.
  intros Hcfg.
  pose proof (trackLine_control_stateOp helper cfg now motor gps maps drv s) as Hop.
  unfold trackLine_control in *.
  set (s1 := trackLine_steer cfg gps motor maps drv _) in *.
  destruct (gpsConditions cfg now maps s1) as [s2 out1].
  destruct (noDockRotation cfg now maps drv s2) as [s3 out2].
  destruct (noUnDockRotation cfg now maps drv s3) as [s4 out3].
  cbn [fst snd] in *.
  destruct (checkMowAllowed_frame cfg maps s4) as (_ & Hc).
  rewrite Hc in Hop. rewrite <- Hop.
  unfold checkMowAllowed. rewrite Hcfg. cbn [andb]. store.
  split_ifs; reflexivity.
Qed.

(** ** Lift (LineTracker.cpp, robot.cpp) *)

(** What [trackLine(true)] sends to the mow motor: [setMowState(mow)], once,
    when the mow flag differs from [motor.switchedOn] and the mow motor may
    be commanded, and nothing otherwise. *)
Lemma trackLine_mow_commands (helper : Helper) (cfg : Config) (now : Z)
    (motor : Motor) (gps : Gps) (maps : Map) (drv : Drivers) (s : Globals) :
  let s' := fst (trackLine cfg true now motor gps maps drv s) in
  filter isMowCommand (snd (trackLine cfg true now motor gps maps drv s))
  = (if negb (Bool.eqb (fB s' mow) (switchedOn motor)) && enableMowMotor motor
     then [setMowState (fB s' mow)] else []).
Proof.
  intros s'. subst s'.
  unfold trackLine.
  pose proof (trackLine_control_no_motor_command helper cfg now motor gps maps drv s)
    as Hnone.
  apply filter_motor_nil in Hnone. destruct Hnone as (_ & Hm & _).
  destruct (trackLine_control cfg now motor gps maps drv s) as [sc out1].
  cbn [fst snd] in *.
  destruct (detectLift cfg drv); store; split_ifs;
    rewrite ?filter_app, ?Hm; reflexivity.
Qed.

(** C6, as amended. On every control tick ([trackLine(true)]) of a firmware
    built with lift detection (ENABLE_LIFT_DETECTION) in which the lift driver
    reports the robot lifted, the velocity sent to the motor is linear = 0 and
    angular = 0 and mowing is disabled: the mow flag is false, a mow motor
    that is switched on is sent [setMowState(false)] (as far as
    [motor.enableMowMotor] lets [trackLine] command the mow motor), and
    nothing else is sent to the mow motor; whatever the controller computed
    earlier in the tick. *)
Theorem lift_stops_robot :
  forall (helper : Helper) (cfg : Config) (now : Z) (motor : Motor) (gps : Gps)
         (maps : Map) (drv : Drivers) (s : Globals),
    ENABLE_LIFT_DETECTION cfg = true ->
    liftTriggered drv = true ->
    robotStoppedThisTick cfg now motor gps maps drv s.
Proof.
  intros helper cfg now motor gps maps drv s Hcfg Hlift.
  assert (Hdetect : detectLift cfg drv = true).
  { unfold detectLift. rewrite Hcfg, Hlift. reflexivity. }
  destruct (trackLine_motor_commands helper cfg now motor gps maps drv s)
    as (Hlin & Hang & Hmow & Hcmd & _).
  pose proof (trackLine_mow_commands helper cfg now motor gps maps drv s) as Hsent.
  cbv zeta in Hsent.
  rewrite Hdetect in Hlin, Hang, Hmow.
  unfold robotStoppedThisTick. cbv zeta.
  rewrite Hcmd, Hlin, Hang, Hsent, Hmow.
  split; [reflexivity|]. split; [reflexivity|].
  destruct (switchedOn motor), (enableMowMotor motor); reflexivity.
Qed.

Lemma lift_stops_robot_witness :
  ENABLE_LIFT_DETECTION sampleConfig = true
  /\ liftTriggered (sampleDrivers true false false) = true
  /\ @robotStoppedThisTick SpecHelper.specHelper sampleConfig 5000
       (sampleMotor 0.3 0) (sampleGps false SOL_FIXED 0 0) sampleMap
       (sampleDrivers true false false) (initGlobals sampleConfig).
Proof.
  split; [reflexivity|]. split; [reflexivity|].
  exact (lift_stops_robot SpecHelper.specHelper sampleConfig 5000
           (sampleMotor 0.3 0) (sampleGps false SOL_FIXED 0 0) sampleMap
           (sampleDrivers true false false) (initGlobals sampleConfig)
           eq_refl eq_refl).
Defined.

(** C6, as stated, fails in two ways.  For a firmware built without
    ENABLE_LIFT_DETECTION, [detectLift] returns false whatever the lift driver
    reports: with the lift driver triggered while mowing a way point, the mow
    flag stays true for the tick.  And with lift detection, [trackLine]
    commands the mow motor only under [motor.enableMowMotor]: a mow motor that
    is switched on while that flag is off is sent nothing on the tick of the
    lift, so it is not switched off. *)
Lemma lift_ignored_without_lift_detection :
  (liftTriggered (sampleDrivers true false false) = true
   /\ fB (fst (@trackLine SpecHelper.specHelper (sampleConfigFor false) true 5000
                idleMowMotor (sampleGps false SOL_FIXED 0 0) sampleMap
                (sampleDrivers true false false)
                (initGlobals (sampleConfigFor false)))) mow = true
   /\ ~ @robotStoppedThisTick SpecHelper.specHelper (sampleConfigFor false) 5000
          idleMowMotor (sampleGps false SOL_FIXED 0 0) sampleMap
          (sampleDrivers true false false) (initGlobals (sampleConfigFor false)))
  /\ (detectLift sampleConfig (sampleDrivers true false false) = true
      /\ switchedOn lockedMowMotor = true
      /\ filter isMowCommand
           (snd (@trackLine SpecHelper.specHelper sampleConfig true 5000
                   lockedMowMotor (sampleGps false SOL_FIXED 0 0) sampleMap
                   (sampleDrivers true false false) (initGlobals sampleConfig)))
         = []).
Proof.
  split.
  - split; [reflexivity|].
    destruct (trackLine_motor_commands SpecHelper.specHelper (sampleConfigFor false)
                5000 idleMowMotor (sampleGps false SOL_FIXED 0 0) sampleMap
                (sampleDrivers true false false) (initGlobals (sampleConfigFor false)))
      as (_ & _ & Hflag & _).
    rewrite (trackLine_control_mow SpecHelper.specHelper (sampleConfigFor false)
               5000 idleMowMotor (sampleGps false SOL_FIXED 0 0) sampleMap
               (sampleDrivers true false false) (initGlobals (sampleConfigFor false))
               eq_refl) in Hflag.
    change (detectLift (sampleConfigFor false) (sampleDrivers true false false))
      with false in Hflag.
    split; [exact Hflag|].
    intros (_ & Hmow & _). rewrite Hmow in Hflag. discriminate Hflag.
  - split; [reflexivity|]. split; [reflexivity|].
    rewrite (trackLine_mow_commands SpecHelper.specHelper sampleConfig 5000
               lockedMowMotor (sampleGps false SOL_FIXED 0 0) sampleMap
               (sampleDrivers true false false) (initGlobals sampleConfig)).
    cbn [lockedMowMotor enableMowMotor]. rewrite andb_false_r. reflexivity.
Qed.

(** ** The gate between rotating in place and tracking (LineTracker.cpp) *)


Lemma noUnDockRotation_idle (cfg : Config) (now : Z) (maps : Map) (drv : Drivers)
    (s : Globals) :
  DOCK_NO_ROTATION cfg && WayType_eqb (wayMode maps) WAY_DOCK
  && (isBetweenLastAndNextToLastDockPoint maps && isUndocking maps) = false ->
  fR (fst (noUnDockRotation cfg now maps drv s)) = fR s.
Proof.
  intros Hidle. unfold noUnDockRotation.
  destruct (DOCK_NO_ROTATION cfg); [|reflexivity].
  destruct (WayType_eqb (wayMode maps) WAY_DOCK); [|reflexivity].
  cbn [andb negb] in *. rewrite Hidle. reflexivity.
Qed.




(** *** The spec-modelled helpers on the sample inputs *)

Lemma wrapAngle_in_range (a : R) :
  - PI < a <= PI -> SpecHelper.wrapAngle a = a.
Proof.
  intros [Hlo Hhi]. unfold SpecHelper.wrapAngle.
  pose proof PI_RGT_0 as Hpi.
  assert (Hup : up ((PI - a) / (2 * PI)) = 1%Z).
  { symmetry. apply tech_up.
    - apply Rmult_lt_reg_r with (2 * PI); [lra|].
      unfold Rdiv. rewrite Rmult_assoc, Rinv_l by lra. cbn. lra.
    - apply Rmult_le_reg_r with (2 * PI); [lra|].
      unfold Rdiv. rewrite Rmult_plus_distr_r, Rmult_assoc, Rinv_l by lra. cbn. lra. }
  rewrite Hup. cbn. lra.
Qed.

Lemma pointDistance_same_y (x1 x2 y : R) :
  SpecHelper.pointDistance x1 y x2 y = Rabs (x1 - x2).
Proof.
  unfold SpecHelper.pointDistance, sq.
  replace ((x1 - x2) * (x1 - x2) + (y - y) * (y - y)) with (Rsqr (x1 - x2))
    by (unfold Rsqr; ring).
  apply sqrt_Rsqr_abs.
Qed.

(** Unfolding the sample inputs, and nothing of the real numbers. *)
Ltac sample :=
  cbn [sampleMap sampleMotor sampleGps sampleDrivers idleMowMotor
       targetPoint lastTargetPoint distanceToTargetPoint distanceToLastTargetPoint
       trackSlow trackReverse wayMode shouldDock shouldGpsReboot isAtGpsRebootPoint
       isUndocking isDocking getDockingPos isAtDockPath isGoingToDockPath
       isTargetingLastDockPoint isBetweenLastAndNextToLastDockPoint
       nextPointIsStraight nextPointResult useGPSfixForDeltaEstimation
       useGPSfloatForDeltaEstimation useGPSfixForPosEstimation
       useGPSfloatForPosEstimation useIMU
       motorLeftTicks motorRightTicks ticksPerCm wheelBaseCm linearSpeedSet
       angularSpeedSet motorLeftOverload motorRightOverload motorMowOverload
       keepslow retryslow switchedOn enableMowMotor
       solutionAvail solution relPosN relPosE lat lon groundSpeed
       liftTriggered sonarObstacle sonarNearObstacle buzzerIsPlaying imuFound
       getLeftBumper getRightBumper px py
       SpecHelper.specHelper scalePI distancePI scalePIangles fusionPI pointsAngle
       distance distanceLineInfinite distanceLine relativeLL map
       initGlobals SolType_eqb WayType_eqb OperationType_eqb
       fR fZ fB stateOp stateSensor target lastTarget
       setR setZ setB set_stateOp set_stateSensor set_target set_lastTarget incZ
       RVar_beq ZVar_beq BVar_beq fst snd negb orb andb] in *.



(** ** GPS solutions in the pose estimator (StateEstimator.cpp) *)

Lemma gpsSolution_jump (helper : Helper) (now : Z) (motor : Motor) (gps : Gps)
    (maps : Map) (posN posE : R) (s : Globals) :
  sqrt (sq (posN - fR s lastPosN) + sq (posE - fR s lastPosE)) > 0.3 ->
  (u32 (now - fZ s solutionTime) < 350)%Z ->
  let g := gpsSolution now motor gps maps posN posE s in
  fB g gpsJump = true
  /\ fR g stateDelta = fR s stateDelta
  /\ fR g stateDeltaGPS = fR s stateDeltaGPS
  /\ fR g stateDeltaIMU = fR s stateDeltaIMU
  /\ fR g lastPosN = posN /\ fR g lastPosE = posE
  /\ fR g lastPosDelta = fR s stateDelta
  /\ fB g resetLastPos = false
  /\ fZ g statGPSJumps = u32 (fZ s statGPSJumps + 1).
Proof.
  intros Hdist Htime g. subst g. unfold gpsSolution. store.
  apply Rgtb_true_iff in Hdist. rewrite Hdist.
  apply Z.ltb_lt in Htime. rewrite Htime. store.
  split_ifs; repeat split; reflexivity.
Qed.

(** ** Symbolic execution of straight-line assignments

    The functions of the estimator are long chains of assignments to the
    globals.  [exec] walks such a chain from its first statement: a condition
    is decided (or split on) as soon as the state it reads is known, and an
    assignment is taken up only then, its value being named, simplified and
    put into the statements that follow. *)
Ltac norm t :=
  eval cbn [fR fZ fB stateOp stateSensor target lastTarget
            setR setZ setB set_stateOp set_stateSensor set_target set_lastTarget incZ
            RVar_beq ZVar_beq BVar_beq SolType_eqb WayType_eqb OperationType_eqb
            fst snd negb orb andb] in t.

Ltac norm_in H :=
  cbn [fR fZ fB stateOp stateSensor target lastTarget
       setR setZ setB set_stateOp set_stateSensor set_target set_lastTarget incZ
       RVar_beq ZVar_beq BVar_beq SolType_eqb WayType_eqb OperationType_eqb
       fst snd negb orb andb] in H.

(** Naming the value of an assignment: the statements that follow see a
    variable, with the equation of its value at hand. *)
Lemma let_intro {A B : Type} (E : A) (F : A -> B) (P : B -> Prop) :
  (forall x, x = E -> P (F x)) -> P (let x := E in F x).
Proof. intros H. exact (H E eq_refl). Qed.

(* no condition, assignment or pair left inside *)
Ltac straight E :=
  lazymatch E with
  | context [if _ then _ else _] => fail
  | context [let _ := _ in _] => fail
  | context [match _ with pair _ _ => _ end] => fail
  | _ => idtac
  end.

(* a condition on a known state: evaluated, or found among the equations of
   the conditions already split on, or split on *)
Ltac decide_cond c :=
  let c' := norm c in
  lazymatch c' with
  | true => rewrite (eq_refl true : c = true)
  | false => rewrite (eq_refl false : c = false)
  | _ => lazymatch goal with
         | H : c' = ?b |- _ => rewrite (H : c = b)
         | _ => let H := fresh "Hc" in destruct c eqn:H; norm_in H
         end
  end;
  cbv iota.

Ltac exec1 :=
  match goal with
  | |- forall x, x = ?E -> _ =>
      straight E;
      let x := fresh "s" in let H := fresh "Hs" in
      intros x H; norm_in H; subst x
  | |- context [if ?c then _ else _] => straight c; decide_cond c
  | |- context G [let x := ?E in @?B x] =>
      let TB := type of (B E) in
      let P := constr:(fun y : TB => ltac:(let g := context G [y] in exact g)) in
      refine (let_intro E B P _); cbv beta
  end.

Ltac exec := repeat exec1.

(** The heading and yaw increment at the end of [computeRobotState] depend on
    the GPS part only through [stateDelta] and [stateDeltaIMU]. *)
Lemma computeRobotState_heading (helper : Helper) (cfg : Config) (now : Z)
    (motor : Motor) (gps : Gps) (maps : Map) (drv : Drivers) (s : Globals) :
  let g := fst (computeRobotState_gps cfg now motor gps maps s) in
  let distLeft :=
    IZR (s32 (motorLeftTicks motor - fZ s stateLeftTicks)) / ticksPerCm motor in
  let distRight :=
    IZR (s32 (motorRightTicks motor - fZ s stateRightTicks)) / ticksPerCm motor in
  let deltaOdometry := (- (distLeft - distRight)) / wheelBaseCm motor in
  fR (fst (computeRobotState cfg now motor gps maps drv s)) stateDelta
  = scalePI (fR g stateDelta
             + (if imuFound drv && useIMU maps then fR g stateDeltaIMU
                else deltaOdometry))
  /\ fB (fst (computeRobotState cfg now motor gps maps drv s)) gpsJump = fB g gpsJump
  /\ fR (fst (computeRobotState cfg now motor gps maps drv s)) lastPosN
     = fR g lastPosN
  /\ fR (fst (computeRobotState cfg now motor gps maps drv s)) lastPosE
     = fR g lastPosE.
Proof.
  intros g distLeft distRight deltaOdometry. subst g distLeft distRight deltaOdometry.
  remember (fst (computeRobotState cfg now motor gps maps drv s)) as r eqn:Hr.
  revert Hr. cbv beta delta [computeRobotState].
  destruct (computeRobotState_gps cfg now motor gps maps s) as [g gps'].
  cbv iota beta.
  exec; intros ->; cbn [fst]; store; repeat split; reflexivity.
Qed.

Lemma computeRobotState_gps_accepted (helper : Helper) (cfg : Config) (now : Z)
    (motor : Motor) (gps : Gps) (maps : Map) (s : Globals) :
  gpsSolutionAccepted gps = true ->
  computeRobotState_gps cfg now motor gps maps s
  = (gpsSolution now motor gps maps (fst (gpsPosition gps s)) (snd (gpsPosition gps s))
       (let s := setZ stateRightTicks (motorRightTicks motor)
                   (setZ stateLeftTicks (motorLeftTicks motor) s) in
        if fabs (linearSpeedSet motor) <? MOTOR_MIN_SPEED cfg / 2
        then setB resetLastPos true s else s),
     set_solutionAvail false gps).
Proof.
  intros Hacc. unfold computeRobotState_gps.
  assert (Hpos : gpsPosition gps
                   (setZ stateRightTicks (motorRightTicks motor)
                      (setZ stateLeftTicks (motorLeftTicks motor) s))
                 = gpsPosition gps s) by reflexivity.
  rewrite Hpos. destruct (gpsPosition gps s) as [posN posE].
  rewrite Hacc. reflexivity.
Qed.

Lemma computeRobotState_gps_skipped (helper : Helper) (cfg : Config) (now : Z)
    (motor : Motor) (gps : Gps) (maps : Map) (s : Globals) :
  gpsSolutionAccepted gps = false ->
  let g := fst (computeRobotState_gps cfg now motor gps maps s) in
  fR g = fR s.
Proof.
  intros Hacc. unfold computeRobotState_gps.
  destruct (gpsPosition gps _) as [posN posE].
  rewrite Hacc. cbn [fst]. split_ifs; reflexivity.
Qed.

(** C2. On a control tick on which a new GPS solution of quality FIXED or
    FLOAT is accepted, the displacement since the last accepted position
    exceeds 0.3 m and the time since the previous solution is below 350 ms:
    [gpsJump] is set; the heading receives no GPS fusion (the GPS part of the
    tick leaves [stateDelta], [stateDeltaGPS] and the yaw increment as they
    were, and the heading at the end of the tick is the one a tick without a
    GPS solution computes); and the sample becomes the position baseline
    ([lastPosN], [lastPosE]) for the next displacement. *)
Theorem gps_jump_flagged_without_heading_fusion :
  forall (helper : Helper) (cfg : Config) (now : Z) (motor : Motor) (gps : Gps)
         (maps : Map) (drv : Drivers) (s : Globals),
    gpsSolutionAccepted gps = true ->
    gpsDisplacement gps s > 0.3 ->
    (u32 (now - fZ s solutionTime) < 350)%Z ->
    let g := fst (computeRobotState_gps cfg now motor gps maps s) in
    let s' := fst (computeRobotState cfg now motor gps maps drv s) in
    let noGps := set_solutionAvail false gps in
    fB s' gpsJump = true
    /\ fR g stateDelta = fR s stateDelta
    /\ fR g stateDeltaGPS = fR s stateDeltaGPS
    /\ fR s' stateDelta
       = fR (fst (computeRobotState cfg now motor noGps maps drv s)) stateDelta
    /\ fR s' lastPosN = fst (gpsPosition gps s)
    /\ fR s' lastPosE = snd (gpsPosition gps s).
Proof.
  intros helper cfg now motor gps maps drv s Hacc Hdist Htime g s' noGps.
  destruct (computeRobotState_heading helper cfg now motor gps maps drv s)
    as (Hhead & Hjump & HposN & HposE).
  destruct (computeRobotState_heading helper cfg now motor noGps maps drv s)
    as (Hhead0 & _).
  fold s' in Hhead, Hjump, HposN, HposE. fold g in Hhead, Hjump, HposN, HposE.
  assert (Hskip : fR (fst (computeRobotState_gps cfg now motor noGps maps s)) = fR s).
  { apply computeRobotState_gps_skipped. reflexivity. }
  rewrite Hskip in Hhead0.
  assert (Hg : g = gpsSolution now motor gps maps (fst (gpsPosition gps s))
                     (snd (gpsPosition gps s))
                     (let s := setZ stateRightTicks (motorRightTicks motor)
                                 (setZ stateLeftTicks (motorLeftTicks motor) s) in
                      if fabs (linearSpeedSet motor) <? MOTOR_MIN_SPEED cfg / 2
                      then setB resetLastPos true s else s)).
  { unfold g. rewrite computeRobotState_gps_accepted by exact Hacc. reflexivity. }
  match type of Hg with
  | _ = gpsSolution _ _ _ _ ?n ?e ?s1 =>
      remember s1 as s1v eqn:Hs1 in Hg;
      assert (Hjmp := gpsSolution_jump helper now motor gps maps n e s1v)
  end.
  cbv zeta in Hjmp. rewrite <- Hg in Hjmp.
  assert (Hpre : forall x, fR s1v x = fR s x).
  { intros x. rewrite Hs1. cbv zeta. destruct (_ <? _); reflexivity. }
  assert (HpreZ : fZ s1v solutionTime = fZ s solutionTime).
  { rewrite Hs1. cbv zeta. destruct (_ <? _); reflexivity. }
  rewrite !Hpre, HpreZ in Hjmp.
  destruct (Hjmp Hdist Htime) as (J1 & J2 & J3 & J4 & J5 & J6 & _).
  split; [rewrite Hjump; exact J1|].
  split; [exact J2|]. split; [exact J3|].
  split; [rewrite Hhead, Hhead0, J2, J4; reflexivity|].
  split; [rewrite HposN; exact J5|rewrite HposE; exact J6].
Qed.

Lemma sqrt_sq_north (n : R) : 0 <= n -> sqrt (sq (n - 0) + sq (0 - 0)) = n.
Proof.
  intros Hn. unfold sq.
  replace ((n - 0) * (n - 0) + (0 - 0) * (0 - 0)) with (n * n) by ring.
  apply sqrt_square. exact Hn.
Qed.

Lemma gps_jump_flagged_without_heading_fusion_witness :
  gpsSolutionAccepted (sampleGps true SOL_FIXED 0.5 0) = true
  /\ @gpsDisplacement SpecHelper.specHelper (sampleGps true SOL_FIXED 0.5 0)
       (initGlobals sampleConfig) > 0.3
  /\ (u32 (200 - fZ (initGlobals sampleConfig) solutionTime) < 350)%Z
  /\ fB (fst (@computeRobotState SpecHelper.specHelper sampleConfig 200
                (sampleMotor 0.3 0) (sampleGps true SOL_FIXED 0.5 0) sampleMap
                (sampleDrivers false false false) (initGlobals sampleConfig)))
        gpsJump = true.
Proof.
  assert (H1 : gpsSolutionAccepted (sampleGps true SOL_FIXED 0.5 0) = true)
    by reflexivity.
  assert (H2 : @gpsDisplacement SpecHelper.specHelper
                 (sampleGps true SOL_FIXED 0.5 0) (initGlobals sampleConfig) > 0.3).
  { unfold gpsDisplacement, gpsPosition. sample. rewrite sqrt_sq_north; lra. }
  assert (H3 : (u32 (200 - fZ (initGlobals sampleConfig) solutionTime) < 350)%Z)
    by reflexivity.
  repeat (split; [assumption|]).
  exact (proj1 (gps_jump_flagged_without_heading_fusion SpecHelper.specHelper
                  sampleConfig 200 (sampleMotor 0.3 0)
                  (sampleGps true SOL_FIXED 0.5 0) sampleMap
                  (sampleDrivers false false false) (initGlobals sampleConfig)
                  H1 H2 H3)).
Defined.

(** While [resetLastPos] is set, an accepted solution only becomes the new
    position baseline: the heading is not touched by the GPS part. *)
Lemma resetLastPos_blocks_fusion (helper : Helper) (cfg : Config) (now : Z)
    (motor : Motor) (gps : Gps) (maps : Map) (s : Globals) :
  gpsSolutionAccepted gps = true ->
  fB s resetLastPos = true ->
  fR (fst (computeRobotState_gps cfg now motor gps maps s)) stateDelta
  = fR s stateDelta.
Proof.
  intros Hacc Hreset.
  rewrite computeRobotState_gps_accepted by exact Hacc. cbn [fst].
  unfold gpsSolution. store.
  assert (Hr : fB (if fabs (linearSpeedSet motor) <? MOTOR_MIN_SPEED cfg / 2
                   then setB resetLastPos true
                          (setZ stateRightTicks (motorRightTicks motor)
                             (setZ stateLeftTicks (motorLeftTicks motor) s))
                   else setZ stateRightTicks (motorRightTicks motor)
                          (setZ stateLeftTicks (motorLeftTicks motor) s))
                  resetLastPos = true).
  { destruct (_ <? _); store; [reflexivity|exact Hreset]. }
  rewrite Hr, orb_true_r.
  split_ifs; reflexivity.
Qed.

(** C1, as amended. On a control tick on which a new GPS solution of quality
    FIXED or FLOAT is accepted and the position baseline is not due for a
    reset ([resetLastPos] is false and the commanded linear speed is at least
    MOTOR_MIN_SPEED/2 in magnitude), the displacement since the last accepted
    position is above 0.1 m and at most 0.3 m, the heading changed by less
    than 10 degrees since that position, a nonzero linear speed is commanded
    with an angular rate under 45 deg/s, and the configuration permits the
    solution quality for heading estimation: when the disagreement between
    the heading and the GPS-derived heading exceeds 45 degrees, the heading
    is set to the GPS-derived heading; otherwise it becomes
    [scalePI(fusionPI(0.9, heading, scalePIangles(gpsHeading, heading)))],
    the blend weighting the existing estimate by 0.9. *)
Theorem heading_fused_with_gps :
  forall (helper : Helper) (cfg : Config) (now : Z) (motor : Motor) (gps : Gps)
         (maps : Map) (s : Globals),
    fB s resetLastPos = false ->
    fabs (linearSpeedSet motor) >= MOTOR_MIN_SPEED cfg / 2 ->
    headingFusedWithGps cfg now motor gps maps s.
Proof.
  intros helper cfg now motor gps maps s Hreset Hspeed.
  cbv beta delta [headingFusedWithGps].
  intros Hacc [Hlo Hhi] Hturn Hlin Hang Hperm g diffDelta.
  subst g. rewrite computeRobotState_gps_accepted by exact Hacc. cbn [fst].
  assert (E0 : (fabs (linearSpeedSet motor) <? MOTOR_MIN_SPEED cfg / 2) = false)
    by (apply Rltb_false_iff; lra).
  rewrite E0. cbv zeta.
  unfold gpsDisplacement in Hlo, Hhi.
  unfold gpsSolution. store.
  assert (E1 : (sqrt (sq (fst (gpsPosition gps s) - fR s lastPosN)
                      + sq (snd (gpsPosition gps s) - fR s lastPosE)) >? 0.3) = false)
    by (apply Rgtb_false_iff; lra).
  assert (E2 : (sqrt (sq (fst (gpsPosition gps s) - fR s lastPosN)
                      + sq (snd (gpsPosition gps s) - fR s lastPosE)) >? 0.1) = true)
    by (apply Rgtb_true_iff; lra).
  assert (E3 : (fabs (distancePI (fR s stateDelta) (fR s lastPosDelta)) / PI * 180
                <? 10) = true) by (apply Rltb_true_iff; lra).
  assert (E4 : (fabs (linearSpeedSet motor) >? 0) = true)
    by (apply Rgtb_true_iff; lra).
  assert (E5 : (fabs (angularSpeedSet motor) / PI * 180 <? 45) = true)
    by (apply Rltb_true_iff; lra).
  unfold deltaEstimationPermitted in Hperm.
  rewrite E1, Hreset, E2, E3, E4, E5. store.
  subst diffDelta. unfold gpsHeading.
  destruct (linearSpeedSet motor <? 0) eqn:Erev; store; rewrite Hperm;
    split; intros Hdiff.
  - apply Rgtb_true_iff in Hdiff. rewrite Hdiff. store. split_ifs; reflexivity.
  - apply Rgtb_false_iff in Hdiff. rewrite Hdiff. store. split_ifs; reflexivity.
  - apply Rgtb_true_iff in Hdiff. rewrite Hdiff. store. split_ifs; reflexivity.
  - apply Rgtb_false_iff in Hdiff. rewrite Hdiff. store. split_ifs; reflexivity.
Qed.

Lemma distancePI_spec_zero :
  @distancePI SpecHelper.specHelper 0 0 = 0.
Proof.
  pose proof PI_RGT_0. cbn [distancePI SpecHelper.specHelper].
  unfold SpecHelper.angleDifference. rewrite wrapAngle_in_range; lra.
Qed.

Lemma heading_fused_with_gps_witness :
  fB drivingGlobals resetLastPos = false
  /\ fabs (linearSpeedSet (sampleMotor 0.3 0)) >= MOTOR_MIN_SPEED sampleConfig / 2
  /\ gpsSolutionAccepted (sampleGps true SOL_FIXED 0.2 0) = true
  /\ 0.1 < @gpsDisplacement SpecHelper.specHelper (sampleGps true SOL_FIXED 0.2 0)
             drivingGlobals <= 0.3
  /\ fabs (@distancePI SpecHelper.specHelper (fR drivingGlobals stateDelta)
             (fR drivingGlobals lastPosDelta)) / PI * 180 < 10
  /\ fabs (linearSpeedSet (sampleMotor 0.3 0)) > 0
  /\ fabs (angularSpeedSet (sampleMotor 0.3 0)) / PI * 180 < 45
  /\ deltaEstimationPermitted (sampleGps true SOL_FIXED 0.2 0) sampleMap = true
  /\ @headingFusedWithGps SpecHelper.specHelper sampleConfig 200 (sampleMotor 0.3 0)
       (sampleGps true SOL_FIXED 0.2 0) sampleMap drivingGlobals.
Proof.
  pose proof PI_RGT_0 as Hpi.
  assert (H1 : fB drivingGlobals resetLastPos = false) by reflexivity.
  assert (H2 : fabs (linearSpeedSet (sampleMotor 0.3 0))
               >= MOTOR_MIN_SPEED sampleConfig / 2).
  { sample. unfold fabs. rewrite Rabs_pos_eq by lra. cbn. lra. }
  assert (H3 : gpsSolutionAccepted (sampleGps true SOL_FIXED 0.2 0) = true)
    by reflexivity.
  assert (H4 : 0.1 < @gpsDisplacement SpecHelper.specHelper
                       (sampleGps true SOL_FIXED 0.2 0) drivingGlobals <= 0.3).
  { unfold gpsDisplacement, gpsPosition, drivingGlobals. sample.
    rewrite sqrt_sq_north; lra. }
  assert (H5 : fabs (@distancePI SpecHelper.specHelper (fR drivingGlobals stateDelta)
                       (fR drivingGlobals lastPosDelta)) / PI * 180 < 10).
  { unfold drivingGlobals. sample.
    change (SpecHelper.angleDifference 0 0)
      with (@distancePI SpecHelper.specHelper 0 0).
    rewrite distancePI_spec_zero. unfold fabs. rewrite Rabs_R0.
    replace (0 / PI * 180) with 0 by (unfold Rdiv; ring). lra. }
  assert (H6 : fabs (linearSpeedSet (sampleMotor 0.3 0)) > 0).
  { sample. unfold fabs. rewrite Rabs_pos_eq; lra. }
  assert (H7 : fabs (angularSpeedSet (sampleMotor 0.3 0)) / PI * 180 < 45).
  { sample. unfold fabs. rewrite Rabs_R0.
    replace (0 / PI * 180) with 0 by (unfold Rdiv; ring). lra. }
  assert (H8 : deltaEstimationPermitted (sampleGps true SOL_FIXED 0.2 0) sampleMap
               = true) by reflexivity.
  repeat (split; [assumption|]).
  exact (heading_fused_with_gps SpecHelper.specHelper sampleConfig 200
           (sampleMotor 0.3 0) (sampleGps true SOL_FIXED 0.2 0) sampleMap
           drivingGlobals H1 H2).
Defined.

(** C1, as stated, fails while [resetLastPos] is set, as it is at start-up
    and whenever the commanded speed was below MOTOR_MIN_SPEED/2: the first
    accepted solution then only becomes the position baseline.  From the
    start-up state, driving at 0.3 m/s with a first fix 0.2 m north of the
    origin, the GPS-derived heading is pi/2, 90 degrees off the heading 0,
    and yet the heading stays 0. *)
Lemma heading_not_fused_on_first_solution :
  ~ @headingFusedWithGps SpecHelper.specHelper sampleConfig 200 (sampleMotor 0.3 0)
      (sampleGps true SOL_FIXED 0.2 0) sampleMap (initGlobals sampleConfig).
Proof.
  pose proof PI_RGT_0 as Hpi.
  intros Hclaim. unfold headingFusedWithGps in Hclaim.
  assert (Hheading : @gpsHeading SpecHelper.specHelper (sampleMotor 0.3 0)
                       (sampleGps true SOL_FIXED 0.2 0) (initGlobals sampleConfig)
                     = PI / 2).
  { unfold gpsHeading, gpsPosition. sample.
    assert (E : (0.3 <? 0) = false) by (apply Rltb_false_iff; lra).
    rewrite E. unfold atan2.
    assert (E1 : (0 <? 0 - 0) = false) by (apply Rltb_false_iff; lra).
    assert (E2 : (0 - 0 <? 0) = false) by (apply Rltb_false_iff; lra).
    assert (E3 : (0 <? 0.2 - 0) = true) by (apply Rltb_true_iff; lra).
    rewrite E1, E2, E3. apply wrapAngle_in_range. lra. }
  rewrite Hheading in Hclaim.
  assert (Hdiff : @distancePI SpecHelper.specHelper
                    (fR (initGlobals sampleConfig) stateDelta) (PI / 2) = PI / 2).
  { sample. unfold SpecHelper.angleDifference.
    rewrite wrapAngle_in_range; lra. }
  rewrite Hdiff in Hclaim.
  rewrite (resetLastPos_blocks_fusion SpecHelper.specHelper sampleConfig 200
             (sampleMotor 0.3 0) (sampleGps true SOL_FIXED 0.2 0) sampleMap
             (initGlobals sampleConfig) eq_refl eq_refl) in Hclaim.
  assert (Hsnap : fR (initGlobals sampleConfig) stateDelta = PI / 2).
  { apply Hclaim.
    - reflexivity.
    - unfold gpsDisplacement, gpsPosition. sample. rewrite sqrt_sq_north; lra.
    - sample.
      change (SpecHelper.angleDifference 0 0)
        with (@distancePI SpecHelper.specHelper 0 0).
      rewrite distancePI_spec_zero. unfold fabs. rewrite Rabs_R0.
      replace (0 / PI * 180) with 0 by (unfold Rdiv; ring). lra.
    - sample. unfold fabs. rewrite Rabs_pos_eq; lra.
    - sample. unfold fabs. rewrite Rabs_R0.
      replace (0 / PI * 180) with 0 by (unfold Rdiv; ring). lra.
    - reflexivity.
    - unfold fabs. replace (PI / 2 / PI * 180) with 90 by (field; lra).
      rewrite Rabs_pos_eq; lra. }
  sample. lra.
Qed.

(** ** Stuck bumper (bumper.cpp) *)

(** C8, the failing input. The robot is mowing; the left bumper, released at
    the call at 600 s after start, is pressed from the call at 601 s on and
    stays pressed for 40 calls one second apart, longer than
    BUMPER_MAX_TRIGGER_TIME = 30 s.  The accumulated pressed time
    [leftOnTimer] reaches 40000 ms, but [Bumper::run] compares it with
    [leftTrigTime + BUMPER_MAX_TRIGGER_TIME * 1000], the time stamp of the
    press plus the limit (631000 ms): the operation stays OP_MOW and nothing
    is sent to the active operation. *)
Theorem bumper_stuck_after_start_not_detected :
  let r := bumperRuns sampleConfig (leftPressedEvery 1000 40 601000)
             (mowingAt 600000) in
  stateOp (fst r) = OP_MOW
  /\ snd r = []
  /\ fB (fst r) bumperLeft = true
  /\ fZ (fst r) leftOnTimer = 40000%Z
  /\ fZ (fst r) leftTrigTime = 601000%Z
  /\ (BUMPER_MAX_TRIGGER_TIME sampleConfig * 1000 < fZ (fst r) leftOnTimer)%Z.
Proof.
  vm_compute. repeat split; reflexivity.
Qed.

(** The same press right after start (bumper pressed from the call at 1 s
    on, 100 calls one second apart) is detected, and the switch to OP_ERROR
    is made once: at the first call where the pressed time exceeds the time
    stamp of the press plus the limit. *)
Lemma bumper_stuck_at_start_detected_once :
  let r := bumperRuns sampleConfig (leftPressedEvery 1000 100 1000) (mowingAt 0) in
  stateOp (fst r) = OP_ERROR
  /\ stateSensor (fst r) = SENS_BUMPER
  /\ filter isErrorTransition (snd r) = [changeOperationTypeByOperator OP_ERROR]
  /\ snd (bumperRuns sampleConfig (leftPressedEvery 1000 31 1000) (mowingAt 0)) = [].
Proof.
  vm_compute. repeat split; reflexivity.
Qed.

(** * Further properties *)

Ltac store2 :=
  cbn [gZ gR gB lastSolution setZ2 setR2 setB2 set_lastSolution incZ2
       ZVar2_beq RVar2_beq BVar2_beq
       fR fZ fB stateOp stateSensor target lastTarget
       setR setZ setB set_stateOp set_stateSensor set_target set_lastTarget incZ
       RVar_beq ZVar_beq BVar_beq SolType_eqb OperationType_eqb
       fst snd negb orb andb] in *.

(** Symbolic execution as with [exec], over both stores; a path whose
    conditions contradict the known outcomes is dropped as soon as it
    appears. *)
Ltac norm2 t :=
  eval cbn [gZ gR gB lastSolution setZ2 setR2 setB2 set_lastSolution incZ2
            ZVar2_beq RVar2_beq BVar2_beq
            fR fZ fB stateOp stateSensor target lastTarget
            setR setZ setB set_stateOp set_stateSensor set_target set_lastTarget
            incZ RVar_beq ZVar_beq BVar_beq SolType_eqb OperationType_eqb
            WayType_eqb fst snd negb orb andb] in t.

Ltac norm2_in H :=
  cbn [gZ gR gB lastSolution setZ2 setR2 setB2 set_lastSolution incZ2
       ZVar2_beq RVar2_beq BVar2_beq
       fR fZ fB stateOp stateSensor target lastTarget
       setR setZ setB set_stateOp set_stateSensor set_target set_lastTarget
       incZ RVar_beq ZVar_beq BVar_beq SolType_eqb OperationType_eqb
       WayType_eqb fst snd negb orb andb] in H.

Ltac rewrite_in E H := progress (rewrite E in H).

Ltac prune H :=
  try (repeat match goal with
              | E : _ = true |- _ =>
                  tryif constr_eq E H then fail else rewrite_in E H
              | E : _ = false |- _ =>
                  tryif constr_eq E H then fail else rewrite_in E H
              end;
       rewrite ?andb_true_r, ?andb_false_r, ?orb_false_r, ?orb_true_r in H;
       cbn [negb andb orb] in H;
       discriminate H).

Ltac decide_cond2 c :=
  let c' := norm2 c in
  lazymatch c' with
  | true => rewrite (eq_refl true : c = true)
  | false => rewrite (eq_refl false : c = false)
  | _ => lazymatch goal with
         | H : c' = ?b |- _ => rewrite (H : c = b)
         | _ => let H := fresh "Hc" in
                destruct c eqn:H; norm2_in H;
                lazymatch type of H with
                | negb _ = true => apply (proj1 (negb_true_iff _)) in H
                | negb _ = false => apply (proj1 (negb_false_iff _)) in H
                | _ => idtac
                end;
                prune H
         end
  end;
  cbv iota.

Ltac exec2_1 :=
  match goal with
  | |- forall x, x = ?E -> _ =>
      straight E;
      let x := fresh "s" in let H := fresh "Hs" in
      intros x H; norm2_in H; subst x
  | |- context [if ?c then _ else _] => straight c; decide_cond2 c
  | |- context G [let x := ?E in @?B x] =>
      let TB := type of (B E) in
      let P := constr:(fun y : TB => ltac:(let g := context G [y] in exact g)) in
      refine (let_intro E B P _); cbv beta
  end.

Ltac exec2 := repeat exec2_1.

Lemma u32_range (z : Z) : (0 <= u32 z < 2 ^ 32)%Z.
Proof. unfold u32, wordModulus. apply Z.mod_pos_bound. lia. Qed.

Lemma u32_small (z : Z) : (0 <= z < 2 ^ 32)%Z -> u32 z = z.
Proof. intros H. unfold u32, wordModulus. apply Z.mod_small. exact H. Qed.

Lemma u32_elapsed (last elapsed : Z) :
  (0 <= elapsed < 2 ^ 32)%Z -> u32 (u32 (last + elapsed) - last) = elapsed.
Proof.
  intros H. unfold u32, wordModulus.
  rewrite Zminus_mod_idemp_l.
  replace (last + elapsed - last)%Z with elapsed by ring.
  apply Z.mod_small. exact H.
Qed.

(** ** Statistics (Stats.cpp) *)

(** X1. [timePassed] measures the elapsed time across an overflow of
    [millis()]: called [elapsed] ms (less than 2^32) after the time kept in
    [*last], whatever that time is, it returns true exactly when [elapsed]
    has reached [interval], and then moves [*last] to the time of the call;
    otherwise [*last] stays. *)
Theorem timePassed_overflow_safe :
  forall (last elapsed interval : Z),
    (0 <= elapsed < 2 ^ 32)%Z ->
    Stats.timePassed (u32 (last + elapsed)) last interval
    = if (elapsed >=? interval)%Z then (true, u32 (last + elapsed))
      else (false, last).
Proof.
  intros last elapsed interval H. unfold Stats.timePassed.
  rewrite u32_elapsed by exact H. reflexivity.
Qed.

Lemma timePassed_overflow_safe_witness :
  (0 <= 1100 < 2 ^ 32)%Z
  /\ Stats.timePassed 600 4294966796 1000 = (true, 600%Z).
Proof.
  split; [lia|].
  exact (timePassed_overflow_safe 4294966796 1100 1000 ltac:(lia)).
Defined.

Lemma calcStats_not_due (now : Z) (rec : bool) (gps : Gps) (age : Z) (s : Globals)
    (t : Globals2) :
  (u32 (now - gZ t nextStatTime) < 1000)%Z ->
  Stats.calcStats now rec gps age s t = t.
Proof.
  intros H. unfold Stats.calcStats, Stats.timePassed.
  apply Z.ltb_lt in H. rewrite Z.geb_leb, Z.leb_antisym, H. reflexivity.
Qed.

Lemma calcStats_due_time (now : Z) (rec : bool) (gps : Gps) (age : Z) (s : Globals)
    (t : Globals2) :
  (u32 (now - gZ t nextStatTime) >= 1000)%Z ->
  gZ (Stats.calcStats now rec gps age s t) nextStatTime = now.
Proof.
  intros H. unfold Stats.calcStats, Stats.timePassed.
  assert (E : (u32 (now - gZ t nextStatTime) >=? 1000)%Z = true)
    by (rewrite Z.geb_leb; apply Z.leb_le; lia).
  rewrite E. cbn [negb].
  destruct (stateOp s); store2; try reflexivity.
  repeat match goal with
         | |- context [if ?c then _ else _] => destruct c; store2
         end; reflexivity.
Qed.

(** X2. [calcStats] counts at most once a second: after a call that counted,
    at time [now], a call less than 1000 ms later changes nothing, whatever
    operation the robot is in by then. *)
Theorem calcStats_once_a_second :
  forall (now d : Z) (rec rec' : bool) (gps gps' : Gps) (age age' : Z)
         (s s' : Globals) (t : Globals2),
    (0 <= now < 2 ^ 32)%Z ->
    (0 <= d < 1000)%Z ->
    (u32 (now - gZ t nextStatTime) >= 1000)%Z ->
    Stats.calcStats (u32 (now + d)) rec' gps' age' s'
      (Stats.calcStats now rec gps age s t)
    = Stats.calcStats now rec gps age s t.
Proof.
  intros now d rec rec' gps gps' age age' s s' t Hnow Hd Hdue.
  apply calcStats_not_due.
  rewrite calcStats_due_time by exact Hdue.
  rewrite u32_elapsed by lia. lia.
Qed.

Lemma calcStats_once_a_second_witness :
  (0 <= 5000 < 2 ^ 32)%Z /\ (0 <= 999 < 1000)%Z
  /\ (u32 (5000 - gZ initGlobals2 nextStatTime) >= 1000)%Z
  /\ Stats.calcStats (u32 (5000 + 999)) false (sampleGps true SOL_FLOAT 0 0) 0
       (set_stateOp OP_MOW (initGlobals sampleConfig))
       (Stats.calcStats 5000 false (sampleGps true SOL_FIXED 0 0) 0
          (set_stateOp OP_MOW (initGlobals sampleConfig)) initGlobals2)
     = Stats.calcStats 5000 false (sampleGps true SOL_FIXED 0 0) 0
         (set_stateOp OP_MOW (initGlobals sampleConfig)) initGlobals2.
Proof.
  assert (H1 : (0 <= 5000 < 2 ^ 32)%Z) by lia.
  assert (H2 : (0 <= 999 < 1000)%Z) by lia.
  assert (H3 : (u32 (5000 - gZ initGlobals2 nextStatTime) >= 1000)%Z)
    by (vm_compute; discriminate).
  repeat (split; [assumption|]).
  exact (calcStats_once_a_second 5000 999 false false
           (sampleGps true SOL_FIXED 0 0) (sampleGps true SOL_FLOAT 0 0) 0 0
           (set_stateOp OP_MOW (initGlobals sampleConfig))
           (set_stateOp OP_MOW (initGlobals sampleConfig)) initGlobals2 H1 H2 H3).
Defined.

Lemma u32_succ_sum (a b c d : Z) :
  u32 (a + b + c) = u32 d ->
  u32 (u32 (a + 1) + b + c) = u32 (u32 (d + 1))
  /\ u32 (a + u32 (b + 1) + c) = u32 (u32 (d + 1))
  /\ u32 (a + b + u32 (c + 1)) = u32 (u32 (d + 1)).
Proof.
  unfold u32, wordModulus. intros H.
  assert (E : ((a + b + c + 1) mod 2 ^ 32 = (d + 1) mod 2 ^ 32)%Z)
    by (rewrite <- Zplus_mod_idemp_l, H, Zplus_mod_idemp_l; reflexivity).
  rewrite Z.mod_mod by lia. rewrite <- E.
  repeat split.
  - replace (((a + 1) mod 2 ^ 32) + b + c)%Z
      with (((a + 1) mod 2 ^ 32) + (b + c))%Z by ring.
    rewrite Zplus_mod_idemp_l. f_equal. ring.
  - replace (a + ((b + 1) mod 2 ^ 32) + c)%Z
      with (((b + 1) mod 2 ^ 32) + (a + c))%Z by ring.
    rewrite Zplus_mod_idemp_l. f_equal. ring.
  - rewrite Zplus_mod_idemp_r. f_equal. ring.
Qed.

Lemma calcStats_mowDurationSplit (now : Z) (rec : bool) (gps : Gps) (age : Z)
    (s : Globals) (t : Globals2) :
  Stats.mowDurationSplit t ->
  Stats.mowDurationSplit (Stats.calcStats now rec gps age s t).
Proof.
  unfold Stats.mowDurationSplit, Stats.calcStats, Stats.timePassed.
  intros H. pose proof (u32_succ_sum _ _ _ _ H) as (H1 & H2 & H3).
  destruct (u32 (now - gZ t nextStatTime) >=? 1000)%Z; cbn [negb]; [|exact H].
  destruct (stateOp s); store2; try exact H.
  destruct rec, (solution gps), (lastSolution t) eqn:El;
    repeat (progress (store2; rewrite ?El));
    first [exact H1 | exact H2 | exact H3].
Qed.

(** X3. The seconds of mowing are split by GPS quality.  From [resetStats]
    on, whatever calls of [calcStats] follow (at any times, in any
    operations, with any GPS quality), the counters [statMowDurationFix],
    [statMowDurationFloat] and [statMowDurationInvalid] add up to
    [statMowDuration] (as [unsigned long]s, modulo 2^32). *)
Theorem calcStats_mow_seconds_split_by_quality :
  forall (ticks : list Stats.Tick) (s s0 : Globals) (t0 : Globals2),
    Stats.mowDurationSplit
      (Stats.calcStatsRuns ticks s (snd (Stats.resetStats s0 t0))).
Proof.
  intros ticks s s0 t0.
  assert (H0 : Stats.mowDurationSplit (snd (Stats.resetStats s0 t0)))
    by reflexivity.
  revert H0. generalize (snd (Stats.resetStats s0 t0)). clear s0 t0.
  induction ticks as [|k ticks IH]; intros t H; cbn [Stats.calcStatsRuns].
  - exact H.
  - apply IH. apply calcStats_mowDurationSplit. exact H.
Qed.

(** X4. A call of [calcStats] that counts adds one second to the duration
    counter of the operation the robot is in, and to no other: to
    [statIdleDuration] in OP_IDLE, to [statMowDuration] in OP_MOW, to
    [statChargeDuration] in OP_CHARGE; in OP_ERROR and OP_DOCK no duration
    is counted. *)
Theorem calcStats_counts_current_operation :
  forall (now : Z) (rec : bool) (gps : Gps) (age : Z) (s : Globals) (t : Globals2),
    (u32 (now - gZ t nextStatTime) >= 1000)%Z ->
    let t' := Stats.calcStats now rec gps age s t in
    let count (op : OperationType) (x : ZVar2) :=
      if OperationType_eqb (stateOp s) op then u32 (gZ t x + 1) else gZ t x in
    gZ t' statIdleDuration = count OP_IDLE statIdleDuration
    /\ gZ t' statMowDuration = count OP_MOW statMowDuration
    /\ gZ t' statChargeDuration = count OP_CHARGE statChargeDuration
    /\ gZ t' nextStatTime = now.
Proof.
  intros now rec gps age s t Hdue t' count. subst t' count. cbv beta.
  unfold Stats.calcStats, Stats.timePassed.
  assert (E : (u32 (now - gZ t nextStatTime) >=? 1000)%Z = true)
    by (rewrite Z.geb_leb; apply Z.leb_le; lia).
  rewrite E. cbn [negb].
  destruct (stateOp s); store2; try (repeat split; reflexivity).
  destruct rec, (solution gps), (lastSolution t) eqn:El;
    repeat (progress (store2; rewrite ?El)); repeat split; reflexivity.
Qed.

Lemma calcStats_counts_current_operation_witness :
  (u32 (5000 - gZ initGlobals2 nextStatTime) >= 1000)%Z
  /\ gZ (Stats.calcStats 5000 false (sampleGps true SOL_FIXED 0 0) 0
           (set_stateOp OP_MOW (initGlobals sampleConfig)) initGlobals2)
        statMowDuration = 1%Z.
Proof.
  assert (H : (u32 (5000 - gZ initGlobals2 nextStatTime) >= 1000)%Z)
    by (vm_compute; discriminate).
  split; [exact H|].
  exact (proj1 (proj2 (calcStats_counts_current_operation 5000 false
                         (sampleGps true SOL_FIXED 0 0) 0
                         (set_stateOp OP_MOW (initGlobals sampleConfig))
                         initGlobals2 H))).
Defined.

(** X5. Recoveries of the GPS quality are counted on the change.  On a call
    of [calcStats] that counts while mowing: [statMowFloatToFixRecoveries]
    goes up by one exactly when the solution was FLOAT at the last counted
    mowing second and is FIXED now; [statMowInvalidRecoveries] goes up by one
    exactly when it was INVALID and is no longer; and the solution is
    remembered for the next second. *)
Theorem calcStats_counts_recoveries :
  forall (now : Z) (rec : bool) (gps : Gps) (age : Z) (s : Globals) (t : Globals2),
    (u32 (now - gZ t nextStatTime) >= 1000)%Z ->
    stateOp s = OP_MOW ->
    let t' := Stats.calcStats now rec gps age s t in
    gZ t' statMowFloatToFixRecoveries
    = (if SolType_eqb (lastSolution t) SOL_FLOAT
          && SolType_eqb (solution gps) SOL_FIXED
       then u32 (gZ t statMowFloatToFixRecoveries + 1)
       else gZ t statMowFloatToFixRecoveries)
    /\ gZ t' statMowInvalidRecoveries
       = (if SolType_eqb (lastSolution t) SOL_INVALID
             && negb (SolType_eqb (solution gps) SOL_INVALID)
          then u32 (gZ t statMowInvalidRecoveries + 1)
          else gZ t statMowInvalidRecoveries)
    /\ lastSolution t' = solution gps.
Proof.
  intros now rec gps age s t Hdue Hop t'. subst t'.
  unfold Stats.calcStats, Stats.timePassed.
  assert (E : (u32 (now - gZ t nextStatTime) >=? 1000)%Z = true)
    by (rewrite Z.geb_leb; apply Z.leb_le; lia).
  rewrite E, Hop. cbn [negb].
  destruct rec, (solution gps), (lastSolution t) eqn:El;
    repeat (progress (store2; rewrite ?El)); repeat split; reflexivity.
Qed.

Lemma calcStats_counts_recoveries_witness :
  (u32 (5000 - gZ (set_lastSolution SOL_FLOAT initGlobals2) nextStatTime) >= 1000)%Z
  /\ stateOp (set_stateOp OP_MOW (initGlobals sampleConfig)) = OP_MOW
  /\ gZ (Stats.calcStats 5000 false (sampleGps true SOL_FIXED 0 0) 0
           (set_stateOp OP_MOW (initGlobals sampleConfig))
           (set_lastSolution SOL_FLOAT initGlobals2))
        statMowFloatToFixRecoveries = 1%Z.
Proof.
  assert (H : (u32 (5000 - gZ (set_lastSolution SOL_FLOAT initGlobals2) nextStatTime)
               >= 1000)%Z) by (vm_compute; discriminate).
  split; [exact H|]. split; [reflexivity|].
  exact (proj1 (calcStats_counts_recoveries 5000 false
                  (sampleGps true SOL_FIXED 0 0) 0
                  (set_stateOp OP_MOW (initGlobals sampleConfig))
                  (set_lastSolution SOL_FLOAT initGlobals2) H eq_refl)).
Defined.

(** ** The commanded motion (robot.cpp) *)

Ltac sample_cfg :=
  sample; unfold sampleConfig, sampleConfigFor in *;
  cbn [MOTOR_MIN_SPEED BUMPER_ENABLE BUMPER_TRIGGER_DELAY BUMPER_MAX_TRIGGER_TIME
       BUMPER_DEADTIME GPS_SPEED_DEADTIME GPS_SPEED_DELAY NO_GPS_OBSTACLE
       GPS_SPEED_DETECTION ENABLE_LIFT_DETECTION LIFT_OBSTACLE_AVOIDANCE
       SONAR_TRIGGER_OBSTACLES] in *.

Lemma fabs_scaled (a : R) : fabs a / PI * 180 = Rabs (a / PI * 180).
Proof.
  pose proof PI_RGT_0 as Hpi. unfold fabs, Rdiv.
  rewrite !Rabs_mult, (Rabs_pos_eq (/ PI)), (Rabs_pos_eq 180).
  - reflexivity.
  - lra.
  - left. apply Rinv_0_lt_compat. exact Hpi.
Qed.

(** X6. The robot is never asked to move and to rotate in place at once:
    [robotShouldMove] and [robotShouldRotate] exclude each other, for every
    commanded speed and configuration. *)
Theorem robot_never_moves_and_rotates :
  forall (cfg : Config) (motor : Motor),
    robotShouldMove cfg motor && robotShouldRotate cfg motor = false.
Proof.
  intros cfg motor. unfold robotShouldMove, robotShouldRotate.
  destruct (fabs (linearSpeedSet motor) >=? MOTOR_MIN_SPEED cfg) eqn:E1;
    [|reflexivity].
  destruct (fabs (linearSpeedSet motor) <? MOTOR_MIN_SPEED cfg) eqn:E2;
    [|reflexivity].
  rprop. lra.
Qed.

(** X7. A rotation in place has exactly one direction: whenever
    [robotShouldRotate] is true, exactly one of [robotShouldRotateLeft] and
    [robotShouldRotateRight] is true. *)
Theorem rotation_has_one_direction :
  forall (cfg : Config) (motor : Motor),
    robotShouldRotate cfg motor = true ->
    xorb (robotShouldRotateLeft cfg motor) (robotShouldRotateRight cfg motor) = true.
Proof.
  intros cfg motor. unfold robotShouldRotate, robotShouldRotateLeft,
    robotShouldRotateRight.
  destruct (fabs (linearSpeedSet motor) <? MOTOR_MIN_SPEED cfg) eqn:E1;
    [|discriminate].
  destruct (fabs (angularSpeedSet motor) / PI * 180 >? 4) eqn:E2;
    [|discriminate].
  intros _. rprop. rewrite fabs_scaled in E2.
  assert (Hlin : 0 <= fabs (linearSpeedSet motor)) by apply Rabs_pos.
  assert (E3 : (fabs (linearSpeedSet motor) <? MOTOR_MIN_SPEED cfg * 2) = true)
    by (apply Rltb_true_iff; lra).
  rewrite E3. cbn [andb].
  destruct (angularSpeedSet motor / PI * 180.0 <? -4.0) eqn:E4;
    destruct (angularSpeedSet motor / PI * 180.0 >? 4.0) eqn:E5;
    rprop; try reflexivity; exfalso.
  - lra.
  - unfold Rabs in E2. destruct (Rcase_abs _); lra.
Qed.

Lemma rotating_sample :
  robotShouldRotate sampleConfig (sampleMotor 0 1) = true.
Proof.
  pose proof PI_RGT_0 as Hpi. pose proof PI_4 as Hpi4.
  unfold robotShouldRotate. sample_cfg.
  assert (E1 : (fabs 0 <? 0.05) = true)
    by (apply Rltb_true_iff; unfold fabs; rewrite Rabs_R0; lra).
  assert (E2 : (fabs 1 / PI * 180 >? 4) = true).
  { apply Rgtb_true_iff. unfold fabs. rewrite Rabs_pos_eq by lra.
    apply Rlt_gt. apply Rmult_lt_reg_r with PI; [exact Hpi|].
    replace (1 / PI * 180 * PI) with 180 by (field; lra). lra. }
  rewrite E1, E2. reflexivity.
Qed.

Lemma rotation_has_one_direction_witness :
  robotShouldRotate sampleConfig (sampleMotor 0 1) = true
  /\ xorb (robotShouldRotateLeft sampleConfig (sampleMotor 0 1))
          (robotShouldRotateRight sampleConfig (sampleMotor 0 1)) = true.
Proof.
  split; [exact rotating_sample|].
  exact (rotation_has_one_direction sampleConfig (sampleMotor 0 1) rotating_sample).
Defined.

(** X8. With a positive MOTOR_MIN_SPEED, a robot that should move should
    move either forward or backward, never both. *)
Theorem moving_is_forward_or_backward :
  forall (cfg : Config) (motor : Motor),
    0 < MOTOR_MIN_SPEED cfg ->
    robotShouldMove cfg motor = true ->
    xorb (robotShouldMoveForward cfg motor) (robotShouldMoveBackward cfg motor)
    = true.
Proof.
  intros cfg motor Hmin. unfold robotShouldMove, robotShouldMoveForward,
    robotShouldMoveBackward.
  intros Hmove. rprop. unfold fabs, Rabs in Hmove.
  destruct (linearSpeedSet motor >=? MOTOR_MIN_SPEED cfg / 2.0) eqn:E1;
    destruct (linearSpeedSet motor <=? - MOTOR_MIN_SPEED cfg / 2.0) eqn:E2;
    rprop; try reflexivity; exfalso.
  - lra.
  - destruct (Rcase_abs _); lra.
Qed.

Lemma moving_sample : robotShouldMove sampleConfig (sampleMotor 0.3 0) = true.
Proof.
  unfold robotShouldMove. sample_cfg. apply Rgeb_true_iff.
  unfold fabs. rewrite Rabs_pos_eq; lra.
Qed.

Lemma moving_is_forward_or_backward_witness :
  0 < MOTOR_MIN_SPEED sampleConfig
  /\ robotShouldMove sampleConfig (sampleMotor 0.3 0) = true
  /\ xorb (robotShouldMoveForward sampleConfig (sampleMotor 0.3 0))
          (robotShouldMoveBackward sampleConfig (sampleMotor 0.3 0)) = true.
Proof.
  assert (H1 : 0 < MOTOR_MIN_SPEED sampleConfig) by (sample_cfg; lra).
  split; [exact H1|]. split; [exact moving_sample|].
  exact (moving_is_forward_or_backward sampleConfig (sampleMotor 0.3 0) H1
           moving_sample).
Defined.

Lemma standing_sample :
  robotShouldMove sampleConfig (sampleMotor 0 0)
  || robotShouldRotate sampleConfig (sampleMotor 0 0) = false.
Proof.
  unfold robotShouldMove, robotShouldRotate. sample_cfg.
  assert (E1 : (fabs 0 >=? 0.05) = false)
    by (apply Rgeb_false_iff; unfold fabs; rewrite Rabs_R0; lra).
  assert (E2 : (fabs 0 / PI * 180 >? 4) = false).
  { apply Rgtb_false_iff. unfold fabs. rewrite Rabs_R0.
    replace (0 / PI * 180) with 0 by (unfold Rdiv; ring). lra. }
  rewrite E1, E2. destruct (fabs 0 <? 0.05); reflexivity.
Qed.

(** X9. [robotShouldBeInMotion] bridges pauses of up to two seconds.  After a
    call at time [t0] on which the robot should move or rotate (which
    answers true), a call at a later time [t1] on which it should do neither
    still answers true if [t1] is at most 2000 ms after [t0], and false
    after that (away from the overflow of [millis()]). *)
Theorem robotShouldBeInMotion_bridges_two_seconds :
  forall (cfg : Config) (t0 t1 : Z) (moving standing : Motor) (t : Globals2),
    robotShouldMove cfg moving || robotShouldRotate cfg moving = true ->
    robotShouldMove cfg standing || robotShouldRotate cfg standing = false ->
    (0 <= t0 <= t1)%Z ->
    (t0 + 2000 < 2 ^ 32)%Z ->
    fst (robotShouldBeInMotion cfg t0 moving t) = true
    /\ fst (robotShouldBeInMotion cfg t1 standing
              (snd (robotShouldBeInMotion cfg t0 moving t)))
       = (t1 <=? t0 + 2000)%Z.
Proof.
  intros cfg t0 t1 moving standing t Hmov Hstand Ht Hwrap.
  unfold robotShouldBeInMotion. rewrite Hmov, Hstand. store2.
  rewrite (u32_small (t0 + 2000)) by lia.
  assert (E0 : (t0 >? t0 + 2000)%Z = false)
    by (rewrite Z.gtb_ltb; apply Z.ltb_ge; lia).
  rewrite E0. store2. split; [reflexivity|].
  rewrite (u32_small (t0 + 2000)) by lia.
  rewrite Z.gtb_ltb, Z.ltb_antisym.
  destruct (t1 <=? t0 + 2000)%Z; reflexivity.
Qed.

Lemma robotShouldBeInMotion_bridges_two_seconds_witness :
  robotShouldMove sampleConfig (sampleMotor 0.3 0)
  || robotShouldRotate sampleConfig (sampleMotor 0.3 0) = true
  /\ robotShouldMove sampleConfig (sampleMotor 0 0)
     || robotShouldRotate sampleConfig (sampleMotor 0 0) = false
  /\ (0 <= 5000 <= 6500)%Z
  /\ (5000 + 2000 < 2 ^ 32)%Z
  /\ fst (robotShouldBeInMotion sampleConfig 6500 (sampleMotor 0 0)
            (snd (robotShouldBeInMotion sampleConfig 5000 (sampleMotor 0.3 0)
                    initGlobals2)))
     = true.
Proof.
  assert (H1 : robotShouldMove sampleConfig (sampleMotor 0.3 0)
               || robotShouldRotate sampleConfig (sampleMotor 0.3 0) = true)
    by (rewrite moving_sample; reflexivity).
  assert (H3 : (0 <= 5000 <= 6500)%Z) by lia.
  assert (H4 : (5000 + 2000 < 2 ^ 32)%Z) by lia.
  split; [exact H1|]. split; [exact standing_sample|].
  split; [exact H3|]. split; [exact H4|].
  exact (proj2 (robotShouldBeInMotion_bridges_two_seconds sampleConfig 5000 6500
                  (sampleMotor 0.3 0) (sampleMotor 0 0) initGlobals2
                  H1 standing_sample H3 H4)).
Defined.

(** X10. In the last two seconds before [millis()] overflows,
    [robotShouldBeInMotion] answers false even on a call on which the robot
    should move: the sum [stateInMotionLastTime + 2000] has wrapped around
    and lies before the time of the call. *)
Theorem robotShouldBeInMotion_false_before_overflow :
  forall (cfg : Config) (now : Z) (moving : Motor) (t : Globals2),
    robotShouldMove cfg moving || robotShouldRotate cfg moving = true ->
    (2 ^ 32 - 2000 <= now < 2 ^ 32)%Z ->
    fst (robotShouldBeInMotion cfg now moving t) = false.
Proof.
  intros cfg now moving t Hmov Hnow.
  unfold robotShouldBeInMotion. rewrite Hmov. store2.
  assert (E : u32 (now + 2000) = (now + 2000 - 2 ^ 32)%Z).
  { unfold u32, wordModulus. symmetry. apply Z.mod_unique with 1%Z; lia. }
  rewrite E.
  assert (E0 : (now >? now + 2000 - 2 ^ 32)%Z = true)
    by (rewrite Z.gtb_ltb; apply Z.ltb_lt; lia).
  rewrite E0. reflexivity.
Qed.

Lemma robotShouldBeInMotion_false_before_overflow_witness :
  robotShouldMove sampleConfig (sampleMotor 0.3 0)
  || robotShouldRotate sampleConfig (sampleMotor 0.3 0) = true
  /\ (2 ^ 32 - 2000 <= 4294966296 < 2 ^ 32)%Z
  /\ fst (robotShouldBeInMotion sampleConfig 4294966296 (sampleMotor 0.3 0)
            initGlobals2) = false.
Proof.
  assert (H1 : robotShouldMove sampleConfig (sampleMotor 0.3 0)
               || robotShouldRotate sampleConfig (sampleMotor 0.3 0) = true)
    by (rewrite moving_sample; reflexivity).
  assert (H2 : (2 ^ 32 - 2000 <= 4294966296 < 2 ^ 32)%Z) by lia.
  split; [exact H1|]. split; [exact H2|].
  exact (robotShouldBeInMotion_false_before_overflow sampleConfig 4294966296
           (sampleMotor 0.3 0) initGlobals2 H1 H2).
Defined.

Lemma OperationType_eqb_eq (a b : OperationType) :
  OperationType_eqb a b = true <-> a = b.
Proof. destruct a, b; cbn; split; intros H; congruence. Qed.

Lemma OperationType_eqb_refl (a : OperationType) : OperationType_eqb a a = true.
Proof. destruct a; reflexivity. Qed.

(** X11. [setOperation] is idempotent: after [setOperation(op, r)] the
    operation is [op], and a following [setOperation(op, false)] changes
    nothing and issues no call (the IMU FIFO is not reset again, the active
    operation is not told again and the state is not saved again). *)
Theorem setOperation_idempotent :
  forall (cfg : Config) (op : OperationType) (allowRepeat : bool) (s : Globals),
    let s1 := fst (setOperation cfg op allowRepeat s) in
    stateOp s1 = op
    /\ setOperation cfg op false s1 = (s1, []).
Proof.
  intros cfg op r s s1. subst s1.
  assert (Hop : stateOp (fst (setOperation cfg op r s)) = op).
  { unfold setOperation.
    destruct (OperationType_eqb (stateOp s) op && negb r) eqn:E.
    - apply andb_prop in E. destruct E as [E _].
      apply OperationType_eqb_eq in E. exact E.
    - store. split_ifs; reflexivity. }
  split; [exact Hop|].
  unfold setOperation at 1. rewrite Hop, OperationType_eqb_refl. reflexivity.
Qed.

(** ** Sensor malfunction and waiting (robot.cpp) *)

(** X12. [detectSensorMalfunction] reports at most one malfunction per call,
    in a fixed order of precedence: a motor overload is reported only when no
    odometry error is, and a motor error only when neither of the two is. *)
Theorem detectSensorMalfunction_reports_one :
  forall (mcfg : MonitorConfig) (status : MotorStatus),
    let out := detectSensorMalfunction mcfg status in
    let odometry :=
      ENABLE_ODOMETRY_ERROR_DETECTION mcfg && odometryError status in
    let overload :=
      ENABLE_OVERLOAD_DETECTION mcfg
      && (motorOverloadDuration status >? MOW_OVERLOAD_ERROR_TIME mcfg)%Z in
    let fault := ENABLE_FAULT_OBSTACLE_AVOIDANCE mcfg && motorError status in
    (length out <= 1)%nat
    /\ (In onOdometryError out <-> odometry = true)
    /\ (In onMotorOverload out <-> odometry = false /\ overload = true)
    /\ (In onMotorError out
        <-> odometry = false /\ overload = false /\ fault = true).
Proof.
  intros mcfg status out odometry overload fault.
  subst out odometry overload fault. unfold detectSensorMalfunction.
  destruct (ENABLE_ODOMETRY_ERROR_DETECTION mcfg && odometryError status);
    destruct (ENABLE_OVERLOAD_DETECTION mcfg
              && (motorOverloadDuration status >? MOW_OVERLOAD_ERROR_TIME mcfg)%Z);
    destruct (ENABLE_FAULT_OBSTACLE_AVOIDANCE mcfg && motorError status);
    cbn [length In];
    (split; [lia|]);
    repeat split; intros; try tauto;
    repeat match goal with
           | H : _ \/ _ |- _ => destruct H
           | H : _ /\ _ |- _ => destruct H
           | H : False |- _ => destruct H
           end; try discriminate; auto.
Qed.

(** X13. With GPS_JUMP_WAIT configured and the mow motor not spinning up,
    [robotShouldWait] answers true exactly when a GPS jump is flagged; it
    then clears the flag and tells the active operation once
    ([onGpsJump]), so that a call right after it answers false and issues
    nothing. *)
Theorem robotShouldWait_consumes_gps_jump :
  forall (mcfg : MonitorConfig) (now now' : Z) (status : MotorStatus) (s : Globals),
    waitMowMotor status = false ->
    GPS_JUMP_WAIT mcfg = true ->
    let r := robotShouldWait mcfg now status s in
    fst (fst r) = fB s gpsJump
    /\ snd r = (if fB s gpsJump then [onGpsJump] else [])
    /\ fB (snd (fst r)) gpsJump = false
    /\ robotShouldWait mcfg now' status (snd (fst r)) = (false, snd (fst r), []).
Proof.
  intros mcfg now now' status s Hwait Hcfg r. subst r.
  unfold robotShouldWait. rewrite Hwait, Hcfg. cbn [andb].
  destruct (fB s gpsJump) eqn:Hjump.
  - unfold triggerGpsJump, resetMotion, resetLinearMotionMeasurement,
      resetAngularMotionMeasurement, resetOverallMotionTimeout,
      resetStateEstimation. store.
    repeat split; reflexivity.
  - store. rewrite Hjump. repeat split; reflexivity.
Qed.

Lemma robotShouldWait_consumes_gps_jump_witness :
  waitMowMotor (sampleMotorStatus false) = false
  /\ GPS_JUMP_WAIT sampleMonitorConfig = true
  /\ snd (robotShouldWait sampleMonitorConfig 5000 (sampleMotorStatus false)
            (setB gpsJump true (initGlobals sampleConfig)))
     = [onGpsJump].
Proof.
  split; [reflexivity|]. split; [reflexivity|].
  exact (proj1 (proj2 (robotShouldWait_consumes_gps_jump sampleMonitorConfig
                         5000 5020 (sampleMotorStatus false)
                         (setB gpsJump true (initGlobals sampleConfig))
                         eq_refl eq_refl))).
Defined.

(** ** Obstacle detection (robot.cpp) *)

(** Walking the paths of a function under known outcomes of some of its
    conditions: a condition whose outcome is among the hypotheses is taken
    that way, any other is split on. *)
Ltac known :=
  repeat match goal with
         | E : _ = true |- _ => progress (rewrite E)
         | E : _ = false |- _ => progress (rewrite E)
         end.

Ltac simp_known :=
  store; rewrite ?andb_true_r, ?andb_false_r, ?orb_false_r in *; known; store.

Ltac walk := repeat (simp_known; split_if); simp_known.

(** X14. What [detectObstacle] returns and what it does agree.  When it
    returns true, exactly one [onObstacle] has been sent to the active
    operation and the motion measurement has been restarted (the start times
    of the linear and of the angular motion are the time of the call, the
    overall motion timeout is 10 s ahead, the yaw-rate filters are zero);
    when it returns false, nothing has been sent to the active operation or
    to the map. *)
Theorem detectObstacle_result_matches_events :
  forall (cfg : Config) (now : Z) (motor : Motor) (maps : Map) (drv : Drivers)
         (s : Globals),
    let r := detectObstacle cfg now motor maps drv s in
    (fst (fst r) = true ->
     filter isObstacleEvent (snd r) = [onObstacle]
     /\ fZ (snd (fst r)) linearMotionStartTime = now
     /\ fZ (snd (fst r)) angularMotionStartTime = now
     /\ fZ (snd (fst r)) overallMotionTimeout = u32 (now + 10000)
     /\ fR (snd (fst r)) stateDeltaSpeedLP = 0
     /\ fR (snd (fst r)) diffIMUWheelYawSpeedLP = 0)
    /\ (fst (fst r) = false -> snd r = []).
Proof.
  intros cfg now motor maps drv s r. subst r.
  unfold detectObstacle, triggerObstacle, resetMotion,
    resetLinearMotionMeasurement, resetAngularMotionMeasurement,
    resetOverallMotionTimeout, resetStateEstimation, updateGPSMotionCheckTime.
  store. split_ifs; (split; [intros Hr|intros Hr]); try discriminate Hr;
    try reflexivity; repeat split; reflexivity.
Qed.

(** X15. The main loop computes [deltaTime] as [timeLast - millis()]: on
    [unsigned long]s this is the elapsed time negated, 2^32 minus the
    milliseconds since the last pass.  [detectObstacle] adds it to
    [noGPSSpeedTime] and compares the sum with GPS_SPEED_DELAY; so on the
    first pass on which the GPS ground speed is too low, the obstacle is
    raised at once, without GPS_SPEED_DELAY having passed. *)
Theorem gps_speed_obstacle_does_not_wait :
  forall (cfg : Config) (now : Z) (motor : Motor) (maps : Map) (drv : Drivers)
         (s : Globals) (t : Globals2),
    (0 <= gZ t timeLast < now)%Z ->
    (now < 2 ^ 32)%Z ->
    (0 <= GPS_SPEED_DELAY cfg < 2 ^ 32 - (now - gZ t timeLast))%Z ->
    fZ s noGPSSpeedTime = 0%Z ->
    gpsSpeedTooLow cfg now motor maps drv s = true ->
    let s1 := fst (run_deltaTime now s t) in
    fZ s1 deltaTime = (2 ^ 32 - (now - gZ t timeLast))%Z
    /\ gZ (snd (run_deltaTime now s t)) timeLast = now
    /\ fst (fst (detectObstacle cfg now motor maps drv s1)) = true.
Proof.
  intros cfg now motor maps drv s t Hlast Hnow Hdelay Hzero Hlow s1. subst s1.
  assert (Hdt : u32 (gZ t timeLast - now) = (2 ^ 32 - (now - gZ t timeLast))%Z).
  { unfold u32, wordModulus. symmetry. apply Z.mod_unique with (-1)%Z; lia. }
  unfold run_deltaTime. store2. rewrite Hdt.
  split; [reflexivity|]. split; [reflexivity|].
  unfold gpsSpeedTooLow, Bumper.obstacle in Hlow.
  repeat (apply andb_prop in Hlow; destruct Hlow as [Hlow ?]).
  repeat match goal with
         | E : negb _ = true |- _ => apply negb_true_iff in E
         end.
  unfold detectObstacle, triggerObstacle, resetMotion,
    resetLinearMotionMeasurement, resetAngularMotionMeasurement,
    resetOverallMotionTimeout, resetStateEstimation, updateGPSMotionCheckTime,
    Bumper.obstacle, Bumper.obstacleLeft.
  assert (Hgt : (u32 (fZ s noGPSSpeedTime + (2 ^ 32 - (now - gZ t timeLast)))
                 >? GPS_SPEED_DELAY cfg)%Z = true).
  { rewrite Hzero, u32_small, Z.gtb_ltb by lia. apply Z.ltb_lt. lia. }
  walk; reflexivity.
Qed.

Lemma gpsSpeedTooLow_sample :
  gpsSpeedTooLow sampleConfig 20000 (sampleMotor 0.3 0) sampleMap
    (sampleDrivers false false false) (initGlobals sampleConfig) = true.
Proof.
  unfold gpsSpeedTooLow. rewrite moving_sample.
  unfold Bumper.obstacle. sample_cfg.
  assert (E : (0 <? fabs (0.3 / 4)) = true).
  { apply Rltb_true_iff. unfold fabs. rewrite Rabs_pos_eq; lra. }
  rewrite E. reflexivity.
Qed.

Lemma gps_speed_obstacle_does_not_wait_witness :
  (0 <= gZ (setZ2 timeLast 19980 initGlobals2) timeLast < 20000)%Z
  /\ (20000 < 2 ^ 32)%Z
  /\ (0 <= GPS_SPEED_DELAY sampleConfig
      < 2 ^ 32 - (20000 - gZ (setZ2 timeLast 19980 initGlobals2) timeLast))%Z
  /\ fZ (initGlobals sampleConfig) noGPSSpeedTime = 0%Z
  /\ gpsSpeedTooLow sampleConfig 20000 (sampleMotor 0.3 0) sampleMap
       (sampleDrivers false false false) (initGlobals sampleConfig) = true
  /\ fst (fst (detectObstacle sampleConfig 20000 (sampleMotor 0.3 0) sampleMap
                 (sampleDrivers false false false)
                 (fst (run_deltaTime 20000 (initGlobals sampleConfig)
                         (setZ2 timeLast 19980 initGlobals2))))) = true.
Proof.
  assert (H1 : (0 <= gZ (setZ2 timeLast 19980 initGlobals2) timeLast < 20000)%Z)
    by (cbn; lia).
  assert (H2 : (20000 < 2 ^ 32)%Z) by lia.
  assert (H3 : (0 <= GPS_SPEED_DELAY sampleConfig
                < 2 ^ 32 - (20000 - gZ (setZ2 timeLast 19980 initGlobals2)
                                        timeLast))%Z) by (cbn; lia).
  assert (H4 : fZ (initGlobals sampleConfig) noGPSSpeedTime = 0%Z) by reflexivity.
  repeat (split; [assumption|]).
  split; [exact gpsSpeedTooLow_sample|].
  exact (proj2 (proj2 (gps_speed_obstacle_does_not_wait sampleConfig 20000
                         (sampleMotor 0.3 0) sampleMap
                         (sampleDrivers false false false)
                         (initGlobals sampleConfig)
                         (setZ2 timeLast 19980 initGlobals2)
                         H1 H2 H3 H4 gpsSpeedTooLow_sample))).
Defined.

Lemma WayType_eqb_refl (w : WayType) : WayType_eqb w w = true.
Proof. destruct w; reflexivity. Qed.

(** X16. On the way to the dock the sonar cannot raise an obstacle: with
    [maps.wayMode == WAY_DOCK], what [detectObstacle] returns, does to the
    globals and sends out is the same whatever [sonar.obstacle()] reads. *)
Theorem detectObstacle_ignores_sonar_when_docking :
  forall (cfg : Config) (now : Z) (motor : Motor) (maps : Map) (drv : Drivers)
         (s : Globals) (reading : bool),
    wayMode maps = WAY_DOCK ->
    detectObstacle cfg now motor maps (set_sonarObstacle reading drv) s
    = detectObstacle cfg now motor maps drv s.
Proof.
  intros cfg now motor maps drv s reading Hway.
  unfold detectObstacle.
  cbn [set_sonarObstacle liftTriggered sonarObstacle imuFound].
  rewrite Hway, WayType_eqb_refl. cbn [negb].
  rewrite !andb_false_r. reflexivity.
Qed.

Lemma detectObstacle_ignores_sonar_when_docking_witness :
  wayMode (set_wayMode WAY_DOCK sampleMap) = WAY_DOCK
  /\ detectObstacle sampleConfig 20000 (sampleMotor 0.3 0)
       (set_wayMode WAY_DOCK sampleMap)
       (set_sonarObstacle true (sampleDrivers false false false))
       (initGlobals sampleConfig)
     = detectObstacle sampleConfig 20000 (sampleMotor 0.3 0)
         (set_wayMode WAY_DOCK sampleMap) (sampleDrivers false false false)
         (initGlobals sampleConfig).
Proof.
  split; [reflexivity|].
  exact (detectObstacle_ignores_sonar_when_docking sampleConfig 20000
           (sampleMotor 0.3 0) (set_wayMode WAY_DOCK sampleMap)
           (sampleDrivers false false false) (initGlobals sampleConfig) true
           eq_refl).
Defined.

(** ** Stuck rotation (robot.cpp) *)

(** X17. What [detectObstacleRotation] returns and what it does agree.  When
    it returns true, exactly one obstacle event ([onObstacle] or
    [onObstacleRotation]) has been sent to the active operation and the
    motion measurement has been restarted, the start time of the angular
    motion being the time of the call; when it returns false, the globals
    are as they were and nothing has been sent. *)
Theorem detectObstacleRotation_result_matches_events :
  forall (cfg : Config) (mcfg : MonitorConfig) (now : Z) (motor : Motor)
         (drv : Drivers) (s : Globals) (t : Globals2),
    let r := detectObstacleRotation cfg mcfg now motor drv s t in
    let s' := snd (fst (fst r)) in
    let out := snd r in
    (fst (fst (fst r)) = true ->
     (filter isObstacleEvent out = [onObstacle]
      \/ filter isObstacleEvent out = [onObstacleRotation])
     /\ fZ s' angularMotionStartTime = now
     /\ fZ s' linearMotionStartTime = now
     /\ fR s' stateDeltaSpeedLP = 0
     /\ fR s' diffIMUWheelYawSpeedLP = 0)
    /\ (fst (fst (fst r)) = false -> r = (false, s, t, [])).
Proof.
  intros cfg mcfg now motor drv s t r s' out. subst r s' out.
  unfold detectObstacleRotation, triggerObstacleRotation, triggerObstacle,
    resetMotion, resetLinearMotionMeasurement, resetAngularMotionMeasurement,
    resetOverallMotionTimeout, resetStateEstimation.
  store2.
  repeat (split_if; store2);
    (split; [intros Hr|intros Hr]); try discriminate Hr; try reflexivity;
    (split; [first [left; reflexivity | right; reflexivity]|]);
    repeat split; reflexivity.
Qed.

(** X18. Stuck-rotation detection starts over whenever the robot is not
    asked to rotate.  After the motion bookkeeping of a control cycle at time
    [t0] on which the robot should not rotate, [detectObstacleRotation] at a
    time [now] within ROTATION_TIMEOUT, OVERLOAD_ROTATION_DEADTIME and
    ROTATION_TIME of [t0] returns false and does nothing, whatever the motor
    and the IMU report (away from the overflow of [millis()]). *)
Theorem detectObstacleRotation_starts_over :
  forall (cfg : Config) (mcfg : MonitorConfig) (t0 now : Z)
         (motor0 motor : Motor) (drv : Drivers) (s : Globals) (t : Globals2),
    robotShouldRotate cfg motor0 = false ->
    (0 <= t0)%Z ->
    (0 <= ROTATION_TIMEOUT mcfg)%Z ->
    (0 <= OVERLOAD_ROTATION_DEADTIME mcfg)%Z ->
    (0 <= ROTATION_TIME mcfg)%Z ->
    (t0 + ROTATION_TIMEOUT mcfg < 2 ^ 32)%Z ->
    (t0 + OVERLOAD_ROTATION_DEADTIME mcfg < 2 ^ 32)%Z ->
    (t0 + ROTATION_TIME mcfg < 2 ^ 32)%Z ->
    (now <= t0 + ROTATION_TIMEOUT mcfg)%Z ->
    (now <= t0 + OVERLOAD_ROTATION_DEADTIME mcfg)%Z ->
    (now <= t0 + ROTATION_TIME mcfg)%Z ->
    let s1 := fst (run_motionBookkeeping cfg t0 motor0 s t) in
    let t1 := snd (run_motionBookkeeping cfg t0 motor0 s t) in
    fZ s1 angularMotionStartTime = t0
    /\ detectObstacleRotation cfg mcfg now motor drv s1 t1 = (false, s1, t1, []).
Proof.
  intros cfg mcfg t0 now motor0 motor drv s t Hrot H0 Hp1 Hp2 Hp3 Hw1 Hw2 Hw3
    Hn1 Hn2 Hn3 s1 t1.
  assert (Hstart : fZ s1 angularMotionStartTime = t0).
  { subst s1. unfold run_motionBookkeeping, robotShouldBeInMotion,
      resetLinearMotionMeasurement, resetAngularMotionMeasurement,
      resetOverallMotionTimeout, updateGPSMotionCheckTime.
    rewrite Hrot. store2. repeat (split_if; store2); reflexivity. }
  split; [exact Hstart|].
  generalize dependent s1. generalize t1. clear t1.
  intros t1 s1 Hstart.
  unfold detectObstacleRotation. rewrite Hstart.
  rewrite !u32_small by lia.
  assert (E1 : (now >? t0 + ROTATION_TIMEOUT mcfg)%Z = false)
    by (rewrite Z.gtb_ltb; apply Z.ltb_ge; lia).
  assert (E2 : (now >? t0 + OVERLOAD_ROTATION_DEADTIME mcfg)%Z = false)
    by (rewrite Z.gtb_ltb; apply Z.ltb_ge; lia).
  assert (E3 : (now >? t0 + ROTATION_TIME mcfg)%Z = false)
    by (rewrite Z.gtb_ltb; apply Z.ltb_ge; lia).
  rewrite E1, E2, E3, !andb_false_r.
  destruct (negb (OBSTACLE_DETECTION_ROTATION mcfg)
            || negb (robotShouldRotate cfg motor)); reflexivity.
Qed.

Lemma detectObstacleRotation_starts_over_witness :
  robotShouldRotate sampleConfig (sampleMotor 0 0) = false
  /\ fst (fst (fst (detectObstacleRotation sampleConfig sampleMonitorConfig 6000
                      (sampleMotor 0 1) (sampleDrivers false false false)
                      (fst (run_motionBookkeeping sampleConfig 5000
                              (sampleMotor 0 0) (initGlobals sampleConfig)
                              initGlobals2))
                      (snd (run_motionBookkeeping sampleConfig 5000
                              (sampleMotor 0 0) (initGlobals sampleConfig)
                              initGlobals2)))))
     = false.
Proof.
  assert (H : robotShouldRotate sampleConfig (sampleMotor 0 0) = false).
  { pose proof standing_sample as Hs. apply orb_false_iff in Hs. apply Hs. }
  split; [exact H|].
  rewrite (proj2 (detectObstacleRotation_starts_over sampleConfig
                    sampleMonitorConfig 5000 6000 (sampleMotor 0 0)
                    (sampleMotor 0 1) (sampleDrivers false false false)
                    (initGlobals sampleConfig) initGlobals2 H
                    ltac:(lia) ltac:(cbn; lia) ltac:(cbn; lia) ltac:(cbn; lia)
                    ltac:(cbn; lia) ltac:(cbn; lia) ltac:(cbn; lia)
                    ltac:(cbn; lia) ltac:(cbn; lia) ltac:(cbn; lia))).
  reflexivity.
Defined.

(** ** The bumper (bumper.cpp) *)

(** Opens [Bumper::run] applied to [s] for symbolic execution, its result
    being named. *)
Ltac bumper_run cfg now drv s :=
  let r := fresh "r" in let Hr := fresh "Hr" in
  remember (Bumper.run cfg now drv s) as r eqn:Hr; revert Hr;
  cbv beta delta [Bumper.run setOperation]; exec2; intros ->.

(** X19. Released bumpers stop reporting at once.  After a call of
    [Bumper::run] on which both bumper inputs read released, [obstacle()]
    is false, whatever was reported before; the call sends nothing out and
    leaves the operation as it is. *)
Theorem bumper_release_clears :
  forall (cfg : Config) (now : Z) (drv : Drivers) (s : Globals),
    getLeftBumper drv = false ->
    getRightBumper drv = false ->
    let r := Bumper.run cfg now drv s in
    Bumper.obstacle cfg (fst r) = false
    /\ Bumper.obstacleLeft cfg (fst r) = false
    /\ Bumper.obstacleRight cfg (fst r) = false
    /\ snd r = []
    /\ stateOp (fst r) = stateOp s.
Proof.
  intros cfg now drv s Hl Hr r. subst r.
  unfold Bumper.obstacle, Bumper.obstacleLeft, Bumper.obstacleRight.
  bumper_run cfg now drv s; store; try rewrite Hc; repeat split; reflexivity.
Qed.

Lemma bumper_release_clears_witness :
  getLeftBumper (sampleDrivers false false false) = false
  /\ getRightBumper (sampleDrivers false false false) = false
  /\ Bumper.obstacle sampleConfig
       (fst (Bumper.run sampleConfig 5000 (sampleDrivers false false false)
               (setB outputLeftPressed true (initGlobals sampleConfig))))
     = false.
Proof.
  split; [reflexivity|]. split; [reflexivity|].
  exact (proj1 (bumper_release_clears sampleConfig 5000
                  (sampleDrivers false false false)
                  (setB outputLeftPressed true (initGlobals sampleConfig))
                  eq_refl eq_refl)).
Defined.

(** X20. A press is reported only after BUMPER_TRIGGER_DELAY.  On the first
    call of [Bumper::run] on which the left bumper reads pressed after a call
    on which it read released, [obstacleLeft()] is true when the delay is
    zero and false when it is positive (away from the overflow of
    [millis()]). *)
Theorem bumper_press_waits_for_trigger_delay :
  forall (cfg : Config) (t0 t1 : Z) (drv0 drv1 : Drivers) (s : Globals),
    BUMPER_ENABLE cfg = true ->
    getLeftBumper drv0 = false ->
    getLeftBumper drv1 = true ->
    (0 <= BUMPER_TRIGGER_DELAY cfg)%Z ->
    (0 <= t1)%Z ->
    (t1 + BUMPER_TRIGGER_DELAY cfg < 2 ^ 32)%Z ->
    let s1 := fst (Bumper.run cfg t0 drv0 s) in
    let s2 := fst (Bumper.run cfg t1 drv1 s1) in
    Bumper.obstacleLeft cfg s1 = false
    /\ Bumper.obstacleLeft cfg s2 = (BUMPER_TRIGGER_DELAY cfg =? 0)%Z.
Proof.
  intros cfg t0 t1 drv0 drv1 s Hen Hrel Hpress Hd Ht Hw s1 s2.
  assert (H1 : fB s1 bumperLeft = false /\ fB s1 outputLeftPressed = false).
  { subst s1. bumper_run cfg t0 drv0 s; store; split; reflexivity. }
  destruct H1 as [Hb Ho].
  split.
  - unfold Bumper.obstacleLeft. rewrite Hen. exact Ho.
  - subst s2. generalize dependent s1. intros s1 Hb Ho.
    unfold Bumper.obstacleLeft. rewrite Hen.
    destruct (BUMPER_TRIGGER_DELAY cfg =? 0)%Z eqn:Ez.
    + apply Z.eqb_eq in Ez.
      assert (E : (t1 >=? u32 (t1 + BUMPER_TRIGGER_DELAY cfg))%Z = true)
        by (rewrite u32_small, Z.geb_leb by lia; apply Z.leb_le; lia).
      bumper_run cfg t1 drv1 s1; store; reflexivity.
    + apply Z.eqb_neq in Ez.
      assert (E : (t1 >=? u32 (t1 + BUMPER_TRIGGER_DELAY cfg))%Z = false)
        by (rewrite u32_small, Z.geb_leb by lia; apply Z.leb_gt; lia).
      bumper_run cfg t1 drv1 s1; store; exact Ho.
Qed.

Lemma bumper_press_waits_for_trigger_delay_witness :
  BUMPER_ENABLE sampleConfig = true
  /\ getLeftBumper (sampleDrivers false false false) = false
  /\ getLeftBumper (sampleDrivers false true false) = true
  /\ (0 <= BUMPER_TRIGGER_DELAY sampleConfig)%Z
  /\ (0 <= 5020)%Z
  /\ (5020 + BUMPER_TRIGGER_DELAY sampleConfig < 2 ^ 32)%Z
  /\ Bumper.obstacleLeft sampleConfig
       (fst (Bumper.run sampleConfig 5020 (sampleDrivers false true false)
               (fst (Bumper.run sampleConfig 5000
                       (sampleDrivers false false false)
                       (initGlobals sampleConfig)))))
     = true.
Proof.
  assert (H4 : (0 <= BUMPER_TRIGGER_DELAY sampleConfig)%Z) by (cbn; lia).
  assert (H5 : (0 <= 5020)%Z) by lia.
  assert (H6 : (5020 + BUMPER_TRIGGER_DELAY sampleConfig < 2 ^ 32)%Z)
    by (cbn; lia).
  split; [reflexivity|]. split; [reflexivity|]. split; [reflexivity|].
  split; [exact H4|]. split; [exact H5|]. split; [exact H6|].
  exact (proj2 (bumper_press_waits_for_trigger_delay sampleConfig 5000 5020
                  (sampleDrivers false false false)
                  (sampleDrivers false true false) (initGlobals sampleConfig)
                  eq_refl eq_refl eq_refl H4 H5 H6)).
Defined.

Lemma bumper_run_error (cfg : Config) (now : Z) (drv : Drivers) (s : Globals) :
  (snd (Bumper.run cfg now drv s) = []
   /\ stateOp (fst (Bumper.run cfg now drv s)) = stateOp s)
  \/ (snd (Bumper.run cfg now drv s)
      = [mpu_reset_fifo; changeOperationTypeByOperator OP_ERROR; saveState]
      /\ stateOp s <> OP_ERROR
      /\ stateOp (fst (Bumper.run cfg now drv s)) = OP_ERROR).
Proof.
  bumper_run cfg now drv s; store;
    first [ left; split; reflexivity
          | right; split; [reflexivity|]; split; [|reflexivity];
            intros Hop; rewrite Hop in *; cbn [OperationType_eqb negb] in *;
            discriminate ].
Qed.

Lemma bumperRuns_in_error (cfg : Config) (calls : list (Z * Drivers)) :
  forall s, stateOp s = OP_ERROR ->
  snd (bumperRuns cfg calls s) = []
  /\ stateOp (fst (bumperRuns cfg calls s)) = OP_ERROR.
Proof.
  induction calls as [|[now drv] calls IH]; intros s Hs; cbn [bumperRuns].
  - split; [reflexivity|exact Hs].
  - destruct (bumper_run_error cfg now drv s) as [[Hout Hop]|[_ [Hne _]]];
      [|contradiction].
    destruct (Bumper.run cfg now drv s) as [s1 out1]. cbn [fst snd] in *.
    rewrite Hs in Hop. specialize (IH s1 Hop).
    destruct (bumperRuns cfg calls s1) as [s2 out2]. cbn [fst snd] in *.
    destruct IH as [IH1 IH2]. subst out1 out2. split; [reflexivity|exact IH2].
Qed.

(** X21. The bumper escalates to the error operation at most once.  Over any
    sequence of calls of [Bumper::run], from any state, at most one switch
    to OP_ERROR is issued, however long the bumpers stay pressed; once the
    operation is OP_ERROR, [Bumper::run] issues nothing at all. *)
Theorem bumper_escalates_at_most_once :
  forall (cfg : Config) (calls : list (Z * Drivers)) (s : Globals),
    (length (filter isErrorTransition (snd (bumperRuns cfg calls s))) <= 1)%nat
    /\ (stateOp s = OP_ERROR -> snd (bumperRuns cfg calls s) = []).
Proof.
  intros cfg calls s. split.
  - revert s. induction calls as [|[now drv] calls IH]; intros s;
      cbn [bumperRuns].
    + cbn. lia.
    + destruct (bumper_run_error cfg now drv s) as [[Hout Hop]|[Hout [_ Hop]]].
      * specialize (IH (fst (Bumper.run cfg now drv s))).
        destruct (Bumper.run cfg now drv s) as [s1 out1]. cbn [fst snd] in *.
        destruct (bumperRuns cfg calls s1) as [s2 out2]. cbn [fst snd] in *.
        subst out1. exact IH.
      * pose proof (bumperRuns_in_error cfg calls
                      (fst (Bumper.run cfg now drv s)) Hop) as [Hnil _].
        destruct (Bumper.run cfg now drv s) as [s1 out1]. cbn [fst snd] in *.
        destruct (bumperRuns cfg calls s1) as [s2 out2]. cbn [fst snd] in *.
        subst out1 out2. cbn. lia.
  - intros Hs. apply bumperRuns_in_error. exact Hs.
Qed.

(** ** The pose estimator (StateEstimator.cpp) *)

Lemma computeRobotState_gps_unusable (helper : Helper) (cfg : Config) (now : Z)
    (motor : Motor) (gps : Gps) (maps : Map) (s : Globals) :
  gpsSolutionAccepted gps = false ->
  computeRobotState_gps cfg now motor gps maps s
  = ((if fabs (linearSpeedSet motor) <? MOTOR_MIN_SPEED cfg / 2
      then setB resetLastPos true
             (setZ stateRightTicks (motorRightTicks motor)
                (setZ stateLeftTicks (motorLeftTicks motor) s))
      else setZ stateRightTicks (motorRightTicks motor)
             (setZ stateLeftTicks (motorLeftTicks motor) s)),
     gps).
Proof.
  intros Hacc. unfold computeRobotState_gps.
  destruct (gpsPosition gps _) as [posN posE].
  rewrite Hacc. reflexivity.
Qed.

(** What the part of [computeRobotState] after the GPS solution does, in terms
    of the state [g] the GPS part leaves. *)
Lemma computeRobotState_odometry (helper : Helper) (cfg : Config) (now : Z)
    (motor : Motor) (gps : Gps) (maps : Map) (drv : Drivers) (s : Globals) :
  let g := fst (computeRobotState_gps cfg now motor gps maps s) in
  let r := computeRobotState cfg now motor gps maps drv s in
  let distLeft :=
    IZR (s32 (motorLeftTicks motor - fZ s stateLeftTicks)) / ticksPerCm motor in
  let distRight :=
    IZR (s32 (motorRightTicks motor - fZ s stateRightTicks)) / ticksPerCm motor in
  let distOdometry := (distLeft + distRight) / 2 in
  snd r = snd (computeRobotState_gps cfg now motor gps maps s)
  /\ fR (fst r) stateX = fR g stateX + distOdometry / 100 * cos (fR g stateDelta)
  /\ fR (fst r) stateY = fR g stateY + distOdometry / 100 * sin (fR g stateDelta)
  /\ fR (fst r) stateHeading = (fR (fst r) stateDelta - PI / 2) * 180 / PI
  /\ fR (fst r) stateDeltaLast = fR (fst r) stateDelta
  /\ fR (fst r) stateDeltaIMU = 0
  /\ fZ (fst r) timeLastState = now
  /\ fZ (fst r) stateLeftTicks = fZ g stateLeftTicks
  /\ fZ (fst r) stateRightTicks = fZ g stateRightTicks
  /\ fZ (fst r) solutionTime = fZ g solutionTime
  /\ fZ (fst r) lastFixTime = fZ g lastFixTime
  /\ fR (fst r) stateGroundSpeed = fR g stateGroundSpeed
  /\ fR (fst r) stateDeltaGPS = fR g stateDeltaGPS.
Proof.
  intros g r distLeft distRight distOdometry.
  subst g distLeft distRight distOdometry.
  remember r as r0 eqn:Hr. subst r. revert Hr.
  cbv beta delta [computeRobotState].
  destruct (computeRobotState_gps cfg now motor gps maps s) as [g gps'].
  cbv iota beta.
  exec2; intros ->; store; repeat split; reflexivity.
Qed.

(** X22. Without a usable GPS solution (none available, or one of quality
    INVALID), [computeRobotState] takes nothing from the GPS: the solution
    stays as it is, so that an INVALID solution is never consumed
    ([gps.solutionAvail] stays set); and the solution time, the ground
    speed, the position baseline, the GPS heading and the jump flag are
    left as they were. *)
Theorem computeRobotState_skips_unusable_solution :
  forall (helper : Helper) (cfg : Config) (now : Z) (motor : Motor) (gps : Gps)
         (maps : Map) (drv : Drivers) (s : Globals),
    gpsSolutionAccepted gps = false ->
    let r := computeRobotState cfg now motor gps maps drv s in
    snd r = gps
    /\ fZ (fst r) solutionTime = fZ s solutionTime
    /\ fR (fst r) stateGroundSpeed = fR s stateGroundSpeed
    /\ fR (fst r) lastPosN = fR s lastPosN
    /\ fR (fst r) lastPosE = fR s lastPosE
    /\ fR (fst r) stateDeltaGPS = fR s stateDeltaGPS
    /\ fB (fst r) gpsJump = fB s gpsJump.
Proof.
  intros helper cfg now motor gps maps drv s Hacc r. subst r.
  pose proof (computeRobotState_odometry helper cfg now motor gps maps drv s)
    as (Hgps & _ & _ & _ & _ & _ & _ & _ & _ & Htime & _ & Hspeed & Hdgps).
  pose proof (computeRobotState_heading helper cfg now motor gps maps drv s)
    as (_ & Hjump & HposN & HposE).
  cbv zeta in *.
  rewrite Hgps, Htime, Hspeed, Hdgps, Hjump, HposN, HposE.
  rewrite (computeRobotState_gps_unusable helper cfg now motor gps maps s Hacc).
  cbn [fst snd].
  destruct (fabs (linearSpeedSet motor) <? MOTOR_MIN_SPEED cfg / 2);
    store; repeat split; reflexivity.
Qed.

Lemma computeRobotState_skips_unusable_solution_witness :
  gpsSolutionAccepted (sampleGps true SOL_INVALID 0.5 0) = false
  /\ solutionAvail
       (snd (@computeRobotState SpecHelper.specHelper sampleConfig 200
               (sampleMotor 0.3 0) (sampleGps true SOL_INVALID 0.5 0) sampleMap
               (sampleDrivers false false false) (initGlobals sampleConfig)))
     = true.
Proof.
  split; [reflexivity|].
  rewrite (proj1 (computeRobotState_skips_unusable_solution
                    SpecHelper.specHelper sampleConfig 200 (sampleMotor 0.3 0)
                    (sampleGps true SOL_INVALID 0.5 0) sampleMap
                    (sampleDrivers false false false) (initGlobals sampleConfig)
                    eq_refl)).
  reflexivity.
Defined.

(** X23. Dead reckoning on a straight run.  On a tick without a usable GPS
    solution and without the IMU in use, when both wheels have turned by the
    same number [n] of ticks since the last tick, the position advances by
    [n / ticksPerCm] centimetres along the heading and the heading is only
    normalised: [stateX += d/100 * cos(stateDelta)],
    [stateY += d/100 * sin(stateDelta)], [stateDelta = scalePI(stateDelta)].
    With [n = 0] the robot stays where it is. *)
Theorem computeRobotState_straight_run :
  forall (helper : Helper) (cfg : Config) (now : Z) (motor : Motor) (gps : Gps)
         (maps : Map) (drv : Drivers) (s : Globals) (n : Z),
    gpsSolutionAccepted gps = false ->
    imuFound drv && useIMU maps = false ->
    ticksPerCm motor <> 0 ->
    wheelBaseCm motor <> 0 ->
    s32 (motorLeftTicks motor - fZ s stateLeftTicks) = n ->
    s32 (motorRightTicks motor - fZ s stateRightTicks) = n ->
    let s' := fst (computeRobotState cfg now motor gps maps drv s) in
    let d := IZR n / ticksPerCm motor in
    fR s' stateX = fR s stateX + d / 100 * cos (fR s stateDelta)
    /\ fR s' stateY = fR s stateY + d / 100 * sin (fR s stateDelta)
    /\ fR s' stateDelta = scalePI (fR s stateDelta).
Proof.
  intros helper cfg now motor gps maps drv s n Hacc Himu Htpc Hwb Hl Hr s' d.
  subst s' d.
  pose proof (computeRobotState_odometry helper cfg now motor gps maps drv s)
    as (_ & HX & HY & _).
  pose proof (computeRobotState_heading helper cfg now motor gps maps drv s)
    as (Hhead & _).
  cbv zeta in *.
  rewrite HX, HY, Hhead, Himu, Hl, Hr.
  rewrite (computeRobotState_gps_unusable helper cfg now motor gps maps s Hacc).
  cbn [fst].
  replace ((IZR n / ticksPerCm motor + IZR n / ticksPerCm motor) / 2)
    with (IZR n / ticksPerCm motor) by lra.
  replace (- (IZR n / ticksPerCm motor - IZR n / ticksPerCm motor)
           / wheelBaseCm motor) with 0 by (unfold Rdiv; ring).
  rewrite Rplus_0_r.
  destruct (fabs (linearSpeedSet motor) <? MOTOR_MIN_SPEED cfg / 2);
    store; repeat split; reflexivity.
Qed.

Lemma computeRobotState_straight_run_witness :
  gpsSolutionAccepted (sampleGps false SOL_FIXED 0 0) = false
  /\ imuFound (sampleDrivers false false false)
     && useIMU (set_useIMU false sampleMap) = false
  /\ ticksPerCm (sampleMotor 0.3 0) <> 0
  /\ wheelBaseCm (sampleMotor 0.3 0) <> 0
  /\ s32 (motorLeftTicks (sampleMotor 0.3 0)
          - fZ (setZ stateRightTicks 4294967216 (setZ stateLeftTicks 4294967216
                  (initGlobals sampleConfig))) stateLeftTicks) = 80%Z
  /\ s32 (motorRightTicks (sampleMotor 0.3 0)
          - fZ (setZ stateRightTicks 4294967216 (setZ stateLeftTicks 4294967216
                  (initGlobals sampleConfig))) stateRightTicks) = 80%Z
  /\ fR (fst (@computeRobotState SpecHelper.specHelper sampleConfig 200
                (sampleMotor 0.3 0) (sampleGps false SOL_FIXED 0 0)
                (set_useIMU false sampleMap) (sampleDrivers false false false)
                (setZ stateRightTicks 4294967216 (setZ stateLeftTicks 4294967216
                   (initGlobals sampleConfig))))) stateX
     = 0 + IZR 80 / ticksPerCm (sampleMotor 0.3 0) / 100 * cos 0.
Proof.
  assert (H3 : ticksPerCm (sampleMotor 0.3 0) <> 0) by (cbn; lra).
  assert (H4 : wheelBaseCm (sampleMotor 0.3 0) <> 0) by (cbn; lra).
  split; [reflexivity|]. split; [reflexivity|].
  split; [exact H3|]. split; [exact H4|].
  split; [reflexivity|]. split; [reflexivity|].
  exact (proj1 (computeRobotState_straight_run SpecHelper.specHelper sampleConfig
                  200 (sampleMotor 0.3 0) (sampleGps false SOL_FIXED 0 0)
                  (set_useIMU false sampleMap) (sampleDrivers false false false)
                  (setZ stateRightTicks 4294967216 (setZ stateLeftTicks 4294967216
                     (initGlobals sampleConfig)))
                  80 eq_refl eq_refl H3 H4 eq_refl eq_refl)).
Defined.

(** X24. After every call of [computeRobotState], whatever the inputs: the
    heading in degrees agrees with the heading in radians
    ([stateHeading = (stateDelta - PI/2) * 180/PI]), the heading is
    remembered for the next yaw-rate computation
    ([stateDeltaLast = stateDelta]), the yaw increment of the IMU is used
    up ([stateDeltaIMU = 0]), the wheel ticks of the motor are the new tick
    baseline, and the time of the call is the new time baseline. *)
Theorem computeRobotState_bookkeeping :
  forall (helper : Helper) (cfg : Config) (now : Z) (motor : Motor) (gps : Gps)
         (maps : Map) (drv : Drivers) (s : Globals),
    let s' := fst (computeRobotState cfg now motor gps maps drv s) in
    fR s' stateHeading = (fR s' stateDelta - PI / 2) * 180 / PI
    /\ fR s' stateDeltaLast = fR s' stateDelta
    /\ fR s' stateDeltaIMU = 0
    /\ fZ s' stateLeftTicks = motorLeftTicks motor
    /\ fZ s' stateRightTicks = motorRightTicks motor
    /\ fZ s' timeLastState = now.
Proof.
  intros helper cfg now motor gps maps drv s s'. subst s'.
  pose proof (computeRobotState_odometry helper cfg now motor gps maps drv s)
    as (_ & _ & _ & Hh & Hl & Hi & Ht & Htl & Htr & _).
  cbv zeta in *.
  repeat (split; [assumption|]).
  rewrite Htl, Htr.
  assert (Hticks :
    fZ (fst (computeRobotState_gps cfg now motor gps maps s)) stateLeftTicks
    = motorLeftTicks motor
    /\ fZ (fst (computeRobotState_gps cfg now motor gps maps s)) stateRightTicks
       = motorRightTicks motor).
  { unfold computeRobotState_gps.
    destruct (gpsPosition gps _) as [posN posE].
    remember (gpsSolution _ _ _ _ _ _ _) as g eqn:Hg.
    destruct (gpsSolutionAccepted gps).
    - subst g. cbn [fst].
      match goal with
      | |- context [gpsSolution ?a ?b ?c ?d ?e ?f ?x] =>
          remember (gpsSolution a b c d e f x) as g eqn:Hg; revert Hg
      end.
      cbv beta delta [gpsSolution]. exec2; intros ->; store; split; reflexivity.
    - cbn [fst]. split_ifs; split; reflexivity. }
  destruct Hticks as [H1 H2]. split; [exact H1|]. split; [exact H2|exact Ht].
Qed.

(** X25. An accepted GPS solution is consumed and time-stamped, and its
    position replaces the estimated position exactly when the map permits
    that for the quality of the solution.  After the GPS part of
    [computeRobotState] on a tick with an accepted solution:
    [gps.solutionAvail] is cleared; [solutionTime] is the time of the call
    and [lastSolutionTime] the previous one; the ground speed is the one the
    GPS reports; [stateX], [stateY] are the east and north of the solution
    if [useGPSfixForPosEstimation] (FIXED) or [useGPSfloatForPosEstimation]
    (FLOAT) is set and are left alone otherwise; and [lastFixTime] moves
    only on a FIXED solution. *)
Theorem gps_solution_taken_up :
  forall (helper : Helper) (cfg : Config) (now : Z) (motor : Motor) (gps : Gps)
         (maps : Map) (s : Globals),
    gpsSolutionAccepted gps = true ->
    let g := fst (computeRobotState_gps cfg now motor gps maps s) in
    let fixed := SolType_eqb (solution gps) SOL_FIXED in
    let adopt := if fixed then useGPSfixForPosEstimation maps
                 else useGPSfloatForPosEstimation maps in
    solutionAvail (snd (computeRobotState_gps cfg now motor gps maps s)) = false
    /\ fZ g solutionTime = now
    /\ fZ g lastSolutionTime = fZ s solutionTime
    /\ fR g stateGroundSpeed = groundSpeed gps
    /\ fR g stateX = (if adopt then snd (gpsPosition gps s) else fR s stateX)
    /\ fR g stateY = (if adopt then fst (gpsPosition gps s) else fR s stateY)
    /\ fZ g lastFixTime = (if fixed then now else fZ s lastFixTime).
Proof.
  intros helper cfg now motor gps maps s Hacc g fixed adopt.
  subst g fixed adopt.
  rewrite (computeRobotState_gps_accepted helper cfg now motor gps maps s Hacc).
  cbn [fst snd set_solutionAvail solutionAvail].
  split; [reflexivity|].
  match goal with
  | |- context [gpsSolution ?a ?b ?c ?d ?e ?f ?x] =>
      remember (gpsSolution a b c d e f x) as g eqn:Hg; revert Hg
  end.
  cbv beta delta [gpsSolution]. exec2; intros ->; store;
    repeat match goal with
           | E : _ = true |- _ => rewrite E
           | E : _ = false |- _ => rewrite E
           end;
    repeat split; reflexivity.
Qed.

Lemma gps_solution_taken_up_witness :
  gpsSolutionAccepted (sampleGps true SOL_FIXED 0.5 0.25) = true
  /\ fR (fst (@computeRobotState_gps SpecHelper.specHelper sampleConfig 200
                (sampleMotor 0.3 0) (sampleGps true SOL_FIXED 0.5 0.25) sampleMap
                (initGlobals sampleConfig))) stateX
     = 0.25.
Proof.
  split; [reflexivity|].
  exact (proj1 (proj2 (proj2 (proj2 (proj2
           (gps_solution_taken_up SpecHelper.specHelper sampleConfig 200
              (sampleMotor 0.3 0) (sampleGps true SOL_FIXED 0.5 0.25) sampleMap
              (initGlobals sampleConfig) eq_refl)))))).
Defined.

(** ** The line tracker (LineTracker.cpp) *)

Lemma constrain_bounds (x lo hi : R) :
  lo <= hi -> lo <= constrain x lo hi <= hi.
Proof.
  intros H. unfold constrain.
  destruct (x <? lo) eqn:E1; [lra|].
  destruct (x >? hi) eqn:E2; rprop; lra.
Qed.

(** X26. [rotateToTarget] turns towards the target.  With rotation speeds
    that are not negative, the angular speed it commands is never against
    the sign of the angle error [trackerDiffDelta]; and with ROTATION_RAMP
    and [0 <= ROTATION_RAMP_MIN <= ROTATION_RAMP_MAX] its magnitude is at
    most ROTATION_RAMP_MAX (in rad/s). *)
Theorem rotateToTarget_turns_towards_target :
  forall (cfg : Config) (s : Globals),
    0 <= ROTATION_RAMP_MIN cfg <= ROTATION_RAMP_MAX cfg ->
    0 <= ROTATETOTARGETSPEED1 cfg ->
    0 <= ROTATETOTARGETSPEED2 cfg ->
    0 <= ROTATETOTARGETSPEED3 cfg ->
    let a := fR (rotateToTarget cfg s) angular in
    (fR s trackerDiffDelta < 0 -> a <= 0)
    /\ (0 <= fR s trackerDiffDelta -> 0 <= a)
    /\ (ROTATION_RAMP cfg = true -> fabs a <= ROTATION_RAMP_MAX cfg / 180 * PI).
Proof.
  intros cfg s Hramp H1 H2 H3 a. subst a.
  pose proof PI_RGT_0 as Hpi.
  assert (Hscale : forall v, 0 <= v -> 0 <= v / 180 * PI).
  { intros v Hv. apply Rmult_le_pos; lra. }
  assert (Hmono : ROTATION_RAMP_MIN cfg / 180 * PI
                  <= ROTATION_RAMP_MAX cfg / 180 * PI).
  { apply Rmult_le_compat_r; lra. }
  pose proof (Hscale _ (proj1 Hramp)) as Hmin.
  pose proof (Hscale _ H1) as Hv1.
  pose proof (Hscale _ H2) as Hv2.
  pose proof (Hscale _ H3) as Hv3.
  pose proof (constrain_bounds
                (fabs (fR s trackerDiffDelta) + ROTATION_RAMP_MIN cfg / 180 * PI)
                _ _ Hmono) as Hc.
  remember (rotateToTarget cfg s) as r eqn:Hr. revert Hr.
  cbv beta delta [rotateToTarget resetStateEstimation].
  exec2; intros ->; store; rprop;
    (split; [intros Hneg|split; [intros Hpos|intros Hon]]);
    try discriminate Hon;
    unfold fabs in *; try rewrite Rabs_R0;
    try (apply Rabs_le); lra.
Qed.

Lemma rotateToTarget_turns_towards_target_witness :
  0 <= ROTATION_RAMP_MIN sampleConfig <= ROTATION_RAMP_MAX sampleConfig
  /\ 0 <= ROTATETOTARGETSPEED1 sampleConfig
  /\ 0 <= ROTATETOTARGETSPEED2 sampleConfig
  /\ 0 <= ROTATETOTARGETSPEED3 sampleConfig
  /\ (fR rotatingGlobals trackerDiffDelta < 0 ->
      fR (rotateToTarget sampleConfig rotatingGlobals) angular <= 0).
Proof.
  assert (H0 : 0 <= ROTATION_RAMP_MIN sampleConfig <= ROTATION_RAMP_MAX sampleConfig)
    by (cbn; lra).
  assert (H1 : 0 <= ROTATETOTARGETSPEED1 sampleConfig) by (cbn; lra).
  assert (H2 : 0 <= ROTATETOTARGETSPEED2 sampleConfig) by (cbn; lra).
  assert (H3 : 0 <= ROTATETOTARGETSPEED3 sampleConfig) by (cbn; lra).
  repeat (split; [assumption|]).
  exact (proj1 (rotateToTarget_turns_towards_target sampleConfig
                  rotatingGlobals H0 H1 H2 H3)).
Defined.

(** X27. The distance ramp only slows down, and not below its floor: when
    the speed [linear] handed to [distanceRamp] is at least
    DISTANCE_RAMP_MINSPEED and TRANSITION_SPEED, the ramped speed lies
    between the smaller of these two and [linear], whatever the distances
    to the waypoints are. *)
Theorem distanceRamp_within_bounds :
  forall (helper : Helper) (cfg : Config) (linear : R) (s : Globals),
    DISTANCE_RAMP_MINSPEED cfg <= linear ->
    TRANSITION_SPEED cfg <= linear ->
    Rmin (DISTANCE_RAMP_MINSPEED cfg) (TRANSITION_SPEED cfg)
    <= fst (distanceRamp cfg linear s) <= linear.
Proof.
  intros helper cfg linear s Hmin Htrans.
  pose proof (Rmin_l (DISTANCE_RAMP_MINSPEED cfg) (TRANSITION_SPEED cfg)) as Hl.
  pose proof (Rmin_r (DISTANCE_RAMP_MINSPEED cfg) (TRANSITION_SPEED cfg)) as Hr.
  unfold distanceRamp.
  destruct (fR s targetDist <=? fR s lastTargetDist);
    [destruct (fB s straight)|destruct (fB s wasStraight)]; cbn [fst];
    match goal with
    | |- _ <= constrain ?x ?lo ?hi / 1000 <= _ =>
        pose proof (constrain_bounds x lo hi ltac:(lra))
    end; lra.
Qed.

Lemma distanceRamp_within_bounds_witness :
  DISTANCE_RAMP_MINSPEED sampleConfig <= 0.3
  /\ TRANSITION_SPEED sampleConfig <= 0.3
  /\ Rmin (DISTANCE_RAMP_MINSPEED sampleConfig) (TRANSITION_SPEED sampleConfig)
     <= fst (@distanceRamp SpecHelper.specHelper sampleConfig 0.3
               nearTargetGlobals) <= 0.3.
Proof.
  assert (H1 : DISTANCE_RAMP_MINSPEED sampleConfig <= 0.3) by (cbn; lra).
  assert (H2 : TRANSITION_SPEED sampleConfig <= 0.3) by (cbn; lra).
  split; [exact H1|]. split; [exact H2|].
  exact (distanceRamp_within_bounds SpecHelper.specHelper sampleConfig 0.3
           nearTargetGlobals H1 H2).
Defined.

(** X28. Outside docking, the mow motor is wanted on every kind of way.  The
    test [maps.wayMode == WAY_MOW || WAY_EXCLUSION || WAY_PERIMETER] of
    [checkMowAllowed] is true for every way mode as soon as the enumerator
    WAY_EXCLUSION or WAY_PERIMETER is not zero: unless the start of mowing is
    being held back for the first mowing way (MOW_START_AT_WAYMOW with
    [oneTrigger] still false) or the robot is docking, [mow] is set, also
    on a free or a docking way. *)
Theorem checkMowAllowed_mows_on_every_way :
  forall (cfg : Config) (maps : Map) (s : Globals),
    wayTruth cfg WAY_EXCLUSION || wayTruth cfg WAY_PERIMETER = true ->
    MOW_START_AT_WAYMOW cfg && negb (fB s oneTrigger) = false ->
    OperationType_eqb (stateOp s) OP_DOCK || shouldDock maps = false ->
    fB (checkMowAllowed cfg maps s) mow = true.
Proof.
  intros cfg maps s Hway Hstart Hdock.
  assert (Hany : WayType_eqb (wayMode maps) WAY_MOW || wayTruth cfg WAY_EXCLUSION
                 || wayTruth cfg WAY_PERIMETER = true)
    by (rewrite <- orb_assoc, Hway; apply orb_true_r).
  remember (checkMowAllowed cfg maps s) as r eqn:Hr. revert Hr.
  cbv beta delta [checkMowAllowed]. exec2; intros ->; store; reflexivity.
Qed.

Lemma checkMowAllowed_mows_on_every_way_witness :
  wayTruth sampleConfig WAY_EXCLUSION || wayTruth sampleConfig WAY_PERIMETER = true
  /\ MOW_START_AT_WAYMOW sampleConfig
     && negb (fB (initGlobals sampleConfig) oneTrigger) = false
  /\ OperationType_eqb (stateOp (initGlobals sampleConfig)) OP_DOCK
     || shouldDock (set_wayMode WAY_FREE sampleMap) = false
  /\ fB (checkMowAllowed sampleConfig (set_wayMode WAY_FREE sampleMap)
           (initGlobals sampleConfig)) mow = true.
Proof.
  split; [reflexivity|]. split; [reflexivity|]. split; [reflexivity|].
  exact (checkMowAllowed_mows_on_every_way sampleConfig
           (set_wayMode WAY_FREE sampleMap) (initGlobals sampleConfig)
           eq_refl eq_refl eq_refl).
Defined.

(** X29. A rotation in place, once begun, goes on until the angle is
    precise.  When [rotateToTarget] runs because the angle did not fit, and
    the angle error is not yet below ANGLEPRECISE or the robot is still
    commanded to rotate, [angleToTargetPrecise] is false afterwards; and
    while it is false (and no dock timer runs) [AngleToTargetFits] answers
    false whatever the angle error has become, also when it is back below
    the transition angle. *)
Theorem rotation_goes_on_until_precise :
  forall (cfg : Config) (s s2 : Globals),
    fB s angleToTargetFits = false ->
    fabs (fR s trackerDiffDelta) / PI * 180 >= ANGLEPRECISE cfg
    \/ fR s CurrRot <> 0 ->
    fB s2 angleToTargetPrecise
    = fB (rotateToTarget cfg s) angleToTargetPrecise ->
    fB s2 dockTimer = false ->
    fB s2 unDockTimer = false ->
    fB (rotateToTarget cfg s) angleToTargetPrecise = false
    /\ fst (AngleToTargetFits cfg s2) = false.
Proof.
  intros cfg s s2 Hfits Hangle Hsame Hd Hu.
  assert (Hp : fB (rotateToTarget cfg s) angleToTargetPrecise = false).
  { remember (rotateToTarget cfg s) as r eqn:Hr. revert Hr.
    cbv beta delta [rotateToTarget resetStateEstimation].
    exec2; intros ->; store; try reflexivity; exfalso; rprop;
      destruct Hangle as [Hangle|Hangle]; try lra; auto. }
  split; [exact Hp|].
  rewrite Hp in Hsame.
  unfold AngleToTargetFits. store.
  repeat (split_if; store); try reflexivity;
    rewrite ?Hsame, ?Hd, ?Hu in *; cbn [negb orb andb] in *;
    rewrite ?orb_true_r in *; discriminate.
Qed.

Lemma rotation_goes_on_until_precise_witness :
  fB rotatingGlobals angleToTargetFits = false
  /\ (fabs (fR rotatingGlobals trackerDiffDelta) / PI * 180
      >= ANGLEPRECISE sampleConfig
      \/ fR rotatingGlobals CurrRot <> 0)
  /\ fB (rotateToTarget sampleConfig rotatingGlobals) angleToTargetPrecise
     = false.
Proof.
  pose proof PI_RGT_0 as Hpi.
  assert (H2 : fabs (fR rotatingGlobals trackerDiffDelta) / PI * 180
               >= ANGLEPRECISE sampleConfig
               \/ fR rotatingGlobals CurrRot <> 0).
  { left. unfold rotatingGlobals. store.
    cbn [ANGLEPRECISE sampleConfig sampleConfigFor].
    unfold fabs. rewrite Rabs_Ropp, Rabs_pos_eq by lra.
    replace (PI / 2 / PI * 180) with 90 by (field; lra). lra. }
  split; [reflexivity|]. split; [exact H2|].
  exact (proj1 (rotation_goes_on_until_precise sampleConfig rotatingGlobals
                  (setB angleToTargetPrecise
                     (fB (rotateToTarget sampleConfig rotatingGlobals)
                         angleToTargetPrecise)
                     (initGlobals sampleConfig))
                  eq_refl H2 eq_refl eq_refl eq_refl)).
Defined.

Lemma chooseLowest_lastTargetDist (bools : list bool) :
  forall (speeds : list R) (speedIndex : Z) (s : Globals),
    fR (chooseLowest speedIndex bools speeds s) lastTargetDist
    = fR s lastTargetDist
    /\ fR (chooseLowest speedIndex bools speeds s) targetDist = fR s targetDist
    /\ fR (chooseLowest speedIndex bools speeds s) setSpeed = fR s setSpeed.
Proof.
  induction bools as [|b bools IH]; intros speeds speedIndex s; [auto|].
  destruct speeds as [|v speeds]; [auto|].
  cbn [chooseLowest].
  match goal with
  | |- context [chooseLowest _ _ _ ?s1] =>
      destruct (IH speeds (speedIndex + 1)%Z s1) as (H1 & H2 & H3)
  end.
  rewrite H1, H2, H3. frame; auto.
Qed.

Lemma trackLine_steer_lastTargetDist (helper : Helper) (cfg : Config) (gps : Gps)
    (motor : Motor) (maps : Map) (drv : Drivers) (s : Globals) :
  fR (trackLine_steer cfg gps motor maps drv s) lastTargetDist
  = fR s lastTargetDist.
Proof.
  unfold trackLine_steer.
  destruct (AngleToTargetFits_frame cfg s) as (HfR & _).
  destruct (AngleToTargetFits cfg s) as [fits s1]. cbn [fst snd] in *.
  rewrite <- HfR. clear HfR.
  destruct fits; cbn [negb].
  - assert (H1 : fR (linearSpeedState cfg gps motor maps drv s1) lastTargetDist
                 = fR s1 lastTargetDist).
    { unfold linearSpeedState, linearSpeedCap, distanceRamp.
      match goal with
      | |- context [chooseLowest ?i ?b ?v ?s0] =>
          destruct (chooseLowest_lastTargetDist b v i s0) as (Hl & _);
          remember (chooseLowest i b v s0) as s2 eqn:Es2
      end.
      clear Es2. store. frame; store; rewrite ?Hl; auto. }
    rewrite <- H1.
    remember (linearSpeedState cfg gps motor maps drv s1) as s2 eqn:Es2.
    clear Es2 H1.
    remember (stanleyTracker cfg gps maps s2) as r eqn:Hr. revert Hr.
    cbv beta delta [stanleyTracker]. exec2; intros ->; store; reflexivity.
  - remember (rotateToTarget cfg s1) as r eqn:Hr. revert Hr.
    cbv beta delta [rotateToTarget resetStateEstimation].
    exec2; intros ->; store; reflexivity.
Qed.

Lemma noDockRotation_docking (cfg : Config) (now : Z) (maps : Map)
    (drv : Drivers) (s : Globals) :
  DOCK_NO_ROTATION cfg = true ->
  WayType_eqb (wayMode maps) WAY_DOCK = true ->
  isTargetingLastDockPoint maps && negb (isUndocking maps) = true ->
  (fR s lastTargetDist >? DOCK_NO_ROTATION_DISTANCE cfg) = true ->
  fR (fst (noDockRotation cfg now maps drv s)) linear = DOCK_NO_ROTATION_SPEED cfg
  /\ fR (fst (noDockRotation cfg now maps drv s)) angular = 0
  /\ fB (fst (noDockRotation cfg now maps drv s)) targetReached = false.
Proof.
  intros Hcfg Hway Hlast Hfar.
  assert (Hway' : negb (WayType_eqb (wayMode maps) WAY_DOCK) = false)
    by (rewrite Hway; reflexivity).
  remember (noDockRotation cfg now maps drv s) as r eqn:Hr. revert Hr.
  cbv beta delta [noDockRotation triggerObstacle resetMotion
                    resetLinearMotionMeasurement resetAngularMotionMeasurement
                    resetOverallMotionTimeout resetStateEstimation].
  exec2; intros ->; store; repeat split; reflexivity.
Qed.

Lemma trackLine_control_no_target_event (helper : Helper) (cfg : Config)
    (now : Z) (motor : Motor) (gps : Gps) (maps : Map) (drv : Drivers)
    (s : Globals) :
  filter isTargetEvent (snd (trackLine_control cfg now motor gps maps drv s)) = [].
Proof.
  unfold trackLine_control.
  set (s1 := trackLine_steer cfg gps motor maps drv _).
  assert (H1 : filter isTargetEvent (snd (gpsConditions cfg now maps s1)) = [])
    by (unfold gpsConditions; frame).
  destruct (gpsConditions cfg now maps s1) as [s2 out1].
  assert (H2 : filter isTargetEvent (snd (noDockRotation cfg now maps drv s2)) = [])
    by (unfold noDockRotation, triggerObstacle; frame).
  destruct (noDockRotation cfg now maps drv s2) as [s3 out2].
  assert (H3 : filter isTargetEvent (snd (noUnDockRotation cfg now maps drv s3))
               = [])
    by (unfold noUnDockRotation, triggerWaitCommand; frame).
  destruct (noUnDockRotation cfg now maps drv s3) as [s4 out3].
  cbn [fst snd] in *. rewrite !filter_app, H1, H2, H3. reflexivity.
Qed.

(** X30. Approaching the charger, the robot is driven straight.  On a
    tracking tick while docking without rotation is in force
    (DOCK_NO_ROTATION, on a docking way, targeting the last dock point, not
    undocking), with the previous waypoint farther behind than
    DOCK_NO_ROTATION_DISTANCE and the robot not lifted, the command sent to
    the motor is DOCK_NO_ROTATION_SPEED with angular speed zero, whatever
    the sub-controller computed, and the target is not taken as reached. *)
Theorem trackLine_docks_straight :
  forall (helper : Helper) (cfg : Config) (now : Z) (motor : Motor) (gps : Gps)
         (maps : Map) (drv : Drivers) (s : Globals),
    DOCK_NO_ROTATION cfg = true ->
    wayMode maps = WAY_DOCK ->
    isTargetingLastDockPoint maps = true ->
    isUndocking maps = false ->
    detectLift cfg drv = false ->
    fR (trackLine_errors cfg motor maps s) lastTargetDist
    > DOCK_NO_ROTATION_DISTANCE cfg ->
    let out := snd (trackLine cfg true now motor gps maps drv s) in
    filter isVelocityCommand out
    = [setLinearAngularSpeed (DOCK_NO_ROTATION_SPEED cfg) 0 true]
    /\ filter isTargetEvent out = [].
Proof.
  intros helper cfg now motor gps maps drv s Hcfg Hway Hlast Hundock Hlift Hfar
    out.
  assert (Hsc :
    fR (fst (trackLine_control cfg now motor gps maps drv s)) linear
    = DOCK_NO_ROTATION_SPEED cfg
    /\ fR (fst (trackLine_control cfg now motor gps maps drv s)) angular = 0
    /\ fB (fst (trackLine_control cfg now motor gps maps drv s)) targetReached
       = false).
  { unfold trackLine_control.
    pose proof (trackLine_steer_lastTargetDist helper cfg gps motor maps drv
                  (trackLine_errors cfg motor maps s)) as Hkeep.
    set (s1 := trackLine_steer cfg gps motor maps drv _) in *.
    destruct (gpsConditions_frame helper cfg now maps s1) as (Hg & _).
    destruct (gpsConditions cfg now maps s1) as [s2 out1]. cbn [fst] in Hg.
    assert (Hfar2 : (fR s2 lastTargetDist >? DOCK_NO_ROTATION_DISTANCE cfg) = true)
      by (apply Rgtb_true_iff; rewrite Hg, Hkeep; exact Hfar).
    pose proof (noDockRotation_docking cfg now maps drv s2 Hcfg
                  ltac:(rewrite Hway; reflexivity)
                  ltac:(rewrite Hlast, Hundock; reflexivity) Hfar2)
      as (H1 & H2 & H3).
    destruct (noDockRotation cfg now maps drv s2) as [s3 out2].
    cbn [fst] in H1, H2, H3.
    assert (Hidle : DOCK_NO_ROTATION cfg && WayType_eqb (wayMode maps) WAY_DOCK
                    && (isBetweenLastAndNextToLastDockPoint maps
                        && isUndocking maps) = false)
      by (rewrite Hundock, !andb_false_r; reflexivity).
    pose proof (noUnDockRotation_idle cfg now maps drv s3 Hidle) as H4.
    assert (H4b : fB (fst (noUnDockRotation cfg now maps drv s3)) targetReached
                  = fB s3 targetReached).
    { unfold noUnDockRotation. rewrite Hcfg, Hway, Hundock. cbn.
      rewrite andb_false_r. reflexivity. }
    destruct (noUnDockRotation cfg now maps drv s3) as [s4 out3].
    cbn [fst] in H4, H4b.
    destruct (checkMowAllowed_frame cfg maps s4) as (H5 & _).
    assert (H5b : fB (checkMowAllowed cfg maps s4) targetReached
                  = fB s4 targetReached).
    { remember (checkMowAllowed cfg maps s4) as r eqn:Hr. revert Hr.
      cbv beta delta [checkMowAllowed]. exec2; intros ->; store; reflexivity. }
    cbn [fst]. rewrite H5, H4, H5b, H4b. auto. }
  destruct Hsc as (Hlin & Hang & Hreached).
  destruct (trackLine_motor_commands helper cfg now motor gps maps drv s)
    as (Hl & Ha & _ & Hcmd & _).
  rewrite Hlift in Hl, Ha.
  subst out. split.
  - rewrite Hcmd, Hl, Ha, Hlin, Hang. reflexivity.
  - cbv beta delta [trackLine].
    pose proof (trackLine_control_no_target_event helper cfg now motor gps maps
                  drv s) as Hev.
    destruct (trackLine_control cfg now motor gps maps drv s) as [sc out1].
    cbn [fst snd] in *. cbv iota beta.
    match goal with
    | |- filter _ (snd ?p) = _ => remember p as r eqn:Hr; revert Hr
    end.
    exec2; intros ->; cbn [snd];
      rewrite ?filter_app, ?Hev; reflexivity.
Qed.

Lemma trackLine_docks_straight_witness :
  DOCK_NO_ROTATION sampleConfig = true
  /\ wayMode dockingMap = WAY_DOCK
  /\ isTargetingLastDockPoint dockingMap = true
  /\ isUndocking dockingMap = false
  /\ detectLift sampleConfig (sampleDrivers false false false) = false
  /\ fR (@trackLine_errors SpecHelper.specHelper sampleConfig (sampleMotor 0.3 0)
           dockingMap turnedAwayGlobals) lastTargetDist
     > DOCK_NO_ROTATION_DISTANCE sampleConfig
  /\ filter isVelocityCommand
       (snd (@trackLine SpecHelper.specHelper sampleConfig true 5000
               (sampleMotor 0.3 0) (sampleGps false SOL_FIXED 0 2) dockingMap
               (sampleDrivers false false false) turnedAwayGlobals))
     = [setLinearAngularSpeed (DOCK_NO_ROTATION_SPEED sampleConfig) 0 true].
Proof.
  assert (H6 : fR (@trackLine_errors SpecHelper.specHelper sampleConfig
                     (sampleMotor 0.3 0) dockingMap turnedAwayGlobals)
                  lastTargetDist
               > DOCK_NO_ROTATION_DISTANCE sampleConfig).
  { unfold trackLine_errors, dockingMap, turnedAwayGlobals. sample.
    cbn [DOCK_NO_ROTATION_DISTANCE sampleConfig sampleConfigFor].
    rewrite pointDistance_same_y. rewrite Rabs_pos_eq; lra. }
  split; [reflexivity|]. split; [reflexivity|]. split; [reflexivity|].
  split; [reflexivity|]. split; [reflexivity|]. split; [exact H6|].
  exact (proj1 (trackLine_docks_straight SpecHelper.specHelper sampleConfig 5000
                  (sampleMotor 0.3 0) (sampleGps false SOL_FIXED 0 2) dockingMap
                  (sampleDrivers false false false) turnedAwayGlobals
                  eq_refl eq_refl eq_refl eq_refl eq_refl H6)).
Defined.

(** ** The steering command of a tracking tick (LineTracker.cpp) *)

(** Case analysis on a condition, the store left as it is. *)
Ltac split_if_keep :=
  match goal with
  | |- context [if ?c then _ else _] =>
      lazymatch c with
      | context [if _ then _ else _] => fail
      | _ => destruct c
      end
  end.

(** The speed-cap loop writes [linear] and [chosenIndex] only. *)
Lemma chooseLowest_other (bools : list bool) :
  forall (speeds : list R) (speedIndex : Z) (s : Globals) (x : RVar),
    RVar_beq linear x = false ->
    fR (chooseLowest speedIndex bools speeds s) x = fR s x.
Proof.
  induction bools as [|b bools IH]; intros speeds speedIndex s x Hx; [reflexivity|].
  destruct speeds as [|v speeds]; [reflexivity|].
  cbn [chooseLowest]. rewrite IH by exact Hx.
  destruct b; [|reflexivity].
  destruct (v <? fR s linear); [|reflexivity].
  cbn [fR setR setZ]. rewrite Hx. reflexivity.
Qed.

(** [linearSpeedState] writes no [float] global but [linear], and allows the
    slow track. *)
Lemma linearSpeedState_other (helper : Helper) (cfg : Config) (gps : Gps)
    (motor : Motor) (maps : Map) (drv : Drivers) (s : Globals) (x : RVar) :
  RVar_beq linear x = false ->
  fR (linearSpeedState cfg gps motor maps drv s) x = fR s x.
Proof.
  intros Hx.
  unfold linearSpeedState, linearSpeedCap, distanceRamp.
  match goal with
  | |- context [chooseLowest ?i ?b ?v ?s0] =>
      pose proof (chooseLowest_other b v i s0 x Hx) as Hl;
      remember (chooseLowest i b v s0) as s2 eqn:Es2
  end.
  clear Es2. cbn [fR setR setB] in Hl. rewrite Hx in Hl.
  repeat (cbn [fR fZ fB setR setZ setB fst snd]; rewrite ?Hx;
          try split_if_keep);
    exact Hl.
Qed.

Lemma linearSpeedState_trackslow_allowed (helper : Helper) (cfg : Config)
    (gps : Gps) (motor : Motor) (maps : Map) (drv : Drivers) (s : Globals) :
  fB (linearSpeedState cfg gps motor maps drv s) trackslow_allowed = true.
Proof.
  unfold linearSpeedState, linearSpeedCap, distanceRamp.
  match goal with
  | |- context [chooseLowest ?i ?b ?v ?s0] =>
      destruct (chooseLowest_frame b v i s0) as [_ Hb];
      remember (chooseLowest i b v s0) as s2 eqn:Es2
  end.
  clear Es2. store.
  split_ifs; store; rewrite ?Hb; reflexivity.
Qed.

(** What the first block of [trackLine] hands to the sub-controllers. *)
Lemma trackLine_errors_inputs (helper : Helper) (cfg : Config) (motor : Motor)
    (maps : Map) (s : Globals) :
  let e := trackLine_errors cfg motor maps s in
  fR e CurrSpeed = linearSpeedSet motor
  /\ fR e stanleyTrackingNormalK = fR s stanleyTrackingNormalK
  /\ fR e stanleyTrackingNormalP = fR s stanleyTrackingNormalP
  /\ fR e stanleyTrackingSlowK = fR s stanleyTrackingSlowK
  /\ fR e stanleyTrackingSlowP = fR s stanleyTrackingSlowP
  /\ fB e angleToTargetPrecise = fB s angleToTargetPrecise.
Proof.
  intros e. subst e.
  remember (trackLine_errors cfg motor maps s) as r eqn:Hr. revert Hr.
  cbv beta delta [trackLine_errors].
  exec2; intros ->; store; repeat split; reflexivity.
Qed.

(** The tracking errors of a tick on a way that is not tracked in reverse. *)
Lemma trackLine_errors_values (helper : Helper) (cfg : Config) (motor : Motor)
    (maps : Map) (s : Globals) :
  trackReverse maps = false ->
  let e := trackLine_errors cfg motor maps s in
  let x := fR s stateX in
  let y := fR s stateY in
  let tx := px (targetPoint maps) in
  let ty := py (targetPoint maps) in
  let lx := px (lastTargetPoint maps) in
  let ly := py (lastTargetPoint maps) in
  fR e trackerDiffDelta
  = distancePI (fR s stateDelta)
               (scalePIangles (pointsAngle x y tx ty) (fR s stateDelta))
  /\ fR e lateralError = distanceLineInfinite x y lx ly tx ty
  /\ fR e distToPath = distanceLine x y lx ly tx ty
  /\ fR e targetDist = distanceToTargetPoint maps x y
  /\ fR e lastTargetDist = distanceToLastTargetPoint maps x y.
Proof.
  intros Hforward e x y tx ty lx ly. subst e x y tx ty lx ly.
  remember (trackLine_errors cfg motor maps s) as r eqn:Hr. revert Hr.
  cbv beta delta [trackLine_errors].
  exec2; intros ->; store; repeat split; reflexivity.
Qed.

(** The angular velocity [stanleyTracker] sets, on the state [s1] it is
    called in, with the gains written out on the start [s0] of the tick. *)
Lemma stanleyTracker_angular (helper : Helper) (cfg : Config) (gps : Gps)
    (motor : Motor) (maps : Map) (s0 s1 : Globals) :
  fR s1 CurrSpeed = linearSpeedSet motor ->
  fB s1 trackslow_allowed = true ->
  fR s1 stanleyTrackingNormalK = fR s0 stanleyTrackingNormalK ->
  fR s1 stanleyTrackingNormalP = fR s0 stanleyTrackingNormalP ->
  fR s1 stanleyTrackingSlowK = fR s0 stanleyTrackingSlowK ->
  fR s1 stanleyTrackingSlowP = fR s0 stanleyTrackingSlowP ->
  fR (stanleyTracker cfg gps maps s1) angular
  = max (- PI / 6)
        (min (PI / 6)
             (fst (stanleyGains cfg gps motor maps s0) * fR s1 trackerDiffDelta
              + atan2 (snd (stanleyGains cfg gps motor maps s0) * fR s1 lateralError)
                      (0.001 + fabs (linearSpeedSet motor)))).
Proof.
  intros Hspeed Hslow HnK HnP HsK HsP.
  unfold stanleyTracker, stanleyGains.
  destruct (MAP_STANLEY_CONTROL cfg).
  - destruct (SolType_eqb (solution gps) SOL_FLOAT
              || SolType_eqb (solution gps) SOL_INVALID);
      store; rewrite ?Hspeed, ?HnK, ?HnP, ?HsK, ?HsP; reflexivity.
  - store. rewrite Hslow, andb_true_r.
    destruct (trackSlow maps);
      store; rewrite ?Hspeed, ?HnK, ?HnP, ?HsK, ?HsP; reflexivity.
Qed.

(** The angular velocity that leaves the sub-controller on a tick on which
    the gate is true. *)
Lemma trackLine_steer_stanley (helper : Helper) (cfg : Config) (gps : Gps)
    (motor : Motor) (maps : Map) (drv : Drivers) (s : Globals) :
  let e := trackLine_errors cfg motor maps s in
  fst (AngleToTargetFits cfg e) = true ->
  fR (trackLine_steer cfg gps motor maps drv e) angular
  = max (- PI / 6)
        (min (PI / 6)
             (fst (stanleyGains cfg gps motor maps s) * fR e trackerDiffDelta
              + atan2 (snd (stanleyGains cfg gps motor maps s) * fR e lateralError)
                      (0.001 + fabs (linearSpeedSet motor)))).
Proof.
  intros e Hgate.
  destruct (trackLine_errors_inputs helper cfg motor maps s)
    as (Hspeed & HnK & HnP & HsK & HsP & _).
  fold e in Hspeed, HnK, HnP, HsK, HsP.
  unfold trackLine_steer.
  destruct (AngleToTargetFits_frame cfg e) as (HfR & _).
  destruct (AngleToTargetFits cfg e) as [fits s1]. cbn [fst snd] in *.
  subst fits. cbn [negb].
  pose proof (linearSpeedState_other helper cfg gps motor maps drv s1) as Hother.
  pose proof (linearSpeedState_trackslow_allowed helper cfg gps motor maps drv s1)
    as Hslow.
  pose proof (stanleyTracker_angular helper cfg gps motor maps s
                (linearSpeedState cfg gps motor maps drv s1)) as Hang.
  rewrite !Hother, !HfR in Hang by reflexivity.
  apply Hang; assumption.
Qed.

(** [noDockRotation] and [noUnDockRotation] either leave the angular
    velocity alone or replace it by 0. *)
Lemma noDockRotation_angular (cfg : Config) (now : Z) (maps : Map) (drv : Drivers)
    (s : Globals) :
  fR (fst (noDockRotation cfg now maps drv s)) angular
  = (if DOCK_NO_ROTATION cfg && WayType_eqb (wayMode maps) WAY_DOCK
        && (isTargetingLastDockPoint maps && negb (isUndocking maps)
            && (fR s lastTargetDist >? DOCK_NO_ROTATION_DISTANCE cfg))
     then 0 else fR s angular).
Proof.
  unfold noDockRotation, triggerObstacle, resetMotion, resetStateEstimation,
    resetLinearMotionMeasurement, resetAngularMotionMeasurement,
    resetOverallMotionTimeout.
  destruct (DOCK_NO_ROTATION cfg); [|reflexivity].
  destruct (WayType_eqb (wayMode maps) WAY_DOCK); [|reflexivity].
  destruct (isTargetingLastDockPoint maps); [|reflexivity].
  destruct (isUndocking maps); [reflexivity|].
  cbn [andb negb]. store.
  destruct (fR s lastTargetDist >? DOCK_NO_ROTATION_DISTANCE cfg) eqn:Efar;
    split_ifs; try reflexivity; congruence.
Qed.

Lemma noUnDockRotation_angular (cfg : Config) (now : Z) (maps : Map)
    (drv : Drivers) (s : Globals) :
  fR (fst (noUnDockRotation cfg now maps drv s)) angular
  = (if DOCK_NO_ROTATION cfg && WayType_eqb (wayMode maps) WAY_DOCK
        && (isBetweenLastAndNextToLastDockPoint maps && isUndocking maps)
     then 0 else fR s angular).
Proof.
  unfold noUnDockRotation, triggerWaitCommand.
  destruct (DOCK_NO_ROTATION cfg); [|reflexivity].
  destruct (WayType_eqb (wayMode maps) WAY_DOCK); [|reflexivity].
  destruct (isBetweenLastAndNextToLastDockPoint maps); [|reflexivity].
  destruct (isUndocking maps); [|reflexivity].
  cbn [andb negb]. store. split_ifs; try reflexivity; congruence.
Qed.

(** The angular velocity at the end of the control part of a tick on which
    the gate is true: the Stanley law, unless docking or undocking without
    rotation replaces it by 0. *)
Lemma trackLine_control_angular (helper : Helper) (cfg : Config) (now : Z)
    (motor : Motor) (gps : Gps) (maps : Map) (drv : Drivers) (s : Globals) :
  let e := trackLine_errors cfg motor maps s in
  fst (AngleToTargetFits cfg e) = true ->
  fR (fst (trackLine_control cfg now motor gps maps drv s)) angular
  = (if DOCK_NO_ROTATION cfg && WayType_eqb (wayMode maps) WAY_DOCK
        && ((isTargetingLastDockPoint maps && negb (isUndocking maps)
             && (fR e lastTargetDist >? DOCK_NO_ROTATION_DISTANCE cfg))
            || (isBetweenLastAndNextToLastDockPoint maps && isUndocking maps))
     then 0
     else max (- PI / 6)
            (min (PI / 6)
               (fst (stanleyGains cfg gps motor maps s) * fR e trackerDiffDelta
                + atan2 (snd (stanleyGains cfg gps motor maps s) * fR e lateralError)
                        (0.001 + fabs (linearSpeedSet motor))))).
Proof.
  intros e Hgate.
  pose proof (trackLine_steer_stanley helper cfg gps motor maps drv s Hgate) as Hlaw.
  pose proof (trackLine_steer_lastTargetDist helper cfg gps motor maps drv e) as Hdist.
  fold e in Hlaw.
  unfold trackLine_control. fold e.
  set (s1 := trackLine_steer cfg gps motor maps drv e) in *.
  destruct (gpsConditions_frame helper cfg now maps s1) as (Hg & _).
  destruct (gpsConditions cfg now maps s1) as [s2 out1].
  pose proof (noDockRotation_angular cfg now maps drv s2) as Hd.
  destruct (noDockRotation cfg now maps drv s2) as [s3 out2].
  pose proof (noUnDockRotation_angular cfg now maps drv s3) as Hu.
  destruct (noUnDockRotation cfg now maps drv s3) as [s4 out3].
  destruct (checkMowAllowed_frame cfg maps s4) as (Hc & _).
  cbn [fst snd] in *.
  rewrite Hc, Hu, Hd, Hg, Hdist, Hlaw.
  destruct (DOCK_NO_ROTATION cfg), (WayType_eqb (wayMode maps) WAY_DOCK),
    (isTargetingLastDockPoint maps), (isUndocking maps),
    (isBetweenLastAndNextToLastDockPoint maps),
    (fR e lastTargetDist >? DOCK_NO_ROTATION_DISTANCE cfg); reflexivity.
Qed.

(** The velocity command of a control tick on which the gate is true. *)
Lemma trackLine_gate_true_command (helper : Helper) (cfg : Config) (now : Z)
    (motor : Motor) (gps : Gps) (maps : Map) (drv : Drivers) (s : Globals) :
  let e := trackLine_errors cfg motor maps s in
  fst (AngleToTargetFits cfg e) = true ->
  filter isVelocityCommand (snd (trackLine cfg true now motor gps maps drv s))
  = [setLinearAngularSpeed
       (fR (fst (trackLine cfg true now motor gps maps drv s)) linear)
       (if angularOverridden cfg motor maps drv s then 0
        else max (- PI / 6)
               (min (PI / 6)
                  (fst (stanleyGains cfg gps motor maps s) * fR e trackerDiffDelta
                   + atan2 (snd (stanleyGains cfg gps motor maps s)
                            * fR e lateralError)
                           (0.001 + fabs (linearSpeedSet motor)))))
       true].
Proof.
  intros e Hgate.
  pose proof (trackLine_control_angular helper cfg now motor gps maps drv s Hgate)
    as Hctl.
  fold e in Hctl.
  destruct (trackLine_motor_commands helper cfg now motor gps maps drv s)
    as (_ & Hang & _ & Hcmd & _).
  rewrite Hcmd, Hang, Hctl.
  unfold angularOverridden. fold e.
  destruct (detectLift cfg drv); [reflexivity|].
  cbn [orb]. reflexivity.
Qed.

(** C3, as amended. On every control tick ([trackLine(true)]) on which the
    "angle fits" gate is true, the angular velocity sent to the motor is
    [p * angleError + atan2(k * crossTrackError, 0.001 + |currentSpeed|)]
    clamped to [[-pi/6, pi/6]], with the gains [p], [k] of the tick, unless
    it is overridden, and then it is 0: by a lift, or by docking or undocking
    without rotation.  The second argument of [atan2] is positive for every
    current speed (zero and negative included), so the term is the
    arctangent of a quotient with a nonzero denominator; and the magnitude of
    what is sent never exceeds [pi/6]. *)
Theorem trackLine_stanley_command :
  forall (helper : Helper) (cfg : Config) (now : Z) (motor : Motor) (gps : Gps)
         (maps : Map) (drv : Drivers) (s : Globals),
    let e := trackLine_errors cfg motor maps s in
    fst (AngleToTargetFits cfg e) = true ->
    let s' := fst (trackLine cfg true now motor gps maps drv s) in
    let out := snd (trackLine cfg true now motor gps maps drv s) in
    let p := fst (stanleyGains cfg gps motor maps s) in
    let k := snd (stanleyGains cfg gps motor maps s) in
    let angleError := fR e trackerDiffDelta in
    let crossTrackError := fR e lateralError in
    let currentSpeed := linearSpeedSet motor in
    let law :=
      max (- PI / 6)
          (min (PI / 6)
               (p * angleError
                + atan2 (k * crossTrackError) (0.001 + fabs currentSpeed))) in
    let commanded := if angularOverridden cfg motor maps drv s then 0 else law in
    filter isVelocityCommand out
    = [setLinearAngularSpeed (fR s' linear) commanded true]
    /\ 0.001 + fabs currentSpeed > 0
    /\ atan2 (k * crossTrackError) (0.001 + fabs currentSpeed)
       = atan (k * crossTrackError / (0.001 + fabs currentSpeed))
    /\ fabs law <= PI / 6
    /\ fabs commanded <= PI / 6.
Proof.
  intros helper cfg now motor gps maps drv s e Hgate s' out p k angleError
         crossTrackError currentSpeed law commanded.
  pose proof (trackLine_gate_true_command helper cfg now motor gps maps drv s Hgate)
    as Hcmd.
  pose proof (stanley_denominator_positive currentSpeed) as Hden.
  pose proof PI_RGT_0 as Hpi.
  assert (Hb : - PI / 6 <= law <= PI / 6).
  { apply max_min_bounds. lra. }
  assert (Hlaw : fabs law <= PI / 6).
  { unfold fabs. apply Rabs_le. lra. }
  split; [exact Hcmd|].
  split; [lra|].
  split; [apply atan2_positive_x; exact Hden|].
  split; [exact Hlaw|].
  subst commanded. destruct (angularOverridden cfg motor maps drv s); [|exact Hlaw].
  unfold fabs. rewrite Rabs_R0. lra.
Qed.

(** *** The sample tick: 22.5 degrees off the direction of the target

    The robot of [offHeadingGlobals] on a map with the segment of
    [sampleMap], tracked forward at normal gains. *)

Lemma sample_targetDist : SpecHelper.pointDistance 2 0 5 0 = 3.
Proof. rewrite pointDistance_same_y. rewrite Rabs_left; lra. Qed.

Lemma sample_lastTargetDist : SpecHelper.pointDistance 2 0 0 0 = 2.
Proof. rewrite pointDistance_same_y. rewrite Rabs_pos_eq; lra. Qed.

Lemma offHeading_errors (maps : Map) :
  targetPoint maps = mkPoint 5 0 ->
  lastTargetPoint maps = mkPoint 0 0 ->
  distanceToTargetPoint maps 2 0 = 3 ->
  distanceToLastTargetPoint maps 2 0 = 2 ->
  trackReverse maps = false ->
  let e := @trackLine_errors SpecHelper.specHelper sampleConfig (sampleMotor 0.3 0)
             maps offHeadingGlobals in
  fR e trackerDiffDelta = - (PI / 8)
  /\ fR e lateralError = 0
  /\ fR e targetDist = 3
  /\ fR e lastTargetDist = 2
  /\ fR e distToPath = 0.
Proof.
  intros Htp Hlp Htd Hld Hforward.
  pose proof PI_RGT_0 as Hpi.
  destruct (trackLine_errors_values SpecHelper.specHelper sampleConfig
              (sampleMotor 0.3 0) maps offHeadingGlobals Hforward)
    as (Hdiff & Hlat & Hpath & Htarget & Hlast).
  intros e. fold e in Hdiff, Hlat, Hpath, Htarget, Hlast.
  clearbody e.
  rewrite Htp, Hlp in *.
  unfold offHeadingGlobals in *. sample.
  assert (Hbearing : SpecHelper.bearing 2 0 5 0 = 0).
  { unfold SpecHelper.bearing. rewrite atan2_positive_x by lra.
    replace ((0 - 0) / (5 - 2)) with 0 by (unfold Rdiv; ring). apply atan_0. }
  rewrite Hbearing in Hdiff.
  assert (Hunwrap : SpecHelper.unwrapTo (PI / 8) 0 = 0).
  { unfold SpecHelper.unwrapTo. rewrite wrapAngle_in_range; lra. }
  rewrite Hunwrap in Hdiff.
  rewrite Hdiff, Hlat, Htarget, Hlast, Hpath.
  split.
  { unfold SpecHelper.angleDifference. rewrite wrapAngle_in_range; lra. }
  split.
  { unfold SpecHelper.pointToInfiniteLineDistance, Rdiv. ring. }
  split; [exact Htd|]. split; [exact Hld|].
  unfold SpecHelper.pointToSegmentDistance.
  assert (Ht : ((2 - 0) * (5 - 0) + (0 - 0) * (0 - 0))
               / (sq (5 - 0) + sq (0 - 0)) = 0.4).
  { replace (sq (5 - 0) + sq (0 - 0)) with 25 by (unfold sq; ring).
    replace ((2 - 0) * (5 - 0) + (0 - 0) * (0 - 0)) with 10 by ring.
    lra. }
  rewrite Ht.
  assert (E1 : (0.4 <? 0) = false) by (apply Rltb_false_iff; lra).
  assert (E2 : (0.4 >? 1) = false) by (apply Rgtb_false_iff; lra).
  rewrite E1, E2.
  unfold SpecHelper.pointToInfiniteLineDistance, Rdiv. ring.
Qed.

(** The gate is true when the angle error is below 45 degrees, away from
    both waypoints, near the path, with the last rotation completed. *)
Lemma AngleToTargetFits_true (cfg : Config) (s : Globals) :
  fabs (fR s trackerDiffDelta) / PI * 180 < 45 ->
  fR s targetDist >= 0.3 ->
  fR s lastTargetDist >= 0.3 ->
  fabs (fR s distToPath) <= 1.0 ->
  fB s angleToTargetPrecise = true ->
  fst (AngleToTargetFits cfg s) = true.
Proof.
  intros Hangle Htarget Hlast Hpath Hprecise.
  unfold AngleToTargetFits.
  assert (E1 : (fR s targetDist <? 0.3) = false) by (apply Rltb_false_iff; lra).
  assert (E2 : (fR s lastTargetDist <? 0.3) = false) by (apply Rltb_false_iff; lra).
  assert (E3 : (fabs (fR s distToPath) >? 1.0) = false)
    by (apply Rgtb_false_iff; lra).
  assert (E4 : (fabs (fR s trackerDiffDelta) / PI * 180 <? 45) = true)
    by (apply Rltb_true_iff; lra).
  rewrite E1, E2, E3, E4. cbn [orb]. store. rewrite Hprecise. cbn [negb orb].
  store. destruct (fB s dockTimer), (fB s unDockTimer); reflexivity.
Qed.

(** On the sample tick the gate is true and the Stanley law gives -30
    degrees per second: [p = 2], [k = 1], angle error -22.5 degrees, no
    cross-track error, [2 * -(pi/8) = -(pi/4)], clamped to [-(pi/6)]. *)
Lemma offHeading_tick (maps : Map) :
  targetPoint maps = mkPoint 5 0 ->
  lastTargetPoint maps = mkPoint 0 0 ->
  distanceToTargetPoint maps 2 0 = 3 ->
  distanceToLastTargetPoint maps 2 0 = 2 ->
  trackReverse maps = false ->
  trackSlow maps = false ->
  let e := @trackLine_errors SpecHelper.specHelper sampleConfig (sampleMotor 0.3 0)
             maps offHeadingGlobals in
  let gains := @stanleyGains SpecHelper.specHelper sampleConfig
                 (sampleGps false SOL_FIXED 0 2) (sampleMotor 0.3 0) maps
                 offHeadingGlobals in
  fst (AngleToTargetFits sampleConfig e) = true
  /\ gains = (2, 1)
  /\ max (- PI / 6)
         (min (PI / 6)
              (fst gains * fR e trackerDiffDelta
               + atan2 (snd gains * fR e lateralError)
                       (0.001 + fabs (linearSpeedSet (sampleMotor 0.3 0)))))
     = - (PI / 6)
  /\ fR e lastTargetDist = 2.
Proof.
  intros Htp Hlp Htd Hld Hforward Hnormal e gains.
  pose proof PI_RGT_0 as Hpi.
  destruct (offHeading_errors maps Htp Hlp Htd Hld Hforward)
    as (Hdiff & Hlat & Htarget & Hlast & Hpath).
  destruct (trackLine_errors_inputs SpecHelper.specHelper sampleConfig
              (sampleMotor 0.3 0) maps offHeadingGlobals)
    as (_ & _ & _ & _ & _ & Hprecise).
  fold e in Hdiff, Hlat, Htarget, Hlast, Hpath, Hprecise.
  assert (Hgains : gains = (2, 1)).
  { subst gains. unfold stanleyGains. rewrite Hnormal. reflexivity. }
  split.
  { apply AngleToTargetFits_true.
    - rewrite Hdiff. unfold fabs. rewrite Rabs_left by lra.
      replace (- - (PI / 8) / PI * 180) with (45 / 2) by (field; lra). lra.
    - rewrite Htarget. lra.
    - rewrite Hlast. lra.
    - rewrite Hpath. unfold fabs. rewrite Rabs_R0. lra.
    - rewrite Hprecise. reflexivity. }
  split; [exact Hgains|].
  split; [|exact Hlast].
  rewrite Hgains, Hdiff, Hlat. cbn [fst snd].
  rewrite atan2_positive_x by apply stanley_denominator_positive.
  replace (1 * 0 / (0.001 + fabs (linearSpeedSet (sampleMotor 0.3 0)))) with 0
    by (unfold Rdiv; ring).
  rewrite atan_0. unfold max, min.
  assert (E1 : (PI / 6 <? 2 * - (PI / 8) + 0) = false)
    by (apply Rltb_false_iff; lra).
  rewrite E1.
  assert (E2 : (- PI / 6 >? 2 * - (PI / 8) + 0) = true)
    by (apply Rgtb_true_iff; lra).
  rewrite E2. lra.
Qed.

Lemma trackLine_stanley_command_witness :
  let e := @trackLine_errors SpecHelper.specHelper sampleConfig (sampleMotor 0.3 0)
             sampleMap offHeadingGlobals in
  let r := @trackLine SpecHelper.specHelper sampleConfig true 5000
             (sampleMotor 0.3 0) (sampleGps false SOL_FIXED 0 2) sampleMap
             (sampleDrivers false false false) offHeadingGlobals in
  let gains := @stanleyGains SpecHelper.specHelper sampleConfig
                 (sampleGps false SOL_FIXED 0 2) (sampleMotor 0.3 0) sampleMap
                 offHeadingGlobals in
  let commanded :=
    if @angularOverridden SpecHelper.specHelper sampleConfig (sampleMotor 0.3 0)
         sampleMap (sampleDrivers false false false) offHeadingGlobals
    then 0
    else max (- PI / 6)
           (min (PI / 6)
              (fst gains * fR e trackerDiffDelta
               + atan2 (snd gains * fR e lateralError)
                       (0.001 + fabs (linearSpeedSet (sampleMotor 0.3 0))))) in
  fst (AngleToTargetFits sampleConfig e) = true
  /\ filter isVelocityCommand (snd r)
     = [setLinearAngularSpeed (fR (fst r) linear) commanded true]
  /\ fabs commanded <= PI / 6.
Proof.
  intros e r gains commanded.
  assert (Hgate : fst (AngleToTargetFits sampleConfig e) = true).
  { exact (proj1 (offHeading_tick sampleMap eq_refl eq_refl sample_targetDist
                    sample_lastTargetDist eq_refl eq_refl)). }
  pose proof (trackLine_stanley_command SpecHelper.specHelper sampleConfig 5000
                (sampleMotor 0.3 0) (sampleGps false SOL_FIXED 0 2) sampleMap
                (sampleDrivers false false false) offHeadingGlobals Hgate) as H.
  cbv zeta in H. destruct H as (Hcmd & _ & _ & _ & Hbound).
  split; [exact Hgate|].
  split; [exact Hcmd|exact Hbound].
Defined.

(** The angular velocity sent on the sample tick when it is overridden. *)
Lemma offHeading_overridden (maps : Map) (drv : Drivers) :
  fst (AngleToTargetFits sampleConfig
         (@trackLine_errors SpecHelper.specHelper sampleConfig (sampleMotor 0.3 0)
            maps offHeadingGlobals)) = true ->
  @angularOverridden SpecHelper.specHelper sampleConfig (sampleMotor 0.3 0) maps
    drv offHeadingGlobals = true ->
  let r := @trackLine SpecHelper.specHelper sampleConfig true 5000
             (sampleMotor 0.3 0) (sampleGps false SOL_FIXED 0 2) maps drv
             offHeadingGlobals in
  filter isVelocityCommand (snd r)
  = [setLinearAngularSpeed (fR (fst r) linear) 0 true].
Proof.
  intros Hgate Hover r. subst r.
  rewrite (trackLine_gate_true_command SpecHelper.specHelper sampleConfig 5000
             (sampleMotor 0.3 0) (sampleGps false SOL_FIXED 0 2) maps drv
             offHeadingGlobals Hgate).
  rewrite Hover. reflexivity.
Qed.

(** C3, as stated, fails on the ticks on which the result of the Stanley
    tracker is overridden.  On the sample tick the gate is true and the law
    gives -30 degrees per second, which is not 0; but the angular velocity
    sent to the motor is 0 when the lift driver is triggered, when the robot
    approaches the last dock point ([dockingMap]), and when it leaves the
    dock while undocking ([undockingMap]). *)
Lemma stanley_command_overridden :
  let errors := fun maps =>
    @trackLine_errors SpecHelper.specHelper sampleConfig (sampleMotor 0.3 0) maps
      offHeadingGlobals in
  let gate := fun maps => fst (AngleToTargetFits sampleConfig (errors maps)) in
  let gains := fun maps =>
    @stanleyGains SpecHelper.specHelper sampleConfig
      (sampleGps false SOL_FIXED 0 2) (sampleMotor 0.3 0) maps offHeadingGlobals in
  let law := fun maps =>
    max (- PI / 6)
        (min (PI / 6)
             (fst (gains maps) * fR (errors maps) trackerDiffDelta
              + atan2 (snd (gains maps) * fR (errors maps) lateralError)
                      (0.001 + fabs (linearSpeedSet (sampleMotor 0.3 0))))) in
  let tick := fun maps drv =>
    @trackLine SpecHelper.specHelper sampleConfig true 5000 (sampleMotor 0.3 0)
      (sampleGps false SOL_FIXED 0 2) maps drv offHeadingGlobals in
  let sentAngularZero := fun maps drv =>
    filter isVelocityCommand (snd (tick maps drv))
    = [setLinearAngularSpeed (fR (fst (tick maps drv)) linear) 0 true] in
  - (PI / 6) <> 0
  /\ (gate sampleMap = true /\ law sampleMap = - (PI / 6)
      /\ sentAngularZero sampleMap (sampleDrivers true false false))
  /\ (gate dockingMap = true /\ law dockingMap = - (PI / 6)
      /\ sentAngularZero dockingMap (sampleDrivers false false false))
  /\ (gate undockingMap = true /\ law undockingMap = - (PI / 6)
      /\ sentAngularZero undockingMap (sampleDrivers false false false)).
Proof.
  intros errors gate gains law tick sentAngularZero.
  pose proof PI_RGT_0 as Hpi.
  destruct (offHeading_tick sampleMap eq_refl eq_refl sample_targetDist
              sample_lastTargetDist eq_refl eq_refl) as (Hg1 & _ & Hl1 & _).
  destruct (offHeading_tick dockingMap eq_refl eq_refl sample_targetDist
              sample_lastTargetDist eq_refl eq_refl) as (Hg2 & _ & Hl2 & Hd2).
  destruct (offHeading_tick undockingMap eq_refl eq_refl sample_targetDist
              sample_lastTargetDist eq_refl eq_refl) as (Hg3 & _ & Hl3 & _).
  assert (Ho1 : @angularOverridden SpecHelper.specHelper sampleConfig
                  (sampleMotor 0.3 0) sampleMap (sampleDrivers true false false)
                  offHeadingGlobals = true).
  { unfold angularOverridden.
    match goal with |- context [?a >? ?b] => generalize (a >? b) end.
    intros far. reflexivity. }
  assert (Ho2 : @angularOverridden SpecHelper.specHelper sampleConfig
                  (sampleMotor 0.3 0) dockingMap (sampleDrivers false false false)
                  offHeadingGlobals = true).
  { unfold angularOverridden. rewrite Hd2.
    assert (Hfar : (2 >? DOCK_NO_ROTATION_DISTANCE sampleConfig) = true)
      by (apply Rgtb_true_iff; cbn; lra).
    rewrite Hfar. reflexivity. }
  assert (Ho3 : @angularOverridden SpecHelper.specHelper sampleConfig
                  (sampleMotor 0.3 0) undockingMap (sampleDrivers false false false)
                  offHeadingGlobals = true).
  { unfold angularOverridden.
    match goal with |- context [?a >? ?b] => generalize (a >? b) end.
    intros far. reflexivity. }
  split; [lra|].
  split.
  { split; [exact Hg1|]. split; [exact Hl1|].
    exact (offHeading_overridden sampleMap (sampleDrivers true false false)
             Hg1 Ho1). }
  split.
  { split; [exact Hg2|]. split; [exact Hl2|].
    exact (offHeading_overridden dockingMap (sampleDrivers false false false)
             Hg2 Ho2). }
  split; [exact Hg3|]. split; [exact Hl3|].
  exact (offHeading_overridden undockingMap (sampleDrivers false false false)
           Hg3 Ho3).
Qed.
